(** * REST-backed certificate storage: model and verification

    A shallow embedding of [rest.go] (package [rest], the Caddy storage
    module [caddy.storage.rest]) together with the properties of its
    storage-and-locking protocol.

    Conventions.
    - Go strings are byte strings: [string]; [[]byte] is [list byte].
    - Go [int]/[int64] values are [Z]; [time.Duration] and instants are [Z]
      nanoseconds.
    - A Go function returning [(T, error)] returns [result T]; one returning
      only [error] returns [option error] ([None] is [nil]).
    - Network, clock and logger are threaded explicitly through a [World];
      a run-time panic is an [outcome] of its own.
    - Library functions of the Go distribution and of Caddy that the module
      calls are modelled next to the code that calls them; those whose
      behaviour the module does not depend on in detail ([net/url.Parse],
      [time.Parse]) are fields of the [Runtime] class. *)

From Stdlib Require Import ZArith Lia List String Ascii Bool.
From Stdlib Require Import DecimalString DecimalZ DecimalPos.
From Stdlib.Strings Require Import Byte.
From stdpp Require Import base strings gmap list.

Open Scope string_scope.
Open Scope list_scope.
Open Scope Z_scope.

(* ================================================================== *)
(** * Part I: the model *)
(* ================================================================== *)

(** ** Errors *)

(** The error values that can reach a caller of the module. *)
Inductive error : Type :=
| ErrNotExist                                   (* io/fs.ErrNotExist *)
| errorString (s : string)                      (* errors.New, fmt.Errorf *)
| Canceled                                      (* context.Canceled *)
| DeadlineExceeded                              (* context.DeadlineExceeded *)
| netError (msg : string)                       (* DNS, refused, reset, timeout *)
| urlError (Op URL : string) (Err : error)      (* *url.Error, from Client.Do *)
| jsonError (msg : string)                      (* encoding/json, io.EOF *)
| CorruptInputError                             (* encoding/base64 *)
| ParseError (value : string).                  (* *time.ParseError *)

Inductive result (A : Type) : Type :=
| Ok (a : A)
| Err (e : error).
Arguments Ok {A} a.
Arguments Err {A} e.

(** [errors.Is(err, fs.ErrNotExist)]: follows the [Unwrap] chain. *)
Fixpoint errors_Is_ErrNotExist (err : error) : bool :=
  match err with
  | ErrNotExist => true
  | urlError _ _ e => errors_Is_ErrNotExist e
  | _ => false
  end.

(** [errors.Is(err, context.Canceled) || errors.Is(err, context.DeadlineExceeded)]. *)
Fixpoint is_context_error (err : error) : bool :=
  match err with
  | Canceled | DeadlineExceeded => true
  | urlError _ _ e => is_context_error e
  | _ => false
  end.

(** ** fmt *)

(** [%v] of an [int]: decimal, with a minus sign for negatives. *)
Definition Itoa (z : Z) : string := NilZero.string_of_int (Z.to_int z).

(** Inverse reading of a decimal numeral, used to recover a status code from
    a message. *)
Definition Atoi (s : string) : option Z :=
  match NilZero.int_of_string s with
  | Some d => Some (Z.of_int d)
  | None => None
  end.

(** [fmt.Errorf("unknown status code received: %v", resp.StatusCode)]. *)
Definition unknown_status (code : Z) : error :=
  errorString ("unknown status code received: " +:+ Itoa code).

(** [fmt.Errorf("Unknown status code received: %v", resp.StatusCode)] (Lock). *)
Definition Unknown_status (code : Z) : error :=
  errorString ("Unknown status code received: " +:+ Itoa code).

Fixpoint strip_prefix (p s : string) : option string :=
  match p, s with
  | EmptyString, _ => Some s
  | String a p', String b s' => if Ascii.eqb a b then strip_prefix p' s' else None
  | String _ _, EmptyString => None
  end.

(** The numeric code carried by an unknown-status error, if it is one. *)
Definition status_of_error (e : error) : option Z :=
  match e with
  | errorString msg =>
      match strip_prefix "unknown status code received: " msg with
      | Some digits => Atoi digits
      | None =>
          match strip_prefix "Unknown status code received: " msg with
          | Some digits => Atoi digits
          | None => None
          end
      end
  | _ => None
  end.

(** ** encoding/base64, [StdEncoding] *)

Module base64.

Definition encodeStd : string :=
  "ABCDEFGHIJKLMNOPQRSTUVWXYZabcdefghijklmnopqrstuvwxyz0123456789+/".
Definition StdPadding : ascii := "="%char.

Definition alphabet : list ascii := list_ascii_of_string encodeStd.

(** [enc.encode[i]] *)
Definition encode (i : Z) : ascii := nth (Z.to_nat i) alphabet "000"%char.

Fixpoint index_from (c : ascii) (l : list ascii) (i : Z) : Z :=
  match l with
  | [] => 255
  | x :: l' => if Ascii.eqb x c then i else index_from c l' (i + 1)
  end.

(** [enc.decodeMap[c]]: the position of [c] in the alphabet, [0xff] for a
    byte outside it. *)
Definition decodeMap (c : ascii) : Z := index_from c alphabet 0.

(** [uint(b)] *)
Definition uint (b : byte) : Z := Z.of_N (Byte.to_N b).

(** [byte(v)]: the low eight bits. *)
Definition byte_of (v : Z) : byte :=
  match Byte.of_N (Z.to_N (Z.land v 255)) with
  | Some b => b
  | None => "000"%byte
  end.

(** [val>>k&0x3F] *)
Definition sextet (val k : Z) : Z := Z.land (Z.shiftr val k) 63.

(** [Encoding.Encode]: whole 3-byte groups first, then the remainder of one
    or two bytes with padding. *)
Fixpoint Encode (src : list byte) : list ascii :=
  match src with
  | [] => []
  | [b0] =>
      let val := Z.shiftl (uint b0) 16 in
      [encode (sextet val 18); encode (sextet val 12); StdPadding; StdPadding]
  | [b0; b1] =>
      let val := Z.lor (Z.shiftl (uint b0) 16) (Z.shiftl (uint b1) 8) in
      [encode (sextet val 18); encode (sextet val 12); encode (sextet val 6);
       StdPadding]
  | b0 :: b1 :: b2 :: rest =>
      let val :=
        Z.lor (Z.lor (Z.shiftl (uint b0) 16) (Z.shiftl (uint b1) 8)) (uint b2) in
      encode (sextet val 18) :: encode (sextet val 12)
      :: encode (sextet val 6) :: encode (Z.land val 63) :: Encode rest
  end.

Definition EncodeToString (src : list byte) : string :=
  string_of_list_ascii (Encode src).

Definition is_newline (c : ascii) : bool :=
  Ascii.eqb c "010"%char || Ascii.eqb c "013"%char.

(** [uint(dbuf[0])<<18 | uint(dbuf[1])<<12 | uint(dbuf[2])<<6 | uint(dbuf[3])] *)
Definition assemble (d0 d1 d2 d3 : Z) : Z :=
  Z.lor (Z.lor (Z.lor (Z.shiftl d0 18) (Z.shiftl d1 12)) (Z.shiftl d2 6)) d3.

(** [Encoding.Decode] on input without line breaks, one quantum of four
    characters at a time ([decodeQuantum]).  Padding is only accepted in the
    last quantum, as [xx==] or [xxx=]; the encoding is not strict, so the
    unused low bits of a padded quantum are not checked. *)
Fixpoint decodeQuanta (src : list ascii) : option (list byte) :=
  match src with
  | [] => Some []
  | [_] => None
  | c0 :: c1 :: tl =>
      let d0 := decodeMap c0 in
      let d1 := decodeMap c1 in
      if (d0 =? 255) || (d1 =? 255) then None else
      match tl with
      | [] => None
      | c2 :: tl2 =>
          let d2 := decodeMap c2 in
          if negb (d2 =? 255) then
            match tl2 with
            | [] => None
            | c3 :: rest =>
                let d3 := decodeMap c3 in
                if negb (d3 =? 255) then
                  let val := assemble d0 d1 d2 d3 in
                  match decodeQuanta rest with
                  | Some out =>
                      Some (byte_of (Z.shiftr val 16) :: byte_of (Z.shiftr val 8)
                            :: byte_of val :: out)
                  | None => None
                  end
                else if Ascii.eqb c3 StdPadding then
                  match rest with
                  | [] =>
                      let val := assemble d0 d1 d2 0 in
                      Some [byte_of (Z.shiftr val 16); byte_of (Z.shiftr val 8)]
                  | _ :: _ => None
                  end
                else None
            end
          else if Ascii.eqb c2 StdPadding then
            match tl2 with
            | [c3] =>
                if Ascii.eqb c3 StdPadding then
                  let val := assemble d0 d1 0 0 in
                  Some [byte_of (Z.shiftr val 16)]
                else None
            | _ => None
            end
          else None
      end
  end.

(** [Encoding.DecodeString]: carriage returns and line feeds are skipped
    wherever they occur; any other defect is a [CorruptInputError]. *)
Definition DecodeString (s : string) : result (list byte) :=
  match decodeQuanta
          (List.filter (fun c => negb (is_newline c)) (list_ascii_of_string s)) with
  | Some out => Ok out
  | None => Err CorruptInputError
  end.

End base64.

(** ** strings *)

Definition upper (c : ascii) : ascii :=
  let n := nat_of_ascii c in
  if ((97 <=? n) && (n <=? 122))%nat then ascii_of_nat (n - 32) else c.

Definition lower (c : ascii) : ascii :=
  let n := nat_of_ascii c in
  if ((65 <=? n) && (n <=? 90))%nat then ascii_of_nat (n + 32) else c.

(** [strings.ToLower], on ASCII. *)
Fixpoint ToLower (s : string) : string :=
  match s with
  | EmptyString => EmptyString
  | String c s' => String (lower c) (ToLower s')
  end.

(** [strings.HasSuffix] *)
Definition HasSuffix (s suffix : string) : bool :=
  (String.length suffix <=? String.length s)%nat
  && String.eqb
       (substring (String.length s - String.length suffix) (String.length suffix) s)
       suffix.

(** The part of [s] before the first [sep]: the first result of
    [strings.Cut(s, sep)] for a one-byte separator. *)
Fixpoint before (sep : ascii) (s : string) : string :=
  match s with
  | EmptyString => EmptyString
  | String c s' => if Ascii.eqb c sep then EmptyString else String c (before sep s')
  end.

Definition contains (c : ascii) (s : string) : bool :=
  existsb (Ascii.eqb c) (list_ascii_of_string s).

(** ** encoding/json *)

(** A JSON document as [encoding/json]'s scanner sees it.  Number literals
    with a fraction or an exponent are kept as text: [strconv.ParseInt]
    rejects them when the target is an integer. *)
#[warnings="-register-all"]
Inductive json : Type :=
| JNull
| JBool (b : bool)
| JInt (z : Z)
| JFloat (literal : string)
| JStr (s : string)
| JArr (elems : list json)
| JObj (members : list (string * json)).

(** What [json.NewDecoder(resp.Body).Decode] finds in a response body:
    reading or scanning fails with an error (empty body, malformed JSON,
    broken connection), or there is a first JSON value. *)
Inductive Body : Type :=
| BodyError (e : error)
| BodyJSON (v : json).

Module json_decode.

(** [foldName]: ASCII letters to upper case; the two non-ASCII runes that
    fold to an ASCII letter, U+212A (Kelvin sign, bytes E2 84 AA) and U+017F
    (long s, bytes C5 BF), to [K] and [S]. *)
Fixpoint foldName (s : string) : string :=
  match s with
  | String "226"%char (String "132"%char (String "170"%char s')) =>
      String "K"%char (foldName s')
  | String "197"%char (String "191"%char s') => String "S"%char (foldName s')
  | String c s' => String (upper c) (foldName s')
  | EmptyString => EmptyString
  end.

Fixpoint index_where {A} (p : A -> bool) (l : list A) (i : nat) : option nat :=
  match l with
  | [] => None
  | x :: l' => if p x then Some i else index_where p l' (S i)
  end.

(** The struct field a member name selects: an exact match of the field's
    JSON name, otherwise a match up to case folding. *)
Definition find_field (names : list string) (key : string) : option nat :=
  match index_where (String.eqb key) names 0 with
  | Some i => Some i
  | None => index_where (fun n => String.eqb (foldName n) (foldName key)) names 0
  end.

Definition type_error (target : string) : error :=
  jsonError ("json: cannot unmarshal into Go value of type " +:+ target).

(** Decoding a value into a field of the given Go type.  [null] leaves the
    field as it is. *)
Definition into_string (v : json) (old : string) : result string :=
  match v with
  | JStr s => Ok s
  | JNull => Ok old
  | _ => Err (type_error "string")
  end.

Definition into_bool (v : json) (old : bool) : result bool :=
  match v with
  | JBool b => Ok b
  | JNull => Ok old
  | _ => Err (type_error "bool")
  end.

Definition into_int64 (v : json) (old : Z) : result Z :=
  match v with
  | JInt z =>
      if (-9223372036854775808 <=? z) && (z <=? 9223372036854775807)
      then Ok z else Err (type_error "int64")
  | JNull => Ok old
  | _ => Err (type_error "int64")
  end.

Fixpoint into_strings_elems (vs : list json) : result (list string) :=
  match vs with
  | [] => Ok []
  | v :: vs' =>
      match into_string v "" with
      | Ok s =>
          match into_strings_elems vs' with
          | Ok ss => Ok (s :: ss)
          | Err e => Err e
          end
      | Err e => Err e
      end
  end.

Definition into_strings (v : json) (old : list string) : result (list string) :=
  match v with
  | JArr vs => into_strings_elems vs
  | JNull => Ok old
  | _ => Err (type_error "[]string")
  end.

(** The members of an object, in order, each decoded into the field it
    selects; members that select no field are skipped; a later member
    overwrites an earlier one. *)
Fixpoint decode_members {T} (names : list string)
    (set : nat -> json -> T -> result T)
    (members : list (string * json)) (acc : T) : result T :=
  match members with
  | [] => Ok acc
  | (k, v) :: members' =>
      match find_field names k with
      | None => decode_members names set members' acc
      | Some i =>
          match set i v acc with
          | Ok acc' => decode_members names set members' acc'
          | Err e => Err e
          end
      end
  end.

(** [Decode(&x)] for a struct [x] that starts at its zero value. *)
Definition Decode {T} (names : list string)
    (set : nat -> json -> T -> result T) (zero : T) (b : Body) : result T :=
  match b with
  | BodyError e => Err e
  | BodyJSON JNull => Ok zero
  | BodyJSON (JObj members) => decode_members names set members zero
  | BodyJSON _ => Err (type_error "struct")
  end.

End json_decode.

(** ** The Go runtime the module depends on *)

(** Library functions whose results the module only inspects for success:
    - [url_Parse_ok u]: [net/url.Parse u] returns no error;
    - [time_Parse_RFC3339 s]: [time.Parse(time.RFC3339, s)]. *)
Class Runtime : Type := {
  url_Parse_ok : string -> bool;
  Time : Type;
  time_Parse_RFC3339 : string -> result Time;
}.

(** ** github.com/caddyserver/caddy/v2/caddyconfig/caddyfile *)

Module caddyfile.

Record Token : Type := { File : string; Line : Z; Text : string }.

(** A [Dispenser]: the tokens and the index of the current one, [-1]
    before the first call to [Next]. *)
Record Dispenser : Type := { tokens : list Token; cursor : Z }.

Definition NewDispenser (toks : list Token) : Dispenser :=
  {| tokens := toks; cursor := -1 |}.

Definition len (d : Dispenser) : Z := Z.of_nat (length (tokens d)).

Definition token_at (d : Dispenser) (i : Z) : option Token :=
  if i <? 0 then None else tokens d !! Z.to_nat i.

(** [d.Next()]: the result and the dispenser afterwards. *)
Definition Next (d : Dispenser) : bool * Dispenser :=
  if cursor d <? len d - 1
  then (true, {| tokens := tokens d; cursor := cursor d + 1 |})
  else (false, d).

(** [d.Val()] *)
Definition Val (d : Dispenser) : string :=
  match token_at d (cursor d) with
  | Some t => Text t
  | None => ""
  end.

Fixpoint count_newlines (s : string) : Z :=
  match s with
  | EmptyString => 0
  | String c s' => (if Ascii.eqb c "010"%char then 1 else 0) + count_newlines s'
  end.

Definition isNextOnNewLine (t1 t2 : Token) : bool :=
  negb (String.eqb (File t1) (File t2))
  || (Line t1 + count_newlines (Text t1) <? Line t2).

Definition nextOnSameLine (d : Dispenser) : bool * Dispenser :=
  if cursor d <? 0 then (true, {| tokens := tokens d; cursor := cursor d + 1 |})
  else if len d - 1 <=? cursor d then (false, d)
  else
    match token_at d (cursor d), token_at d (cursor d + 1) with
    | Some curr, Some next =>
        if negb (isNextOnNewLine curr next)
        then (true, {| tokens := tokens d; cursor := cursor d + 1 |})
        else (false, d)
    | _, _ => (false, d)
    end.

(** [d.NextArg()]: the next token if it is on the same line and does not
    open a block. *)
Definition NextArg (d : Dispenser) : bool * Dispenser :=
  let '(ok, d1) := nextOnSameLine d in
  if negb ok then (false, d1)
  else if String.eqb (Val d1) "{"
       then (false, {| tokens := tokens d1; cursor := cursor d1 - 1 |})
       else (true, d1).

(** [d.Args(&value)] with one target: [Some v] when it returns true and has
    stored [v], [None] when it returns false and has left the target alone. *)
Definition Args (d : Dispenser) : option string * Dispenser :=
  let '(ok, d1) := NextArg d in
  if ok then (Some (Val d1), d1) else (None, d1).

End caddyfile.

(** ** The storage module *)

(** [RestStorage]; its logger writes to the [World] below. *)
Record RestStorage : Type := { Endpoint : string; ApiKey : string }.

(** [Provision]: the endpoint gets its trailing separator, placeholders in
    the key are replaced; [ReplaceAll] is the method of the replacer that
    [caddy.NewReplacer()] returns. *)
Definition Provision (ReplaceAll : string -> string -> string) (r : RestStorage)
  : RestStorage * option error :=
  let r1 :=
    if negb (HasSuffix (Endpoint r) "/")
    then {| Endpoint := Endpoint r +:+ "/"; ApiKey := ApiKey r |}
    else r in
  ({| Endpoint := Endpoint r1; ApiKey := ReplaceAll (ApiKey r1) "" |}, None).

Definition Validate (r : RestStorage) : option error :=
  if String.eqb (Endpoint r) "" then Some (errorString "endpoint must be specified")
  else if String.eqb (ApiKey r) "" then Some (errorString "api key must be defined")
  else None.

(** The body of [switch key] in [UnmarshalCaddyfile]: a Go case does not
    fall through, so a case with no statements does nothing. *)
Definition assign_directive (r : RestStorage) (key value : string) : RestStorage :=
  if String.eqb key "endpoint" then {| Endpoint := value; ApiKey := ApiKey r |}
  else if String.eqb key "apikey" then r
  else if String.eqb key "apiKey" then r
  else if String.eqb key "ApiKey" then {| Endpoint := Endpoint r; ApiKey := value |}
  else r.

(** [for d.Next() { ... }]; [None] when the fuel does not suffice. *)
Fixpoint UnmarshalCaddyfile_loop (fuel : nat) (r : RestStorage)
    (d : caddyfile.Dispenser)
  : option (RestStorage * caddyfile.Dispenser * option error) :=
  match fuel with
  | O => None
  | S fuel' =>
      let '(more, d1) := caddyfile.Next d in
      if negb more then Some (r, d1, None)
      else
        let key := caddyfile.Val d1 in
        match caddyfile.Args d1 with
        | (None, d2) => UnmarshalCaddyfile_loop fuel' r d2
        | (Some value, d2) =>
            UnmarshalCaddyfile_loop fuel' (assign_directive r key value) d2
        end
  end.

(** Every iteration moves the cursor forward, so this many iterations are
    enough (see [UnmarshalCaddyfile_total]). *)
Definition UnmarshalCaddyfile_fuel (d : caddyfile.Dispenser) : nat :=
  S (Z.to_nat (caddyfile.len d - caddyfile.cursor d)).

Definition UnmarshalCaddyfile (r : RestStorage) (d : caddyfile.Dispenser)
  : option (RestStorage * caddyfile.Dispenser * option error) :=
  UnmarshalCaddyfile_loop (UnmarshalCaddyfile_fuel d) r d.

(** ** context *)

(** A [context.Context], seen from the logical clock: [Background] is never
    done; [DoneAt t cause] has its [Done] channel closed from instant [t]
    on, after which [ctx.Err()] is [cause] ([Canceled] or
    [DeadlineExceeded]).  The instant is fixed by the caller, not known to
    the module. *)
Inductive Context : Type :=
| Background
| DoneAt (t : Z) (cause : error).

(** [ctx.Err()] at instant [now]. *)
Definition ctx_Err (ctx : Context) (now : Z) : option error :=
  match ctx with
  | Background => None
  | DoneAt t cause => if t <=? now then Some cause else None
  end.

(** ** time *)

Definition Second : Z := 1000000000.

(** ** net/http *)

Record Response : Type := { StatusCode : Z; RespBody : Body }.

Record Request : Type := {
  Method : string;
  URL : string;
  Header : list (string * string);
  ReqBody : json;
  req_ctx : Context;
}.

(** [isTokenTable]: the characters allowed in a method name. *)
Definition is_token_char (c : ascii) : bool :=
  let n := nat_of_ascii c in
  (((48 <=? n) && (n <=? 57)) || ((65 <=? n) && (n <=? 90))
   || ((97 <=? n) && (n <=? 122)))%nat
  || existsb (Ascii.eqb c) (list_ascii_of_string "!#$%&'*+-.^_`|~").

(** [validMethod] *)
Definition validMethod (method : string) : bool :=
  (0 <? String.length method)%nat
  && forallb is_token_char (list_ascii_of_string method).

(** [http.NewRequestWithContext(ctx, method, url, body)] for a non-nil
    context: [None] stands for the result [(nil, err)]. *)
Definition NewRequestWithContext `{Runtime}
    (ctx : Context) (method url : string) (body : json) : option Request :=
  let method := if String.eqb method "" then "GET" else method in
  if negb (validMethod method) then None
  else if negb (url_Parse_ok url) then None
  else Some {| Method := method; URL := url; Header := [];
               ReqBody := body; req_ctx := ctx |}.

Fixpoint canonical_from (upper_next : bool) (s : string) : string :=
  match s with
  | EmptyString => EmptyString
  | String c s' =>
      String (if upper_next then upper c else lower c)
             (canonical_from (Ascii.eqb c "-"%char) s')
  end.

(** [textproto.CanonicalMIMEHeaderKey]: the first letter and every letter
    after a hyphen in upper case, the others in lower case; a key that is
    not a token is left as it is. *)
Definition CanonicalMIMEHeaderKey (key : string) : string :=
  if forallb is_token_char (list_ascii_of_string key)
  then canonical_from true key else key.

(** [req.Header.Add(key, value)] *)
Definition Header_Add (req : Request) (key value : string) : Request :=
  {| Method := Method req; URL := URL req;
     Header := Header req ++ [(CanonicalMIMEHeaderKey key, value)];
     ReqBody := ReqBody req; req_ctx := req_ctx req |}.

(** [urlErrorOp]: ["POST"] gives ["Post"]. *)
Definition urlErrorOp (method : string) : string :=
  match method with
  | EmptyString => "Get"
  | String c s' => String c (ToLower s')
  end.

(** ** The remote service and the world *)

(** One request/response exchange as the remote side and the network
    decide it: how long it takes, and a transport failure or a response. *)
Record Exchange : Type := { latency : N; reply : result Response }.

(** The remote service: any state, and what it does with a request. *)
Class Remote : Type := {
  remote_state : Type;
  exchange : Request -> remote_state -> Exchange * remote_state;
}.

Inductive Level : Type := InfoLevel | ErrorLevel.

(** What the module acts on: the remote service, the clock (nanoseconds),
    the requests written to the network with the instant of writing (newest
    first), and the logger's output (newest first). *)
Record World `{Remote} : Type := {
  remote : remote_state;
  now : Z;
  wire : list (Z * Request);
  logged : list (Level * string);
}.

(** How a call ends: it returns, it panics, or (for the lock loop, when
    the fuel of the model runs out) it is still running. *)
Inductive outcome (A : Type) : Type :=
| Ret (a : A)
| Panic (msg : string)
| Running.
Arguments Ret {A} a.
Arguments Panic {A} msg.
Arguments Running {A}.

Definition M `{Remote} (A : Type) : Type := World -> outcome A * World.

Definition ret `{Remote} {A} (a : A) : M A := fun w => (Ret a, w).

Definition bind `{Remote} {A B} (m : M A) (k : A -> M B) : M B :=
  fun w =>
    match m w with
    | (Ret a, w') => k a w'
    | (Panic msg, w') => (Panic msg, w')
    | (Running, w') => (Running, w')
    end.

Notation "'let*' x ':=' m 'in' k" := (bind m (fun x => k))
  (at level 10, x name, m at level 100, k at level 200).
Notation "m ';;' k" := (bind m (fun _ => k))
  (at level 100, k at level 200, right associativity).

Definition panic `{Remote} {A} (msg : string) : M A := fun w => (Panic msg, w).

Definition nil_dereference : string :=
  "runtime error: invalid memory address or nil pointer dereference".

(** [time.Sleep(d)] *)
Definition time_Sleep `{Remote} (d : Z) : M unit :=
  fun w => (Ret tt, {| remote := remote w; now := now w + Z.max 0 d;
                       wire := wire w; logged := logged w |}).

(** [r.logger.Info(msg)] and [r.logger.Error(msg)] *)
Definition logger_log `{Remote} (lvl : Level) (msg : string) : M unit :=
  fun w => (Ret tt, {| remote := remote w; now := now w; wire := wire w;
                       logged := (lvl, msg) :: logged w |}).

(** [httpClient.Do(req)] for the zero-value client, which has no timeout
    of its own.  One [Exchange] stands for all that happens between writing
    the request and having the final response.
    - A request whose context is already done fails with the context's
      error and nothing is written to the network.
    - Otherwise the request is written and the remote side handles it; if
      the context becomes done before the response has arrived, the call
      returns at that instant with the context's error.
    - Otherwise it returns the response, or the transport failure, when the
      exchange ends.
    Every error comes wrapped in a [*url.Error]. *)
Definition Do `{Remote} (req : Request) : M (result Response) :=
  fun w =>
    let wrap e := urlError (urlErrorOp (Method req)) (URL req) e in
    match ctx_Err (req_ctx req) (now w) with
    | Some cause => (Ret (Err (wrap cause)), w)
    | None =>
        let '(x, s') := exchange req (remote w) in
        let arrives := now w + Z.of_N (latency x) in
        let sent t := {| remote := s'; now := t;
                         wire := (now w, req) :: wire w; logged := logged w |} in
        match req_ctx req with
        | DoneAt t cause =>
            if t <? arrives then (Ret (Err (wrap cause)), sent t)
            else
              match reply x with
              | Ok resp => (Ret (Ok resp), sent arrives)
              | Err e => (Ret (Err (wrap e)), sent arrives)
              end
        | Background =>
            match reply x with
            | Ok resp => (Ret (Ok resp), sent arrives)
            | Err e => (Ret (Err (wrap e)), sent arrives)
            end
        end
    end.

(** ** Request payloads *)

Record LockRequest : Type := { LockRequest_Key : string }.
Record UnlockRequest : Type := { UnlockRequest_Key : string }.
Record StoreRequest : Type := { StoreRequest_Key : string; StoreRequest_Value : string }.
Record LoadRequest : Type := { LoadRequest_Key : string }.
Record DeleteRequest : Type := { DeleteRequest_Key : string }.
Record ExistsRequest : Type := { ExistsRequest_Key : string }.
Record ListRequest : Type := { ListRequest_Prefix : string; ListRequest_Recursive : bool }.
Record StatRequest : Type := { StatRequest_Key : string }.

(** The dynamic type [any] of [client]'s payload: one of the request
    structs, or any other Go value, given by what [json.Marshal] makes of
    it. *)
Inductive any : Type :=
| anyLock (v : LockRequest)
| anyUnlock (v : UnlockRequest)
| anyStore (v : StoreRequest)
| anyLoad (v : LoadRequest)
| anyDelete (v : DeleteRequest)
| anyExists (v : ExistsRequest)
| anyList (v : ListRequest)
| anyStat (v : StatRequest)
| anyOther (marshalled : result json).

(** [json.Marshal]: the structs go by their field tags. *)
Definition json_Marshal (v : any) : result json :=
  match v with
  | anyLock v => Ok (JObj [("key", JStr (LockRequest_Key v))])
  | anyUnlock v => Ok (JObj [("key", JStr (UnlockRequest_Key v))])
  | anyStore v =>
      Ok (JObj [("key", JStr (StoreRequest_Key v));
                ("value", JStr (StoreRequest_Value v))])
  | anyLoad v => Ok (JObj [("key", JStr (LoadRequest_Key v))])
  | anyDelete v => Ok (JObj [("key", JStr (DeleteRequest_Key v))])
  | anyExists v => Ok (JObj [("key", JStr (ExistsRequest_Key v))])
  | anyList v =>
      Ok (JObj [("prefix", JStr (ListRequest_Prefix v));
                ("recursive", JBool (ListRequest_Recursive v))])
  | anyStat v => Ok (JObj [("key", JStr (StatRequest_Key v))])
  | anyOther marshalled => marshalled
  end.

(** ** Response payloads *)

Record LoadResponse : Type := { LoadResponse_Value : string }.
Record ExistsResponse : Type := { ExistsResponse_Exists : bool }.
Record ListResponse : Type := { ListResponse_Keys : list string }.
Record StatResponse : Type := {
  StatResponse_Key : string;
  StatResponse_Modified : string;
  StatResponse_Size : Z;
  StatResponse_IsTerminal : bool;
}.

(** [certmagic.KeyInfo] *)
Record KeyInfo `{Runtime} : Type := {
  KeyInfo_Key : string;
  KeyInfo_Modified : Time;
  KeyInfo_Size : Z;
  KeyInfo_IsTerminal : bool;
}.

Definition map_result {A B} (f : A -> B) (x : result A) : result B :=
  match x with
  | Ok a => Ok (f a)
  | Err e => Err e
  end.

Definition decode_LoadResponse : Body -> result LoadResponse :=
  json_decode.Decode ["value"]
    (fun _ v acc => map_result Build_LoadResponse
                      (json_decode.into_string v (LoadResponse_Value acc)))
    {| LoadResponse_Value := "" |}.

Definition decode_ExistsResponse : Body -> result ExistsResponse :=
  json_decode.Decode ["exists"]
    (fun _ v acc => map_result Build_ExistsResponse
                      (json_decode.into_bool v (ExistsResponse_Exists acc)))
    {| ExistsResponse_Exists := false |}.

Definition decode_ListResponse : Body -> result ListResponse :=
  json_decode.Decode ["keys"]
    (fun _ v acc => map_result Build_ListResponse
                      (json_decode.into_strings v (ListResponse_Keys acc)))
    {| ListResponse_Keys := [] |}.

Definition set_StatResponse (i : nat) (v : json) (acc : StatResponse)
  : result StatResponse :=
  match i with
  | 0%nat =>
      map_result (fun s => {| StatResponse_Key := s;
                              StatResponse_Modified := StatResponse_Modified acc;
                              StatResponse_Size := StatResponse_Size acc;
                              StatResponse_IsTerminal := StatResponse_IsTerminal acc |})
                 (json_decode.into_string v (StatResponse_Key acc))
  | 1%nat =>
      map_result (fun s => {| StatResponse_Key := StatResponse_Key acc;
                              StatResponse_Modified := s;
                              StatResponse_Size := StatResponse_Size acc;
                              StatResponse_IsTerminal := StatResponse_IsTerminal acc |})
                 (json_decode.into_string v (StatResponse_Modified acc))
  | 2%nat =>
      map_result (fun z => {| StatResponse_Key := StatResponse_Key acc;
                              StatResponse_Modified := StatResponse_Modified acc;
                              StatResponse_Size := z;
                              StatResponse_IsTerminal := StatResponse_IsTerminal acc |})
                 (json_decode.into_int64 v (StatResponse_Size acc))
  | _ =>
      map_result (fun b => {| StatResponse_Key := StatResponse_Key acc;
                              StatResponse_Modified := StatResponse_Modified acc;
                              StatResponse_Size := StatResponse_Size acc;
                              StatResponse_IsTerminal := b |})
                 (json_decode.into_bool v (StatResponse_IsTerminal acc))
  end.

Definition decode_StatResponse : Body -> result StatResponse :=
  json_decode.Decode ["key"; "modified"; "size"; "isTerminal"] set_StatResponse
    {| StatResponse_Key := ""; StatResponse_Modified := "";
       StatResponse_Size := 0; StatResponse_IsTerminal := false |}.

(** ** Transport *)

(** [client]: one JSON exchange with the remote endpoint.  The error of
    [http.NewRequestWithContext] is assigned but never read; when request
    construction fails [req] is nil and [req.Header] dereferences it. *)
Definition client `{Runtime} `{Remote} (r : RestStorage) (ctx : Context)
    (method path : string) (dataStruct : any) : M (result Response) :=
  match json_Marshal dataStruct with
  | Err err => ret (Err err)
  | Ok requestBody =>
      match NewRequestWithContext ctx method (Endpoint r +:+ path) requestBody with
      | None => panic nil_dereference
      | Some req =>
          let req := Header_Add req "Content-Type" "application/json" in
          let req := Header_Add req "x-api-key" (ApiKey r) in
          let* res := Do req in
          match res with
          | Err err => ret (Err err)
          | Ok resp => ret (Ok resp)
          end
      end
  end.

(** The request [client] puts together when nothing fails. *)
Definition built_request (r : RestStorage) (ctx : Context)
    (method path : string) (body : json) : Request :=
  {| Method := method; URL := Endpoint r +:+ path;
     Header := [("Content-Type", "application/json"); ("X-Api-Key", ApiKey r)];
     ReqBody := body; req_ctx := ctx |}.

(** The world after [Do] has written [req] at the current instant and
    returned at instant [t], the remote side being left in state [s]. *)
Definition after_exchange `{Remote} (w : World) (req : Request)
    (s : remote_state) (t : Z) : World :=
  {| remote := s; now := t; wire := (now w, req) :: wire w; logged := logged w |}.

(** ** Lock manager *)

Definition LF : string := String "010"%char EmptyString.

(** [Lock]: the [for] loop, each iteration one unit of fuel. *)
Fixpoint Lock `{Runtime} `{Remote} (fuel : nat) (r : RestStorage)
    (ctx : Context) (key : string) : M (option error) :=
  match fuel with
  | O => fun w => (Running, w)
  | S fuel' =>
      let* res := client r ctx "POST" "lock" (anyLock {| LockRequest_Key := key |}) in
      match res with
      | Err err => ret (Some err)
      | Ok resp =>
          if StatusCode resp =? 201 then ret None
          else
            let* failed :=
              (if StatusCode resp =? 423 then
                 logger_log InfoLevel ("Key " +:+ key +:+ " is already locked.");;
                 ret None
               else if StatusCode resp =? 412 then
                 logger_log ErrorLevel
                   ("Error locking key " +:+ key +:+ ": "
                    +:+ Itoa (StatusCode resp) +:+ " ; Will try again." +:+ LF);;
                 ret None
               else ret (Some (Unknown_status (StatusCode resp)))) in
            match failed with
            | Some err => ret (Some err)
            | None => time_Sleep (5 * Second);; Lock fuel' r ctx key
            end
      end
  end.

Definition Unlock `{Runtime} `{Remote} (r : RestStorage) (ctx : Context)
    (key : string) : M (option error) :=
  let* res := client r ctx "POST" "unlock" (anyUnlock {| UnlockRequest_Key := key |}) in
  match res with
  | Err err => ret (Some err)
  | Ok resp =>
      if negb (StatusCode resp =? 204) then ret (Some (unknown_status (StatusCode resp)))
      else ret None
  end.

(** ** Key/value operations *)

Definition Store `{Runtime} `{Remote} (r : RestStorage) (ctx : Context)
    (key : string) (value : list byte) : M (option error) :=
  let valueEnc := base64.EncodeToString value in
  let* res := client r ctx "POST" "store"
                (anyStore {| StoreRequest_Key := key; StoreRequest_Value := valueEnc |}) in
  match res with
  | Err err => ret (Some err)
  | Ok resp =>
      if negb (StatusCode resp =? 201) then ret (Some (unknown_status (StatusCode resp)))
      else ret None
  end.

Definition Load `{Runtime} `{Remote} (r : RestStorage) (ctx : Context)
    (key : string) : M (result (list byte)) :=
  let* res := client r ctx "POST" "load" (anyLoad {| LoadRequest_Key := key |}) in
  match res with
  | Err err => ret (Err err)
  | Ok resp =>
      if StatusCode resp =? 404 then ret (Err ErrNotExist)
      else if negb (StatusCode resp =? 200) then ret (Err (unknown_status (StatusCode resp)))
      else
        match decode_LoadResponse (RespBody resp) with
        | Err err => ret (Err err)
        | Ok loadResp =>
            match base64.DecodeString (LoadResponse_Value loadResp) with
            | Err err => ret (Err err)
            | Ok valueDec => ret (Ok valueDec)
            end
        end
  end.

Definition Delete `{Runtime} `{Remote} (r : RestStorage) (ctx : Context)
    (key : string) : M (option error) :=
  let* res := client r ctx "DELETE" "delete" (anyDelete {| DeleteRequest_Key := key |}) in
  match res with
  | Err err => ret (Some err)
  | Ok resp =>
      if StatusCode resp =? 404 then ret (Some ErrNotExist)
      else if negb (StatusCode resp =? 204) then ret (Some (unknown_status (StatusCode resp)))
      else ret None
  end.

Definition Exists `{Runtime} `{Remote} (r : RestStorage) (ctx : Context)
    (key : string) : M bool :=
  let* res := client r ctx "POST" "exists" (anyExists {| ExistsRequest_Key := key |}) in
  match res with
  | Err _ => ret false
  | Ok resp =>
      if negb (StatusCode resp =? 200) then ret false
      else
        match decode_ExistsResponse (RespBody resp) with
        | Err _ => ret false
        | Ok existsResp => ret (ExistsResponse_Exists existsResp)
        end
  end.

Definition List `{Runtime} `{Remote} (r : RestStorage) (ctx : Context)
    (prefix : string) (recursive : bool) : M (result (list string)) :=
  let* res := client r ctx "POST" "list"
                (anyList {| ListRequest_Prefix := prefix;
                            ListRequest_Recursive := recursive |}) in
  match res with
  | Err err => ret (Err err)
  | Ok resp =>
      if StatusCode resp =? 404 then ret (Err ErrNotExist)
      else if negb (StatusCode resp =? 200) then ret (Err (unknown_status (StatusCode resp)))
      else
        match decode_ListResponse (RespBody resp) with
        | Err err => ret (Err err)
        | Ok listResp => ret (Ok (ListResponse_Keys listResp))
        end
  end.

Definition Stat `{Runtime} `{Remote} (r : RestStorage) (ctx : Context)
    (key : string) : M (result KeyInfo) :=
  let* res := client r ctx "POST" "stat" (anyStat {| StatRequest_Key := key |}) in
  match res with
  | Err err => ret (Err err)
  | Ok resp =>
      if StatusCode resp =? 404 then ret (Err ErrNotExist)
      else if negb (StatusCode resp =? 200) then ret (Err (unknown_status (StatusCode resp)))
      else
        match decode_StatResponse (RespBody resp) with
        | Err err => ret (Err err)
        | Ok statResp =>
            match time_Parse_RFC3339 (StatResponse_Modified statResp) with
            | Err err => ret (Err err)
            | Ok parsedTime =>
                ret (Ok {| KeyInfo_Key := StatResponse_Key statResp;
                           KeyInfo_Modified := parsedTime;
                           KeyInfo_Size := StatResponse_Size statResp;
                           KeyInfo_IsTerminal := StatResponse_IsTerminal statResp |})
            end
        end
  end.

(** ** The operations as a family *)

(** A call of one of the six key/value operations. *)
Inductive Call : Type :=
| CallStore (key : string) (value : list byte)
| CallLoad (key : string)
| CallDelete (key : string)
| CallExists (key : string)
| CallList (prefix : string) (recursive : bool)
| CallStat (key : string).

(** The status codes the operation's table lists (success, not found). *)
Definition expected_status (c : Call) : list Z :=
  match c with
  | CallStore _ _ => [201]
  | CallLoad _ => [200; 404]
  | CallDelete _ => [204; 404]
  | CallExists _ => [200]
  | CallList _ _ => [200; 404]
  | CallStat _ => [200; 404]
  end.

Definition error_of {A} (x : result A) : option error :=
  match x with
  | Ok _ => None
  | Err e => Some e
  end.

(** The transport call the operation makes. *)
Definition call_transport `{Runtime} `{Remote} (r : RestStorage) (ctx : Context)
    (c : Call) : M (result Response) :=
  match c with
  | CallStore key value =>
      client r ctx "POST" "store"
        (anyStore {| StoreRequest_Key := key;
                     StoreRequest_Value := base64.EncodeToString value |})
  | CallLoad key => client r ctx "POST" "load" (anyLoad {| LoadRequest_Key := key |})
  | CallDelete key =>
      client r ctx "DELETE" "delete" (anyDelete {| DeleteRequest_Key := key |})
  | CallExists key =>
      client r ctx "POST" "exists" (anyExists {| ExistsRequest_Key := key |})
  | CallList prefix recursive =>
      client r ctx "POST" "list"
        (anyList {| ListRequest_Prefix := prefix; ListRequest_Recursive := recursive |})
  | CallStat key => client r ctx "POST" "stat" (anyStat {| StatRequest_Key := key |})
  end.

(** The error value the operation hands to its caller; [Exists] returns a
    [bool] and nothing else. *)
Definition call_error `{Runtime} `{Remote} (r : RestStorage) (ctx : Context)
    (c : Call) : M (option error) :=
  match c with
  | CallStore key value => Store r ctx key value
  | CallLoad key => let* x := Load r ctx key in ret (error_of x)
  | CallDelete key => Delete r ctx key
  | CallExists key => let* _ := Exists r ctx key in ret None
  | CallList prefix recursive => let* x := List r ctx prefix recursive in ret (error_of x)
  | CallStat key => let* x := Stat r ctx key in ret (error_of x)
  end.

(** The sentence on unknown status codes, for one operation: a response
    whose status is not in the operation's table makes the operation return
    an error that carries the status, after that one request. *)
Definition unknown_status_propagates (c : Call) : Prop :=
  forall (rt : Runtime) (rm : Remote) (r : RestStorage) (ctx : Context)
         (w : World) (resp : Response) (w1 : World),
    call_transport r ctx c w = (Ret (Ok resp), w1) ->
    ~ In (StatusCode resp) (expected_status c) ->
    exists e,
      call_error r ctx c w = (Ret (Some e), w1)
      /\ status_of_error e = Some (StatusCode resp)
      /\ length (wire w1) = S (length (wire w)).

(** ** The lock protocol in the words of the specification *)

(** States of one [Lock] call: [Attempting], [Held] (returns success),
    [Failed] (returns the error). *)
Inductive LockState : Type :=
| Attempting
| Held
| Failed (e : error).

(** The transition on what the transport returns: 201 gives [Held]; 423
    and 412 stay in [Attempting]; any other status fails with an unknown
    status error; a transport error fails with that error. *)
Definition lock_transition (x : result Response) : LockState :=
  match x with
  | Err e => Failed e
  | Ok resp =>
      if StatusCode resp =? 201 then Held
      else if (StatusCode resp =? 423) || (StatusCode resp =? 412) then Attempting
      else Failed (Unknown_status (StatusCode resp))
  end.

Definition polling_interval : Z := 5 * Second.

(** A run of the protocol: the state it ends in, the number of lock
    requests it has issued, and the time it has taken. *)
Record LockRun : Type := { final : LockState; requests : nat; elapsed : Z }.

Definition wrap_reply (wrap : error -> error) (x : result Response) : result Response :=
  match x with
  | Ok resp => Ok resp
  | Err e => Err (wrap e)
  end.

(** The answer of a scripted remote whose script is used up. *)
Definition script_exhausted : Exchange :=
  {| latency := 0; reply := Err (netError "EOF") |}.

(** The protocol run against a script of exchanges, one per request:
    while [Attempting], wait one polling interval and issue the next
    request; there is no bound on the number of rounds. *)
Fixpoint lock_machine (wrap : error -> error) (script : list Exchange) : LockRun :=
  match script with
  | [] => {| final := lock_transition (wrap_reply wrap (reply script_exhausted));
             requests := 1; elapsed := 0 |}
  | x :: rest =>
      match lock_transition (wrap_reply wrap (reply x)) with
      | Attempting =>
          let run := lock_machine wrap rest in
          {| final := final run; requests := S (requests run);
             elapsed := Z.of_N (latency x) + polling_interval + elapsed run |}
      | st => {| final := st; requests := 1; elapsed := Z.of_N (latency x) |}
      end
  end.

(** The request every turn of [Lock] sends. *)
Definition lock_request (r : RestStorage) (ctx : Context) (key : string) : Request :=
  built_request r ctx "POST" "lock" (JObj [("key", JStr key)]).

(** What [Lock] logs before it waits, and the world after the wait. *)
Definition lock_log_entry (key : string) (code : Z) : Level * string :=
  if code =? 423 then (InfoLevel, "Key " +:+ key +:+ " is already locked.")
  else (ErrorLevel, "Error locking key " +:+ key +:+ ": " +:+ Itoa code
                    +:+ " ; Will try again." +:+ LF).

Definition after_wait `{Remote} (key : string) (code : Z) (w : World) : World :=
  {| remote := remote w; now := now w + polling_interval; wire := wire w;
     logged := lock_log_entry key code :: logged w |}.

(** What [Lock] returns in a final state. *)
Definition lock_verdict (st : LockState) : outcome (option error) :=
  match st with
  | Held => Ret None
  | Failed e => Ret (Some e)
  | Attempting => Running
  end.

(** ** Remote services *)

(** A scripted remote: it answers the i-th request with the i-th exchange
    of its script, whatever the request. *)
Definition scripted : Remote := {|
  remote_state := list Exchange;
  exchange := fun _ script =>
    match script with
    | x :: rest => (x, rest)
    | [] => (script_exhausted, [])
    end;
|}.

(** A remote that gives the same answer to every request. *)
Definition constant (x : Exchange) : Remote := {|
  remote_state := unit;
  exchange := fun _ s => (x, s);
|}.

Definition respond (code : Z) (body : Body) : Exchange :=
  {| latency := 0; reply := Ok {| StatusCode := code; RespBody := body |} |}.

Definition no_content : Body := BodyError (jsonError "EOF").

(** A remote that keeps the stored text and returns it verbatim:
    [store] records the [value] under the [key] and answers 201; [load]
    answers 200 with the recorded text, or 404; [delete] answers 204 or
    404. *)
Definition kv_exchange (endpoint : string) (req : Request)
    (m : gmap string string) : Exchange * gmap string string :=
  if String.eqb (URL req) (endpoint +:+ "store") then
    match ReqBody req with
    | JObj [("key", JStr k); ("value", JStr v)] => (respond 201 no_content, <[k := v]> m)
    | _ => (respond 400 no_content, m)
    end
  else if String.eqb (URL req) (endpoint +:+ "load") then
    match ReqBody req with
    | JObj [("key", JStr k)] =>
        match m !! k with
        | Some v => (respond 200 (BodyJSON (JObj [("value", JStr v)])), m)
        | None => (respond 404 no_content, m)
        end
    | _ => (respond 400 no_content, m)
    end
  else if String.eqb (URL req) (endpoint +:+ "delete") then
    match ReqBody req with
    | JObj [("key", JStr k)] =>
        match m !! k with
        | Some _ => (respond 204 no_content, delete k m)
        | None => (respond 404 no_content, m)
        end
    | _ => (respond 400 no_content, m)
    end
  else (respond 400 no_content, m).

Definition kv_remote (endpoint : string) : Remote := {|
  remote_state := gmap string string;
  exchange := kv_exchange endpoint;
|}.

(** ** A runtime to compute with *)

(** RFC 3339 date-times, [yyyy-mm-ddThh:mm:ss], an optional fraction, and
    [Z] or a numeric offset. *)
Module rfc3339.

Record DateTime : Type := {
  year : Z; month : Z; day : Z;
  hour : Z; minute : Z; second : Z;
  fraction : string;
  offset_minutes : Z;
}.

Definition digit (c : ascii) : option Z :=
  let n := Z.of_nat (nat_of_ascii c) in
  if (48 <=? n) && (n <=? 57) then Some (n - 48) else None.

(** Exactly [n] digits. *)
Fixpoint number (n : nat) (acc : Z) (s : string) : option (Z * string) :=
  match n with
  | O => Some (acc, s)
  | S n' =>
      match s with
      | String c s' =>
          match digit c with
          | Some d => number n' (10 * acc + d) s'
          | None => None
          end
      | EmptyString => None
      end
  end.

Definition expect (c : ascii) (s : string) : option string :=
  match s with
  | String c' s' => if Ascii.eqb c c' then Some s' else None
  | EmptyString => None
  end.

Fixpoint digits (s : string) : string * string :=
  match s with
  | String c s' =>
      match digit c with
      | Some _ => let '(ds, rest) := digits s' in (String c ds, rest)
      | None => (EmptyString, s)
      end
  | EmptyString => (EmptyString, EmptyString)
  end.

Definition leap (y : Z) : bool :=
  ((y mod 4 =? 0) && negb (y mod 100 =? 0)) || (y mod 400 =? 0).

Definition days_in (y m : Z) : Z :=
  if m =? 2 then (if leap y then 29 else 28)
  else if (m =? 4) || (m =? 6) || (m =? 9) || (m =? 11) then 30
  else 31.

Definition zone (s : string) : option Z :=
  match s with
  | String "Z"%char EmptyString => Some 0
  | String sign s1 =>
      if Ascii.eqb sign "+"%char || Ascii.eqb sign "-"%char then
        '(hh, s2) ← number 2 0 s1;
        s3 ← expect ":"%char s2;
        '(mm, s4) ← number 2 0 s3;
        if String.eqb s4 "" && (hh <? 24) && (mm <? 60)
        then Some ((if Ascii.eqb sign "-"%char then -1 else 1) * (60 * hh + mm))
        else None
      else None
  | EmptyString => None
  end.

Definition parse (s : string) : option DateTime :=
  '(y, s) ← number 4 0 s;
  s ← expect "-"%char s;
  '(mo, s) ← number 2 0 s;
  s ← expect "-"%char s;
  '(d, s) ← number 2 0 s;
  s ← expect "T"%char s;
  '(h, s) ← number 2 0 s;
  s ← expect ":"%char s;
  '(mi, s) ← number 2 0 s;
  s ← expect ":"%char s;
  '(sec, s) ← number 2 0 s;
  '(frac, s) ← match s with
                | String "."%char s' =>
                    let '(ds, rest) := digits s' in
                    if String.eqb ds "" then None else Some (ds, rest)
                | _ => Some (EmptyString, s)
                end;
  off ← zone s;
  if (1 <=? mo) && (mo <=? 12) && (1 <=? d) && (d <=? days_in y mo)
     && (h <? 24) && (mi <? 60) && (sec <? 60)
  then Some {| year := y; month := mo; day := d; hour := h; minute := mi;
               second := sec; fraction := frac; offset_minutes := off |}
  else None.

Definition Parse (s : string) : result DateTime :=
  match parse s with
  | Some t => Ok t
  | None => Err (ParseError s)
  end.

End rfc3339.

(** [net/url.Parse], as far as three of its reasons to fail go: an ASCII
    control byte, a colon as first byte ("missing protocol scheme"), and,
    without a scheme, a first path segment with a colon in it.  What
    [Parse] checks after that (authority, escapes) is not modelled: such
    strings are taken to parse. *)
Module url.

Definition stringContainsCTLByte (s : string) : bool :=
  existsb (fun c => let n := nat_of_ascii c in ((n <? 32) || (n =? 127))%nat)
          (list_ascii_of_string s).

Inductive scheme : Type := NoScheme | HasScheme | MissingScheme.

Definition is_letter (c : ascii) : bool :=
  let n := nat_of_ascii c in
  (((65 <=? n) && (n <=? 90)) || ((97 <=? n) && (n <=? 122)))%nat.

Definition is_scheme_punct (c : ascii) : bool :=
  let n := nat_of_ascii c in
  ((48 <=? n) && (n <=? 57))%nat || contains c "+-.".

(** [getScheme]; [first] says that the byte at hand is the first one. *)
Fixpoint getScheme (first : bool) (s : string) : scheme :=
  match s with
  | EmptyString => NoScheme
  | String c s' =>
      if is_letter c then getScheme false s'
      else if is_scheme_punct c then (if first then NoScheme else getScheme false s')
      else if Ascii.eqb c ":"%char then (if first then MissingScheme else HasScheme)
      else NoScheme
  end.

Definition Parse_ok (rawURL : string) : bool :=
  let u := before "#"%char rawURL in
  if stringContainsCTLByte u then false
  else if String.eqb u "*" then true
  else
    match getScheme true u with
    | MissingScheme => false
    | HasScheme => true
    | NoScheme =>
        let rest := before "?"%char u in
        match rest with
        | String "/"%char _ => true
        | _ => negb (contains ":"%char (before "/"%char rest))
        end
    end.

End url.

(** A runtime with this URL parser, and RFC 3339 date-times as
    timestamps. *)
Definition sample_runtime : Runtime := {|
  url_Parse_ok := url.Parse_ok;
  Time := rfc3339.DateTime;
  time_Parse_RFC3339 := rfc3339.Parse;
|}.

(** A provisioned module and a world to start from. *)
Definition sample_storage : RestStorage :=
  {| Endpoint := "https://myapi.com/handle-tls-storage-methods/";
     ApiKey := "VERY-SECURE-API-KEY" |}.

Definition initial `{Remote} (s : remote_state) : World :=
  {| remote := s; now := 0; wire := []; logged := [] |}.

(** A fresh world in front of a scripted remote. *)
Definition scripted_world (script : list Exchange) : @World scripted :=
  @initial scripted script.

(** Inputs for the examples. *)
Definition script_423_423_201 : list Exchange :=
  [respond 423 no_content; respond 423 no_content; respond 201 no_content].

(** An endpoint given without its scheme: [url.Parse] rejects
    ["127.0.0.1:8080/lock"], the first path segment has a colon. *)
Definition unparsable_storage : RestStorage :=
  {| Endpoint := "127.0.0.1:8080/"; ApiKey := "VERY-SECURE-API-KEY" |}.

Definition token (line : Z) (text : string) : caddyfile.Token :=
  {| caddyfile.File := "Caddyfile"; caddyfile.Line := line; caddyfile.Text := text |}.

(** The tokens of
<<
rest {
    endpoint https://myapi.com/tls
    apiKey VERY-SECURE-API-KEY
}
>> *)
Definition caddyfile_apiKey : caddyfile.Dispenser :=
  caddyfile.NewDispenser
    [token 1 "rest"; token 1 "{";
     token 2 "endpoint"; token 2 "https://myapi.com/tls";
     token 3 "apiKey"; token 3 "VERY-SECURE-API-KEY";
     token 4 "}"].

Definition stat_body (modified : string) : Body :=
  BodyJSON (JObj [("key", JStr "example.com"); ("modified", JStr modified);
                  ("size", JInt 1704); ("isTerminal", JBool true)]).

(** ** The wire protocol *)

(** The request an operation writes, by the table of paths and methods:
    every path takes POST except [delete]. *)
Definition call_request (r : RestStorage) (ctx : Context) (c : Call) : Request :=
  match c with
  | CallStore key value =>
      built_request r ctx "POST" "store"
        (JObj [("key", JStr key); ("value", JStr (base64.EncodeToString value))])
  | CallLoad key => built_request r ctx "POST" "load" (JObj [("key", JStr key)])
  | CallDelete key => built_request r ctx "DELETE" "delete" (JObj [("key", JStr key)])
  | CallExists key => built_request r ctx "POST" "exists" (JObj [("key", JStr key)])
  | CallList prefix recursive =>
      built_request r ctx "POST" "list"
        (JObj [("prefix", JStr prefix); ("recursive", JBool recursive)])
  | CallStat key => built_request r ctx "POST" "stat" (JObj [("key", JStr key)])
  end.

Definition unlock_request (r : RestStorage) (ctx : Context) (key : string) : Request :=
  built_request r ctx "POST" "unlock" (JObj [("key", JStr key)]).

(** Instants, newest first, any two neighbours at least [d] apart. *)
Fixpoint spaced (d : Z) (stamps : list Z) : Prop :=
  match stamps with
  | later :: ((earlier :: _) as rest) => earlier + d <= later /\ spaced d rest
  | _ => True
  end.

(** ** A remote that keeps the contract *)

(** The state of a remote service that honours the wire contract for
    locks and values: the stored texts and the keys that are locked. *)
Record Service : Type := {
  stored : gmap string string;
  locked : gset string;
}.

Definition key_of (body : json) : option string :=
  match body with
  | JObj (("key", JStr k) :: _) => Some k
  | _ => None
  end.

(** What the service does with a request to [endpoint ++ path]: the first
    caller to lock a key wins (201), others get 423 until it is unlocked
    (204; 404 when it was not locked); values are stored (201), loaded
    (200 or 404), deleted (204 or 404) and tested (200). *)
Definition service_exchange (endpoint : string) (req : Request) (s : Service)
  : Exchange * Service :=
  match strip_prefix endpoint (URL req), key_of (ReqBody req) with
  | Some path, Some k =>
      if String.eqb path "lock" then
        if decide (k ∈ locked s) then (respond 423 no_content, s)
        else (respond 201 no_content,
              {| stored := stored s; locked := {[k]} ∪ locked s |})
      else if String.eqb path "unlock" then
        if decide (k ∈ locked s)
        then (respond 204 no_content,
              {| stored := stored s; locked := locked s ∖ {[k]} |})
        else (respond 404 no_content, s)
      else if String.eqb path "store" then
        match ReqBody req with
        | JObj [_; ("value", JStr v)] =>
            (respond 201 no_content,
             {| stored := <[k := v]> (stored s); locked := locked s |})
        | _ => (respond 400 no_content, s)
        end
      else if String.eqb path "load" then
        match stored s !! k with
        | Some v => (respond 200 (BodyJSON (JObj [("value", JStr v)])), s)
        | None => (respond 404 no_content, s)
        end
      else if String.eqb path "delete" then
        match stored s !! k with
        | Some _ =>
            (respond 204 no_content,
             {| stored := delete k (stored s); locked := locked s |})
        | None => (respond 404 no_content, s)
        end
      else if String.eqb path "exists" then
        (respond 200
           (BodyJSON (JObj [("exists", JBool (bool_decide (is_Some (stored s !! k))))])),
         s)
      else (respond 400 no_content, s)
  | _, _ => (respond 400 no_content, s)
  end.

Definition service (endpoint : string) : Remote := {|
  remote_state := Service;
  exchange := service_exchange endpoint;
|}.

(** A block of directives, one [key value] pair per line, from line
    [line] on. *)
Fixpoint directive_tokens (line : Z) (pairs : list (string * string))
  : list caddyfile.Token :=
  match pairs with
  | [] => []
  | (k, v) :: pairs' => token line k :: token line v :: directive_tokens (line + 1) pairs'
  end.

(* ================================================================== *)
(** * Part II: properties *)
(* ================================================================== *)

(** ** Base64 round trip *)

Module base64_facts.
Import base64.

Lemma list_ind3 {A} (P : list A -> Prop) :
  P [] -> (forall a, P [a]) -> (forall a b, P [a; b]) ->
  (forall a b c l, P l -> P (a :: b :: c :: l)) -> forall l, P l.
Proof.
  intros H0 H1 H2 H3 l.
  enough (H : P l /\ (forall a, P (a :: l)) /\ (forall a b, P (a :: b :: l)))
    by apply H.
  induction l as [|x l (Hl & Hl1 & Hl2)]; repeat split; auto.
Qed.

Lemma uint_range b : 0 <= uint b < 256.
Proof. unfold uint. pose proof (Byte.to_N_bounded b). lia. Qed.

Lemma byte_of_uint b : byte_of (uint b) = b.
Proof.
  unfold byte_of. change 255 with (Z.ones 8).
  rewrite Z.land_ones by lia.
  pose proof (uint_range b).
  rewrite Z.mod_small by lia.
  unfold uint. rewrite N2Z.id, Byte.of_to_N. reflexivity.
Qed.

Lemma byte_of_mod v : byte_of v = byte_of (v mod 256).
Proof.
  unfold byte_of. change 255 with (Z.ones 8).
  rewrite !Z.land_ones by lia. rewrite Z.mod_mod by lia. reflexivity.
Qed.

Lemma byte_of_eq v b : v mod 256 = uint b -> byte_of v = b.
Proof. intros H. rewrite byte_of_mod, H. apply byte_of_uint. Qed.

(** Or-ing below a shifted value adds. *)
Lemma lor_shiftl_add hi lo k :
  0 <= k -> 0 <= lo < 2 ^ k -> Z.lor (Z.shiftl hi k) lo = hi * 2 ^ k + lo.
Proof.
  intros Hk [Hlo0 Hlo].
  assert (Hd : Z.land (Z.shiftl hi k) lo = 0).
  { apply Z.bits_inj'. intros n Hn.
    rewrite Z.land_spec, Z.bits_0.
    destruct (Z.lt_ge_cases n k) as [Hlt | Hge].
    - rewrite Z.shiftl_spec_low by lia. reflexivity.
    - destruct (Z.eq_dec lo 0) as [-> | Hne];
        [rewrite Z.bits_0; apply andb_false_r |].
      rewrite (Z.bits_above_log2 lo n); [apply andb_false_r | exact Hlo0 |].
      apply Z.log2_lt_pow2; [lia |].
      apply Z.lt_le_trans with (2 ^ k); [exact Hlo |].
      apply Z.pow_le_mono_r; lia. }
  rewrite <- Z.lxor_lor by exact Hd.
  rewrite <- Z.add_nocarry_lxor by exact Hd.
  rewrite Z.shiftl_mul_pow2 by lia. reflexivity.
Qed.

Lemma lor_low_add a b k :
  0 <= k -> a mod 2 ^ k = 0 -> 0 <= b < 2 ^ k -> Z.lor a b = a + b.
Proof.
  intros Hk Ha Hb.
  assert (H2k : 0 < 2 ^ k) by (apply Z.pow_pos_nonneg; lia).
  assert (Hq : a = (a / 2 ^ k) * 2 ^ k).
  { pose proof (Z.div_mod a (2 ^ k)). lia. }
  rewrite Hq at 1. rewrite <- Z.shiftl_mul_pow2 by lia.
  rewrite lor_shiftl_add by assumption. lia.
Qed.

Ltac low_add a b k p :=
  rewrite (lor_low_add a b k);
  [| lia | change (2 ^ k) with p; Z.div_mod_to_equations; lia
   | change (2 ^ k) with p; lia ].

Lemma pack3_add x y z :
  0 <= x < 256 -> 0 <= y < 256 -> 0 <= z < 256 ->
  Z.lor (Z.lor (Z.shiftl x 16) (Z.shiftl y 8)) z = x * 65536 + y * 256 + z.
Proof.
  intros Hx Hy Hz.
  rewrite !Z.shiftl_mul_pow2 by lia.
  change (2 ^ 16) with 65536. change (2 ^ 8) with 256.
  low_add (x * 65536) (y * 256) 16 65536.
  low_add (x * 65536 + y * 256) z 8 256.
  reflexivity.
Qed.

Lemma sextet_div val k : 0 <= k -> sextet val k = (val / 2 ^ k) mod 64.
Proof.
  intros Hk. unfold sextet. change 63 with (Z.ones 6).
  rewrite Z.land_ones, Z.shiftr_div_pow2 by lia. reflexivity.
Qed.

Lemma sextet_range val k : 0 <= k -> 0 <= sextet val k < 64.
Proof. intros Hk. rewrite sextet_div by lia. apply Z.mod_pos_bound. lia. Qed.

Lemma assemble_add d0 d1 d2 d3 :
  0 <= d0 < 64 -> 0 <= d1 < 64 -> 0 <= d2 < 64 -> 0 <= d3 < 64 ->
  assemble d0 d1 d2 d3 = d0 * 262144 + d1 * 4096 + d2 * 64 + d3.
Proof.
  intros H0 H1 H2 H3. unfold assemble.
  rewrite !Z.shiftl_mul_pow2 by lia.
  change (2 ^ 18) with 262144. change (2 ^ 12) with 4096. change (2 ^ 6) with 64.
  low_add (d0 * 262144) (d1 * 4096) 18 262144.
  low_add (d0 * 262144 + d1 * 4096) (d2 * 64) 12 4096.
  low_add (d0 * 262144 + d1 * 4096 + d2 * 64) d3 6 64.
  reflexivity.
Qed.

Lemma assemble_sextets val :
  0 <= val < 16777216 ->
  assemble (sextet val 18) (sextet val 12) (sextet val 6) (sextet val 0) = val.
Proof.
  intros Hv.
  rewrite assemble_add by (apply sextet_range; lia).
  rewrite !sextet_div by lia.
  change (2 ^ 18) with 262144. change (2 ^ 12) with 4096.
  change (2 ^ 6) with 64. change (2 ^ 0) with 1.
  Z.div_mod_to_equations. lia.
Qed.

(** The alphabet has 64 distinct characters, none of them the padding
    character or a line break. *)
Lemma encode_facts i :
  0 <= i < 64 ->
  decodeMap (encode i) = i /\ Ascii.eqb (encode i) StdPadding = false
  /\ is_newline (encode i) = false.
Proof.
  intros Hi.
  assert (Hall : forallb (fun n =>
             let i := Z.of_nat n in
             (decodeMap (encode i) =? i) && negb (Ascii.eqb (encode i) StdPadding)
             && negb (is_newline (encode i))) (seq 0 64) = true)
    by (vm_compute; reflexivity).
  rewrite forallb_forall in Hall.
  specialize (Hall (Z.to_nat i)).
  rewrite Z2Nat.id in Hall by lia.
  assert (Hin : In (Z.to_nat i) (seq 0 64)) by (apply in_seq; lia).
  specialize (Hall Hin). cbv zeta in Hall.
  apply andb_prop in Hall as [Hall H3]. apply andb_prop in Hall as [H1 H2].
  apply Z.eqb_eq in H1. apply negb_true_iff in H2. apply negb_true_iff in H3.
  auto.
Qed.

Lemma decodeMap_sextet val k :
  0 <= k ->
  decodeMap (encode (sextet val k)) = sextet val k
  /\ (decodeMap (encode (sextet val k)) =? 255) = false
  /\ Ascii.eqb (encode (sextet val k)) StdPadding = false
  /\ is_newline (encode (sextet val k)) = false.
Proof.
  intros Hk. pose proof (sextet_range val k Hk) as Hr.
  destruct (encode_facts _ Hr) as (H1 & H2 & H3).
  repeat split; auto. rewrite H1. apply Z.eqb_neq. lia.
Qed.

Ltac sextet_facts val k :=
  let H1 := fresh "Hd" in let H2 := fresh "Hn" in
  let H3 := fresh "Hp" in let H4 := fresh "Hl" in
  destruct (decodeMap_sextet val k ltac:(lia)) as (H1 & H2 & H3 & H4).

Ltac name_sextets val :=
  change (Z.land val 63) with (sextet val 0).

Lemma decodeQuanta_Encode src : decodeQuanta (Encode src) = Some src.
Proof.
  induction src as [| b0 | b0 b1 | b0 b1 b2 rest IH] using list_ind3.
  - reflexivity.
  - pose proof (uint_range b0) as H0.
    cbn [Encode]. cbv zeta.
    set (val := Z.shiftl (uint b0) 16).
    sextet_facts val 18. sextet_facts val 12.
    cbn [decodeQuanta]. cbv zeta.
    rewrite Hn, Hn0. cbn [orb].
    change (decodeMap StdPadding) with 255. cbn [Z.eqb Pos.eqb negb].
    change (Ascii.eqb StdPadding StdPadding) with true. cbv iota.
    rewrite Hd, Hd0. do 2 f_equal.
    rewrite assemble_add by (first [apply sextet_range; lia | lia]).
    rewrite !sextet_div, Z.shiftr_div_pow2 by lia.
    subst val. rewrite Z.shiftl_mul_pow2 by lia.
    change (2 ^ 18) with 262144. change (2 ^ 12) with 4096. change (2 ^ 16) with 65536.
    apply byte_of_eq. Z.div_mod_to_equations. lia.
  - pose proof (uint_range b0) as H0. pose proof (uint_range b1) as H1.
    cbn [Encode]. cbv zeta.
    set (val := Z.lor (Z.shiftl (uint b0) 16) (Z.shiftl (uint b1) 8)).
    assert (Hval : val = uint b0 * 65536 + uint b1 * 256).
    { pose proof (pack3_add (uint b0) (uint b1) 0 H0 H1 ltac:(lia)) as Hp.
      rewrite Z.lor_0_r in Hp. subst val. lia. }
    clearbody val.
    sextet_facts val 18. sextet_facts val 12. sextet_facts val 6.
    cbn [decodeQuanta]. cbv zeta.
    rewrite Hn, Hn0, Hn1. cbn [orb negb].
    change (decodeMap StdPadding) with 255. cbn [Z.eqb Pos.eqb negb].
    change (Ascii.eqb StdPadding StdPadding) with true. cbv iota.
    rewrite Hd, Hd0, Hd1.
    rewrite assemble_add by (first [apply sextet_range; lia | lia]).
    rewrite !sextet_div, !Z.shiftr_div_pow2 by lia.
    change (2 ^ 18) with 262144. change (2 ^ 12) with 4096. change (2 ^ 16) with 65536.
    change (2 ^ 6) with 64. change (2 ^ 8) with 256.
    do 2 f_equal; [| f_equal]; apply byte_of_eq; Z.div_mod_to_equations; lia.
  - pose proof (uint_range b0) as H0. pose proof (uint_range b1) as H1.
    pose proof (uint_range b2) as H2.
    cbn [Encode]. cbv zeta.
    pose proof (pack3_add _ _ _ H0 H1 H2) as Hval.
    set (val := Z.lor (Z.lor (Z.shiftl (uint b0) 16) (Z.shiftl (uint b1) 8)) (uint b2)) in *.
    clearbody val. name_sextets val.
    sextet_facts val 18. sextet_facts val 12. sextet_facts val 6. sextet_facts val 0.
    cbn [decodeQuanta]. cbv zeta.
    rewrite Hn, Hn0, Hn1, Hn2. cbn [orb negb].
    rewrite Hd, Hd0, Hd1, Hd2, IH.
    rewrite assemble_sextets by lia.
    rewrite !Z.shiftr_div_pow2 by lia.
    change (2 ^ 16) with 65536. change (2 ^ 8) with 256.
    do 2 f_equal; [| f_equal; [| f_equal]]; apply byte_of_eq;
      Z.div_mod_to_equations; lia.
Qed.

Lemma Encode_no_newline src :
  List.filter (fun c => negb (is_newline c)) (Encode src) = Encode src.
Proof.
  induction src as [| b0 | b0 b1 | b0 b1 b2 rest IH] using list_ind3.
  - reflexivity.
  - cbn [Encode]. cbv zeta.
    set (val := Z.shiftl (uint b0) 16).
    sextet_facts val 18. sextet_facts val 12.
    cbn [List.filter]. rewrite Hl, Hl0. reflexivity.
  - cbn [Encode]. cbv zeta.
    set (val := Z.lor _ _).
    sextet_facts val 18. sextet_facts val 12. sextet_facts val 6.
    cbn [List.filter]. rewrite Hl, Hl0, Hl1. reflexivity.
  - cbn [Encode]. cbv zeta.
    set (val := Z.lor _ _). name_sextets val.
    sextet_facts val 18. sextet_facts val 12. sextet_facts val 6. sextet_facts val 0.
    cbn [List.filter]. rewrite Hl, Hl0, Hl1, Hl2. cbn [negb]. rewrite IH. reflexivity.
Qed.

(** Decoding what was encoded gives the bytes back. *)
Lemma DecodeString_EncodeToString src :
  DecodeString (EncodeToString src) = Ok src.
Proof.
  unfold DecodeString, EncodeToString.
  rewrite list_ascii_of_string_of_list_ascii, Encode_no_newline.
  rewrite decodeQuanta_Encode. reflexivity.
Qed.

(** The test vectors of RFC 4648, section 10. *)
Example rfc4648_vectors :
  map EncodeToString
    [[]; ["f"]; ["f"; "o"]; ["f"; "o"; "o"]; ["f"; "o"; "o"; "b"];
     ["f"; "o"; "o"; "b"; "a"]; ["f"; "o"; "o"; "b"; "a"; "r"]]%byte
  = [""; "Zg=="; "Zm8="; "Zm9v"; "Zm9vYg=="; "Zm9vYmE="; "Zm9vYmFy"].
Proof. reflexivity. Qed.

(** Input that is not base64 is an error. *)
Example DecodeString_corrupt :
  map DecodeString ["Zg="; "Zg==Zg=="; "Z"; "Zm9v!A=="; "=Zg="]
  = [Err CorruptInputError; Err CorruptInputError; Err CorruptInputError;
     Err CorruptInputError; Err CorruptInputError].
Proof. reflexivity. Qed.

End base64_facts.

(** ** Status codes in error messages *)

Lemma Atoi_Itoa z : Atoi (Itoa z) = Some z.
Proof.
  unfold Atoi, Itoa.
  rewrite NilZero.isi.
  - rewrite DecimalZ.of_to. reflexivity.
  - destruct z; cbn; try discriminate;
      intros [= E]; exact (Unsigned.to_uint_nonnil _ E).
  - destruct z; cbn; try discriminate;
      intros [= E]; exact (Unsigned.to_uint_nonnil _ E).
Qed.

Lemma strip_prefix_app p s : strip_prefix p (p +:+ s) = Some s.
Proof.
  induction p as [| a p IH]; [reflexivity |].
  change (String a p +:+ s) with (String a (p +:+ s)).
  cbn [strip_prefix]. rewrite Ascii.eqb_refl. exact IH.
Qed.

(** The code can be read back from an unknown-status error. *)
Lemma status_of_unknown_status code :
  status_of_error (unknown_status code) = Some code.
Proof.
  unfold status_of_error, unknown_status.
  rewrite strip_prefix_app. apply Atoi_Itoa.
Qed.

Lemma status_of_Unknown_status code :
  status_of_error (Unknown_status code) = Some code.
Proof.
  unfold status_of_error, Unknown_status.
  change (strip_prefix "unknown status code received: "
            ("Unknown status code received: " +:+ Itoa code)) with (@None string).
  rewrite strip_prefix_app. apply Atoi_Itoa.
Qed.

Example url_Parse_samples :
  map url.Parse_ok
    ["https://myapi.com/handle-tls-storage-methods/lock"; "localhost:8080/lock";
     "/lock"; "127.0.0.1:8080/lock"; ":/lock"]
  = [true; true; true; false; false].
Proof. reflexivity. Qed.

(** ** The Caddyfile loop terminates *)

Module caddyfile_facts.
Import caddyfile.

Lemma Next_true d d1 :
  Next d = (true, d1) ->
  tokens d1 = tokens d /\ cursor d1 = cursor d + 1 /\ cursor d < len d - 1.
Proof.
  unfold Next. destruct (cursor d <? len d - 1) eqn:E; intros [= <-].
  cbn. apply Z.ltb_lt in E. auto.
Qed.

Lemma nextOnSameLine_cursor d ok d1 :
  nextOnSameLine d = (ok, d1) ->
  tokens d1 = tokens d
  /\ cursor d1 = cursor d + (if ok then 1 else 0).
Proof.
  unfold nextOnSameLine.
  destruct (cursor d <? 0); [intros [= <- <-]; cbn; auto |].
  destruct (len d - 1 <=? cursor d); [intros [= <- <-]; cbn; split; [auto | lia] |].
  destruct (token_at d (cursor d)) as [curr |];
    [| intros [= <- <-]; cbn; split; [auto | lia]].
  destruct (token_at d (cursor d + 1)) as [next |];
    [| intros [= <- <-]; cbn; split; [auto | lia]].
  destruct (negb (isNextOnNewLine curr next)); intros [= <- <-]; cbn;
    split; auto; lia.
Qed.

Lemma Args_cursor d v d1 :
  Args d = (v, d1) -> tokens d1 = tokens d /\ cursor d <= cursor d1.
Proof.
  unfold Args, NextArg.
  destruct (nextOnSameLine d) as [ok d0] eqn:E.
  apply nextOnSameLine_cursor in E as [Ht Hc].
  destruct ok; cbn [negb].
  - destruct (String.eqb (Val d0) "{"); intros [= <- <-]; cbn; split; auto; lia.
  - intros [= <- <-]. split; auto; lia.
Qed.

End caddyfile_facts.

Lemma UnmarshalCaddyfile_loop_total fuel : forall r d,
  caddyfile.len d - caddyfile.cursor d <= Z.of_nat fuel ->
  exists r' d', UnmarshalCaddyfile_loop (S fuel) r d = Some (r', d', None).
Proof.
  induction fuel as [| fuel IH]; intros r d Hfuel;
    cbn [UnmarshalCaddyfile_loop];
    destruct (caddyfile.Next d) as [more d1] eqn:EN;
    (destruct more; cbn [negb]; [| eauto]);
    apply caddyfile_facts.Next_true in EN as (Ht1 & Hc1 & Hlt).
  - lia.
  - destruct (caddyfile.Args d1) as [v d2] eqn:EA.
    apply caddyfile_facts.Args_cursor in EA as (Ht2 & Hc2).
    assert (Hm : caddyfile.len d2 - caddyfile.cursor d2 <= Z.of_nat fuel).
    { unfold caddyfile.len in *. rewrite Ht2, Ht1. lia. }
    destruct v as [value |]; apply IH; exact Hm.
Qed.

(** [UnmarshalCaddyfile] returns, and returns no error, on every input. *)
Lemma UnmarshalCaddyfile_total r d :
  exists r' d', UnmarshalCaddyfile r d = Some (r', d', None).
Proof.
  unfold UnmarshalCaddyfile, UnmarshalCaddyfile_fuel.
  apply UnmarshalCaddyfile_loop_total. lia.
Qed.

Lemma assign_directive_cases r key value :
  assign_directive r key value =
    if String.eqb key "endpoint" then {| Endpoint := value; ApiKey := ApiKey r |}
    else if String.eqb key "ApiKey" then {| Endpoint := Endpoint r; ApiKey := value |}
    else r.
Proof.
  unfold assign_directive.
  destruct (String.eqb key "endpoint"); [reflexivity |].
  destruct (String.eqb_spec key "apikey") as [-> |]; [reflexivity |].
  destruct (String.eqb_spec key "apiKey") as [-> |]; reflexivity.
Qed.

(** ** Transport *)

Ltac Zbool :=
  repeat match goal with
  | H : (_ <=? _) = true |- _ => apply Z.leb_le in H
  | H : (_ <=? _) = false |- _ => apply Z.leb_gt in H
  | H : (_ <? _) = true |- _ => apply Z.ltb_lt in H
  | H : (_ <? _) = false |- _ => apply Z.ltb_ge in H
  | H : (_ =? _) = true |- _ => apply Z.eqb_eq in H
  | H : (_ =? _) = false |- _ => apply Z.eqb_neq in H
  end.

Section Transport.
Context {rt : Runtime} {rm : Remote}.

(** A request whose context is done is not written to the network. *)
Lemma Do_done req w cause :
  ctx_Err (req_ctx req) (now w) = Some cause ->
  Do req w = (Ret (Err (urlError (urlErrorOp (Method req)) (URL req) cause)), w).
Proof. intros H. unfold Do. rewrite H. reflexivity. Qed.

(** A request whose context outlives the exchange gets the remote's answer. *)
Lemma Do_served req w x s :
  exchange req (remote w) = (x, s) ->
  ctx_Err (req_ctx req) (now w + Z.of_N (latency x)) = None ->
  Do req w =
    (Ret (wrap_reply (urlError (urlErrorOp (Method req)) (URL req)) (reply x)),
     after_exchange w req s (now w + Z.of_N (latency x))).
Proof.
  intros Hx Hctx. unfold Do.
  assert (Hnow : ctx_Err (req_ctx req) (now w) = None).
  { destruct (req_ctx req) as [| t cause]; [reflexivity |]. cbn in *.
    destruct (t <=? now w + Z.of_N (latency x)) eqn:E; [discriminate |].
    destruct (t <=? now w) eqn:E'; [| reflexivity]. Zbool. lia. }
  rewrite Hnow, Hx.
  destruct (req_ctx req) as [| t cause].
  - destruct (reply x); reflexivity.
  - cbn in Hctx.
    destruct (t <=? now w + Z.of_N (latency x)) eqn:E; [discriminate |].
    destruct (t <? now w + Z.of_N (latency x)) eqn:E'; [Zbool; lia |].
    destruct (reply x); reflexivity.
Qed.

(** A context that becomes done while the exchange is under way ends the
    call at that instant. *)
Lemma Do_interrupted req w x s t cause :
  req_ctx req = DoneAt t cause ->
  exchange req (remote w) = (x, s) ->
  now w < t < now w + Z.of_N (latency x) ->
  Do req w =
    (Ret (Err (urlError (urlErrorOp (Method req)) (URL req) cause)),
     after_exchange w req s t).
Proof.
  intros Hctx Hx [H1 H2]. unfold Do. rewrite Hctx, Hx. cbn.
  destruct (t <=? now w) eqn:E; [Zbool; lia |].
  destruct (t <? now w + Z.of_N (latency x)) eqn:E'; [reflexivity | Zbool; lia].
Qed.

(** [Do] always returns. *)
Lemma Do_returns req w : exists x w', Do req w = (Ret x, w').
Proof.
  unfold Do. destruct (ctx_Err (req_ctx req) (now w)); [eauto |].
  destruct (exchange req (remote w)) as [x s].
  destruct (req_ctx req) as [| t cause].
  - destruct (reply x); eauto.
  - destruct (t <? _); [eauto |]. destruct (reply x); eauto.
Qed.

(** With a well-formed method and a URL that parses, [client] is [Do] on
    the request it has built. *)
Lemma client_Do r ctx method path dataStruct body w :
  json_Marshal dataStruct = Ok body ->
  validMethod method = true ->
  url_Parse_ok (Endpoint r +:+ path) = true ->
  client r ctx method path dataStruct w = Do (built_request r ctx method path body) w.
Proof.
  intros Hm Hv Hu. unfold client, NewRequestWithContext. rewrite Hm.
  assert (Hne : String.eqb method "" = false).
  { destruct method; [discriminate Hv | reflexivity]. }
  rewrite Hne, Hv, Hu. cbn [negb].
  change (Header_Add _ "x-api-key" (ApiKey r)) with (built_request r ctx method path body).
  unfold bind.
  destruct (Do_returns (built_request r ctx method path body) w) as (x & w' & ->).
  destruct x; reflexivity.
Qed.

(** When request construction fails, [client] dereferences the nil request. *)
Lemma client_nil_request r ctx method path dataStruct body w :
  json_Marshal dataStruct = Ok body ->
  NewRequestWithContext ctx method (Endpoint r +:+ path) body = None ->
  client r ctx method path dataStruct w = (Panic nil_dereference, w).
Proof. intros Hm Hn. unfold client. rewrite Hm, Hn. reflexivity. Qed.

(** What [client] returns, it returns after exactly one attempt; a
    response means exactly one request was written. *)
Lemma client_response_one_request r ctx method path dataStruct w resp w' :
  client r ctx method path dataStruct w = (Ret (Ok resp), w') ->
  exists req t, wire w' = (t, req) :: wire w /\ logged w' = logged w
                /\ now w <= now w'.
Proof.
  unfold client.
  destruct (json_Marshal dataStruct) as [body | e]; [| discriminate].
  destruct (NewRequestWithContext _ _ _ _) as [req0 |]; [| discriminate].
  set (req := Header_Add _ "x-api-key" _). clearbody req. clear req0.
  unfold bind, Do.
  destruct (ctx_Err (req_ctx req) (now w)) eqn:E0; [discriminate |].
  destruct (exchange req (remote w)) as [x s].
  destruct (req_ctx req) as [| t cause].
  - destruct (reply x); cbn; intros [= <- <-]. cbn. exists req, (now w).
    repeat split; lia.
  - destruct (t <? now w + Z.of_N (latency x)); [discriminate |].
    destruct (reply x); cbn; intros [= <- <-]. cbn. exists req, (now w).
    repeat split; lia.
Qed.

(** One turn of the lock loop, in terms of the protocol's transition. *)
Lemma Lock_unfold fuel r ctx key w x w1 :
  client r ctx "POST" "lock" (anyLock {| LockRequest_Key := key |}) w = (Ret x, w1) ->
  Lock (S fuel) r ctx key w =
    match lock_transition x with
    | Held => (Ret None, w1)
    | Failed e => (Ret (Some e), w1)
    | Attempting =>
        match x with
        | Ok resp => Lock fuel r ctx key (after_wait key (StatusCode resp) w1)
        | Err _ => (Running, w1)
        end
    end.
Proof.
  intros Hc. cbn [Lock]. unfold bind at 1. rewrite Hc.
  destruct x as [resp | e]; [| reflexivity].
  unfold lock_transition.
  destruct (StatusCode resp =? 201) eqn:E1; [reflexivity |].
  unfold after_wait, lock_log_entry.
  destruct (StatusCode resp =? 423) eqn:E2; [reflexivity |].
  destruct (StatusCode resp =? 412) eqn:E3; reflexivity.
Qed.

End Transport.

(** ** The lock loop against a scripted remote *)

Lemma ctx_Err_earlier ctx t1 t2 :
  ctx_Err ctx t2 = None -> t1 <= t2 -> ctx_Err ctx t1 = None.
Proof.
  destruct ctx as [| t cause]; [reflexivity |]. cbn.
  destruct (t <=? t2) eqn:E2; [discriminate |].
  destruct (t <=? t1) eqn:E1; [Zbool; lia | reflexivity].
Qed.

Lemma lock_machine_elapsed wrap script : 0 <= elapsed (lock_machine wrap script).
Proof.
  induction script as [| x rest IH]; cbn [lock_machine]; [cbn; lia |].
  destruct (lock_transition _); cbn; unfold polling_interval, Second; lia.
Qed.

Lemma lock_machine_requests wrap script : (1 <= requests (lock_machine wrap script))%nat.
Proof.
  induction script as [| x rest IH]; cbn [lock_machine]; [cbn; lia |].
  destruct (lock_transition _); cbn; lia.
Qed.

(** The protocol never stops in [Attempting]. *)
Lemma lock_machine_final wrap script :
  final (lock_machine wrap script) <> Attempting.
Proof.
  induction script as [| x rest IH]; cbn [lock_machine]; [discriminate |].
  destruct (lock_transition _) eqn:E; cbn; [exact IH | discriminate | discriminate].
Qed.

Lemma lock_transition_Attempting x :
  lock_transition x = Attempting ->
  exists resp, x = Ok resp /\ (StatusCode resp = 423 \/ StatusCode resp = 412).
Proof.
  destruct x as [resp | e]; [| discriminate]. cbn.
  destruct (StatusCode resp =? 201); [discriminate |].
  destruct (StatusCode resp =? 423) eqn:E1; [Zbool; eauto |].
  destruct (StatusCode resp =? 412) eqn:E2; [Zbool; eauto | discriminate].
Qed.

Lemma replicate_app_cons {A} n (x : A) l :
  replicate n x ++ x :: l = x :: replicate n x ++ l.
Proof. induction n as [| n IH]; cbn; [reflexivity | rewrite IH; reflexivity]. Qed.

Section ScriptedLock.
Context {rt : Runtime}.
Local Existing Instance scripted.

Lemma client_lock_scripted r ctx key (w : World) x rest :
  url_Parse_ok (Endpoint r +:+ "lock") = true ->
  exchange (lock_request r ctx key) (remote w) = (x, rest) ->
  ctx_Err ctx (now w + Z.of_N (latency x)) = None ->
  client r ctx "POST" "lock" (anyLock {| LockRequest_Key := key |}) w =
    (Ret (wrap_reply (urlError "Post" (Endpoint r +:+ "lock")) (reply x)),
     after_exchange w (lock_request r ctx key) rest (now w + Z.of_N (latency x))).
Proof.
  intros Hu Hx Hctx.
  rewrite (client_Do r ctx "POST" "lock" _ (JObj [("key", JStr key)]))
    by (reflexivity || exact Hu).
  apply (Do_served (lock_request r ctx key) w x rest Hx Hctx).
Qed.

(** What the protocol's run rests on: every answer before the last one it
    used is a 423 or a 412, and its final state is the transition on that
    last answer. *)
Lemma lock_machine_last wrap script :
  (forall i, (i < requests (lock_machine wrap script) - 1)%nat ->
     exists x resp, script !! i = Some x /\ reply x = Ok resp
                    /\ (StatusCode resp = 423 \/ StatusCode resp = 412))
  /\ final (lock_machine wrap script)
     = lock_transition
         (wrap_reply wrap
            (reply (nth (requests (lock_machine wrap script) - 1) script script_exhausted))).
Proof.
  induction script as [| x rest [IHe IHf]]; cbn [lock_machine].
  - split; [cbn; intros i Hi; lia | reflexivity].
  - pose proof (lock_machine_requests wrap rest) as Hreq.
    destruct (lock_transition (wrap_reply wrap (reply x))) as [| | e] eqn:Et;
      cbn [final requests].
    + destruct (requests (lock_machine wrap rest)) as [| n] eqn:En; [lia |].
      replace (S (S n) - 1)%nat with (S n) by lia.
      replace (S n - 1)%nat with n in IHe, IHf by lia.
      split; [| exact IHf].
      intros [| i] Hi.
      * destruct (lock_transition_Attempting _ Et) as (resp & Eresp & Hcode).
        exists x, resp. split; [reflexivity |]. split; [| exact Hcode].
        destruct (reply x); [injection Eresp as ->; reflexivity | discriminate].
      * apply (IHe i). lia.
    + split; [cbn; intros i Hi; lia | symmetry; exact Et].
    + split; [cbn; intros i Hi; lia | symmetry; exact Et].
Qed.

(** C1. Against any sequence of answers, [Lock] runs the protocol of the
    specification: it ends [Held] (success) on 201; on 423 and on 412 it
    waits one polling interval of five seconds and sends the same request
    again, any number of times; on any other status it fails at once with
    an unknown-status error; a transport error fails at once with that
    error.  It has then sent exactly the protocol's number of requests,
    all equal, used that many answers, and taken the protocol's time.
    In terms of the answers themselves: every answer before the last one
    used has status 423 or 412; if the last one has status 201, [Lock]
    returns no error; if it has any other status, that status is neither
    423 nor 412 and [Lock] returns an error from which the status can be
    read back, and which is not the not-found error; if it is a transport
    error, [Lock] returns that error as [Do] wraps it. *)
Theorem Lock_state_machine r ctx key script : forall fuel (w : World),
  url_Parse_ok (Endpoint r +:+ "lock") = true ->
  (length script < fuel)%nat ->
  remote w = script ->
  let run := lock_machine (urlError "Post" (Endpoint r +:+ "lock")) script in
  let last := nth (requests run - 1) script script_exhausted in
  ctx_Err ctx (now w + elapsed run) = None ->
  exists w',
    Lock fuel r ctx key w = (lock_verdict (final run), w')
    /\ lock_verdict (final run) <> Running
    /\ remote w' = drop (requests run) script
    /\ now w' = now w + elapsed run
    /\ map snd (wire w') =
         replicate (requests run) (lock_request r ctx key) ++ map snd (wire w)
    /\ length (logged w') = (requests run - 1 + length (logged w))%nat
    /\ (forall i, (i < requests run - 1)%nat ->
          exists x resp, script !! i = Some x /\ reply x = Ok resp
                         /\ (StatusCode resp = 423 \/ StatusCode resp = 412))
    /\ (forall resp, reply last = Ok resp -> StatusCode resp = 201 ->
          Lock fuel r ctx key w = (Ret None, w'))
    /\ (forall resp, reply last = Ok resp -> StatusCode resp <> 201 ->
          StatusCode resp <> 423 /\ StatusCode resp <> 412
          /\ exists e, Lock fuel r ctx key w = (Ret (Some e), w')
                       /\ status_of_error e = Some (StatusCode resp)
                       /\ errors_Is_ErrNotExist e = false)
    /\ (forall e0, reply last = Err e0 ->
          Lock fuel r ctx key w
          = (Ret (Some (urlError "Post" (Endpoint r +:+ "lock") e0)), w')).
Proof.
  set (wrap := urlError "Post" (Endpoint r +:+ "lock")).
  assert (Hrun : forall script fuel (w : World),
    url_Parse_ok (Endpoint r +:+ "lock") = true ->
    (length script < fuel)%nat ->
    remote w = script ->
    ctx_Err ctx (now w + elapsed (lock_machine wrap script)) = None ->
    exists w',
      Lock fuel r ctx key w = (lock_verdict (final (lock_machine wrap script)), w')
      /\ lock_verdict (final (lock_machine wrap script)) <> Running
      /\ remote w' = drop (requests (lock_machine wrap script)) script
      /\ now w' = now w + elapsed (lock_machine wrap script)
      /\ map snd (wire w') =
           replicate (requests (lock_machine wrap script)) (lock_request r ctx key)
           ++ map snd (wire w)
      /\ length (logged w')
         = (requests (lock_machine wrap script) - 1 + length (logged w))%nat).
  { clear script. intros script.
    induction script as [| x rest IH]; intros fuel w Hu Hf Hr Hctx;
      (destruct fuel as [| fuel]; [cbn in Hf; lia |]).
    - assert (Hx : exchange (lock_request r ctx key) (remote w) = (script_exhausted, []))
        by (rewrite Hr; reflexivity).
      assert (Hc := client_lock_scripted r ctx key w _ _ Hu Hx Hctx).
      rewrite (Lock_unfold fuel r ctx key w _ _ Hc).
      eexists. split; [reflexivity |]. cbn.
      repeat split; try discriminate; lia.
    - assert (Hx : exchange (lock_request r ctx key) (remote w) = (x, rest))
        by (rewrite Hr; reflexivity).
      pose proof (lock_machine_elapsed wrap rest) as Hel.
      cbn [lock_machine] in Hctx |- *.
      destruct (lock_transition (wrap_reply wrap (reply x))) as [| | e] eqn:Et;
        cbn [final requests elapsed] in Hctx |- *.
      + assert (Hlat : ctx_Err ctx (now w + Z.of_N (latency x)) = None).
        { apply (ctx_Err_earlier _ _ _ Hctx). unfold polling_interval, Second. lia. }
        assert (Hc := client_lock_scripted r ctx key w _ _ Hu Hx Hlat).
        fold wrap in Hc.
        rewrite (Lock_unfold fuel r ctx key w _ _ Hc), Et.
        destruct (lock_transition_Attempting _ Et) as (resp & Eresp & Hcode).
        rewrite Eresp.
        set (w1 := after_wait key (StatusCode resp) _).
        destruct (IH fuel w1) as (w' & HL & Hfin & Hrem & Hnow & Hwire & Hlog);
          [exact Hu | cbn in Hf; lia | reflexivity | |].
        { apply (ctx_Err_earlier _ _ _ Hctx). subst w1; cbn. lia. }
        pose proof (lock_machine_requests wrap rest) as Hreq.
        exists w'. split; [exact HL |]. split; [exact Hfin |].
        split; [exact Hrem |]. split; [rewrite Hnow; subst w1; cbn; lia |].
        split.
        * rewrite Hwire. subst w1. cbn. apply replicate_app_cons.
        * rewrite Hlog. subst w1. cbn. lia.
      + assert (Hc := client_lock_scripted r ctx key w _ _ Hu Hx Hctx).
        fold wrap in Hc.
        rewrite (Lock_unfold fuel r ctx key w _ _ Hc), Et.
        eexists. split; [reflexivity |]. cbn.
        repeat split; try discriminate; lia.
      + assert (Hc := client_lock_scripted r ctx key w _ _ Hu Hx Hctx).
        fold wrap in Hc.
        rewrite (Lock_unfold fuel r ctx key w _ _ Hc), Et.
        eexists. split; [reflexivity |]. cbn.
        repeat split; try discriminate; lia. }
  intros fuel w Hu Hf Hr run last Hctx. subst run. fold wrap in last, Hctx |- *.
  destruct (Hrun script fuel w Hu Hf Hr Hctx)
    as (w' & HL & Hfin & Hrem & Hnow & Hwire & Hlog).
  destruct (lock_machine_last wrap script) as [Hearlier Hlast].
  fold last in Hlast.
  pose proof (lock_machine_final wrap script) as Hnot.
  exists w'. do 6 (split; [assumption |]).
  split; [exact Hearlier |]. split; [| split].
  - intros resp Er E201. rewrite HL, Hlast, Er. cbn.
    rewrite E201. reflexivity.
  - intros resp Er N201. rewrite Hlast, Er in Hnot, HL. cbn in Hnot, HL.
    destruct (StatusCode resp =? 201) eqn:E1; [Zbool; contradiction |].
    destruct (StatusCode resp =? 423) eqn:E2; [contradiction Hnot; reflexivity |].
    destruct (StatusCode resp =? 412) eqn:E3; [contradiction Hnot; reflexivity |].
    cbn in HL. Zbool. split; [assumption |]. split; [assumption |].
    exists (Unknown_status (StatusCode resp)).
    split; [exact HL |]. split; [apply status_of_Unknown_status | reflexivity].
  - intros e0 Er. rewrite HL, Hlast, Er. reflexivity.
Qed.

End ScriptedLock.

(** ** Cancellation *)

Section Cancellation.
Context {rt : Runtime} {rm : Remote}.

(** A call of [client] under a context that is already done returns the
    context's error and leaves the world as it is. *)
Lemma client_done r ctx method path dataStruct body (w : World) cause :
  json_Marshal dataStruct = Ok body ->
  validMethod method = true ->
  url_Parse_ok (Endpoint r +:+ path) = true ->
  ctx_Err ctx (now w) = Some cause ->
  client r ctx method path dataStruct w =
    (Ret (Err (urlError (urlErrorOp method) (Endpoint r +:+ path) cause)), w).
Proof.
  intros Hm Hv Hu Hc. rewrite (client_Do r ctx method path _ body) by assumption.
  apply (Do_done (built_request r ctx method path body) w cause Hc).
Qed.

(** A context that becomes done during the exchange aborts any call of
    [client]. *)
Lemma client_interrupted r t cause method path dataStruct body (w : World) x s :
  json_Marshal dataStruct = Ok body ->
  validMethod method = true ->
  url_Parse_ok (Endpoint r +:+ path) = true ->
  exchange (built_request r (DoneAt t cause) method path body) (remote w) = (x, s) ->
  now w < t < now w + Z.of_N (latency x) ->
  client r (DoneAt t cause) method path dataStruct w =
    (Ret (Err (urlError (urlErrorOp method) (Endpoint r +:+ path) cause)),
     after_exchange w (built_request r (DoneAt t cause) method path body) s t).
Proof.
  intros Hm Hv Hu Hx Ht. rewrite (client_Do r _ method path _ body) by assumption.
  apply (Do_interrupted (built_request r (DoneAt t cause) method path body)
           w x s t cause eq_refl Hx Ht).
Qed.

Lemma Lock_done fuel r ctx key (w : World) cause :
  url_Parse_ok (Endpoint r +:+ "lock") = true ->
  ctx_Err ctx (now w) = Some cause ->
  Lock (S fuel) r ctx key w =
    (Ret (Some (urlError "Post" (Endpoint r +:+ "lock") cause)), w).
Proof.
  intros Hu Hc.
  assert (H := client_done r ctx "POST" "lock" (anyLock {| LockRequest_Key := key |})
                 (JObj [("key", JStr key)]) w cause eq_refl eq_refl Hu Hc).
  rewrite (Lock_unfold fuel r ctx key w _ _ H). reflexivity.
Qed.

(** C2. Under a context that becomes done at instant [t]:
    - if that happens while [Lock] waits between two attempts, [Lock]
      returns the context's error when the wait is over, at most one polling
      interval after [t], and has written no further request;
    - if it happens while a lock request is under way, the request is
      aborted at [t] and [Lock] returns the context's error;
    - if the context is done when [Lock] is about to send, it returns the
      context's error without writing anything.
    The error returned wraps the context's own ([Canceled] or
    [DeadlineExceeded]). *)
Theorem Lock_cancellation r key t cause fuel (w : World) :
  url_Parse_ok (Endpoint r +:+ "lock") = true ->
  let ctx := DoneAt t cause in
  let err := urlError "Post" (Endpoint r +:+ "lock") cause in
  (forall resp w1,
      client r ctx "POST" "lock" (anyLock {| LockRequest_Key := key |}) w
        = (Ret (Ok resp), w1) ->
      StatusCode resp = 423 \/ StatusCode resp = 412 ->
      now w1 <= t <= now w1 + polling_interval ->
      exists w2,
        Lock (S (S fuel)) r ctx key w = (Ret (Some err), w2)
        /\ now w2 = now w1 + polling_interval
        /\ now w2 - t <= polling_interval
        /\ wire w2 = wire w1
        /\ remote w2 = remote w1)
  /\ (forall x s,
      exchange (lock_request r ctx key) (remote w) = (x, s) ->
      now w < t < now w + Z.of_N (latency x) ->
      Lock (S fuel) r ctx key w =
        (Ret (Some err), after_exchange w (lock_request r ctx key) s t))
  /\ (t <= now w -> Lock (S fuel) r ctx key w = (Ret (Some err), w))
  /\ is_context_error err = is_context_error cause.
Proof.
  intros Hu ctx err. repeat split.
  - intros resp w1 Hc Hcode [Ht1 Ht2].
    rewrite (Lock_unfold (S fuel) r ctx key w _ _ Hc).
    assert (Ha : lock_transition (Ok resp) = Attempting).
    { cbn. destruct Hcode as [-> | ->]; reflexivity. }
    rewrite Ha.
    set (w2 := after_wait key (StatusCode resp) w1).
    exists w2. split.
    + apply Lock_done; [exact Hu |]. subst w2 ctx. cbn.
      destruct (t <=? now w1 + polling_interval) eqn:E; [reflexivity | Zbool; lia].
    + subst w2. cbn. repeat split; lia.
  - intros x s Hx Ht.
    assert (H := client_interrupted r t cause "POST" "lock"
                   (anyLock {| LockRequest_Key := key |}) (JObj [("key", JStr key)])
                   w x s eq_refl eq_refl Hu Hx Ht).
    rewrite (Lock_unfold fuel r ctx key w _ _ H). reflexivity.
  - intros Ht. apply Lock_done; [exact Hu |]. subst ctx. cbn.
    destruct (t <=? now w) eqn:E; [reflexivity | Zbool; lia].
Qed.

End Cancellation.

(** X6. Without cancellation there is no bound on the wait: in front of a
    remote that always answers 423 (or always 412), [Lock] is still running
    after any number of turns. *)
Lemma Lock_waits_forever {rt0 : Runtime} r key x resp fuel :
  forall w : @World (constant x),
    url_Parse_ok (Endpoint r +:+ "lock") = true ->
    reply x = Ok resp ->
    StatusCode resp = 423 \/ StatusCode resp = 412 ->
    fst (@Lock rt0 (constant x) fuel r Background key w) = Running.
Proof.
  induction fuel as [| fuel IH]; intros w Hu Hr Hcode; [reflexivity |].
  assert (Hc : @client rt0 (constant x) r Background "POST" "lock"
                 (anyLock {| LockRequest_Key := key |}) w
               = (Ret (Ok resp),
                  after_exchange w (lock_request r Background key) (remote w)
                    (now w + Z.of_N (latency x)))).
  { rewrite (client_Do (rm := constant x) r Background "POST" "lock" _
               (JObj [("key", JStr key)]))
      by (reflexivity || exact Hu).
    fold (lock_request r Background key).
    rewrite (Do_served (rm := constant x) (lock_request r Background key) w x
               (remote w) eq_refl eq_refl).
    rewrite Hr. reflexivity. }
  rewrite (Lock_unfold (rm := constant x) fuel r Background key w _ _ Hc).
  assert (Ha : lock_transition (Ok resp) = Attempting).
  { cbn. destruct Hcode as [-> | ->]; reflexivity. }
  rewrite Ha. apply IH; assumption.
Qed.

(** ** Key/value operations *)

Lemma into_strings_elems_JStr keys :
  json_decode.into_strings_elems (map JStr keys) = Ok keys.
Proof.
  induction keys as [| k keys IH]; cbn; [reflexivity |]. rewrite IH. reflexivity.
Qed.

Lemma decode_ListResponse_keys keys :
  decode_ListResponse (BodyJSON (JObj [("keys", JArr (map JStr keys))]))
  = Ok {| ListResponse_Keys := keys |}.
Proof.
  unfold decode_ListResponse. cbn. rewrite into_strings_elems_JStr. reflexivity.
Qed.

Lemma not_in_cons_neq (x a : Z) l : ~ In x (a :: l) -> (x =? a) = false /\ ~ In x l.
Proof.
  intros H. split; [apply Z.eqb_neq; intros ->; apply H; left; reflexivity |].
  intros Hin. apply H. right. exact Hin.
Qed.

Section Operations.
Context {rt : Runtime} {rm : Remote}.

(** C3. [Exists] returns a [bool] and no error: [false] when the transport
    fails, when the status is not 200, and when the body does not decode;
    with status 200 and a body that decodes, the [exists] field of the
    body. *)
Theorem Exists_never_errors r ctx key (w : World) x w1 :
  client r ctx "POST" "exists" (anyExists {| ExistsRequest_Key := key |}) w
    = (Ret x, w1) ->
  exists b : bool,
    Exists r ctx key w = (Ret b, w1)
    /\ (forall e, x = Err e -> b = false)
    /\ (forall resp, x = Ok resp -> StatusCode resp <> 200 -> b = false)
    /\ (forall resp e, x = Ok resp -> StatusCode resp = 200 ->
          decode_ExistsResponse (RespBody resp) = Err e -> b = false)
    /\ (forall resp v, x = Ok resp -> StatusCode resp = 200 ->
          decode_ExistsResponse (RespBody resp) = Ok v -> b = ExistsResponse_Exists v)
    /\ (forall resp b0, x = Ok resp -> StatusCode resp = 200 ->
          RespBody resp = BodyJSON (JObj [("exists", JBool b0)]) -> b = b0).
Proof.
  intros Hc. unfold Exists, bind. rewrite Hc.
  destruct x as [resp | e].
  - destruct (StatusCode resp =? 200) eqn:E; cbn [negb]; Zbool.
    + destruct (decode_ExistsResponse (RespBody resp)) as [v | e] eqn:Ed.
      * exists (ExistsResponse_Exists v). split; [reflexivity |].
        repeat split; try congruence.
        intros resp' b0 [= <-] _ Hb. rewrite Hb in Ed. cbn in Ed.
        injection Ed as <-. reflexivity.
      * exists false. split; [reflexivity |].
        repeat split; try congruence.
        intros resp' b0 [= <-] _ Hb. rewrite Hb in Ed. cbn in Ed. congruence.
    + exists false. split; [reflexivity |]. repeat split; congruence.
  - exists false. split; [reflexivity |]. repeat split; congruence.
Qed.

(** C5. [Load], [Delete], [List] and [Stat] answer a 404 with the one
    sentinel [fs.ErrNotExist], which [errors.Is] tells apart from every
    unknown-status error. *)
Theorem not_found_sentinel r ctx (w : World) resp w1 :
  StatusCode resp = 404 ->
  (forall key,
      client r ctx "POST" "load" (anyLoad {| LoadRequest_Key := key |}) w
        = (Ret (Ok resp), w1) ->
      Load r ctx key w = (Ret (Err ErrNotExist), w1))
  /\ (forall key,
      client r ctx "DELETE" "delete" (anyDelete {| DeleteRequest_Key := key |}) w
        = (Ret (Ok resp), w1) ->
      Delete r ctx key w = (Ret (Some ErrNotExist), w1))
  /\ (forall prefix recursive,
      client r ctx "POST" "list"
        (anyList {| ListRequest_Prefix := prefix; ListRequest_Recursive := recursive |}) w
        = (Ret (Ok resp), w1) ->
      List r ctx prefix recursive w = (Ret (Err ErrNotExist), w1))
  /\ (forall key,
      client r ctx "POST" "stat" (anyStat {| StatRequest_Key := key |}) w
        = (Ret (Ok resp), w1) ->
      Stat r ctx key w = (Ret (Err ErrNotExist), w1))
  /\ errors_Is_ErrNotExist ErrNotExist = true
  /\ (forall code, errors_Is_ErrNotExist (unknown_status code) = false).
Proof.
  intros Hcode. repeat split.
  - intros key Hc. unfold Load, bind. rewrite Hc, Hcode. reflexivity.
  - intros key Hc. unfold Delete, bind. rewrite Hc, Hcode. reflexivity.
  - intros prefix recursive Hc. unfold List, bind. rewrite Hc, Hcode. reflexivity.
  - intros key Hc. unfold Stat, bind. rewrite Hc, Hcode. reflexivity.
Qed.

(** C7. A 200 answer to [Stat] whose [modified] field does not parse as an
    RFC 3339 timestamp makes [Stat] return the parse error, not a
    [KeyInfo]. *)
Theorem Stat_malformed_modified r ctx key (w : World) resp w1 statResp e :
  client r ctx "POST" "stat" (anyStat {| StatRequest_Key := key |}) w
    = (Ret (Ok resp), w1) ->
  StatusCode resp = 200 ->
  decode_StatResponse (RespBody resp) = Ok statResp ->
  time_Parse_RFC3339 (StatResponse_Modified statResp) = Err e ->
  Stat r ctx key w = (Ret (Err e), w1)
  /\ forall info : KeyInfo, Stat r ctx key w <> (Ret (Ok info), w1).
Proof.
  intros Hc Hcode Hd Ht.
  assert (H : Stat r ctx key w = (Ret (Err e), w1)).
  { unfold Stat, bind. rewrite Hc, Hcode, Hd, Ht. reflexivity. }
  split; [exact H |]. intros info. rewrite H. discriminate.
Qed.

(** C9. [List] returns the keys of a 200 answer as they are, in the
    order of the answer, whatever [recursive] is. *)
Theorem List_verbatim r ctx prefix (recursive : bool) (w : World) resp w1 keys :
  client r ctx "POST" "list"
    (anyList {| ListRequest_Prefix := prefix; ListRequest_Recursive := recursive |}) w
    = (Ret (Ok resp), w1) ->
  StatusCode resp = 200 ->
  RespBody resp = BodyJSON (JObj [("keys", JArr (map JStr keys))]) ->
  List r ctx prefix recursive w = (Ret (Ok keys), w1).
Proof.
  intros Hc Hcode Hb. unfold List, bind.
  rewrite Hc, Hcode, Hb, decode_ListResponse_keys. reflexivity.
Qed.

(** C6 (amended). A status outside the table of [Store], [Load],
    [Delete], [List] or [Stat] makes the operation return the
    unknown-status error, from which the status can be read back; [Exists]
    returns [false] instead; in each case after exactly one request. *)
Theorem unknown_status_propagation (c : Call) r ctx (w : World) resp w1 :
  call_transport r ctx c w = (Ret (Ok resp), w1) ->
  ~ In (StatusCode resp) (expected_status c) ->
  length (wire w1) = S (length (wire w))
  /\ match c with
     | CallExists key => Exists r ctx key w = (Ret false, w1)
     | _ =>
         call_error r ctx c w = (Ret (Some (unknown_status (StatusCode resp))), w1)
         /\ status_of_error (unknown_status (StatusCode resp)) = Some (StatusCode resp)
     end.
Proof.
  intros Hc Hn. split.
  - destruct c; cbn [call_transport] in Hc;
      apply client_response_one_request in Hc as (req & t & -> & _); reflexivity.
  - destruct c; cbn [call_transport expected_status] in Hc, Hn;
      repeat (apply not_in_cons_neq in Hn as [? Hn]);
      try (split; [| apply status_of_unknown_status]);
      cbn [call_error]; unfold Store, Load, Delete, Exists, List, Stat, bind;
      rewrite Hc;
      repeat match goal with H : (_ =? _) = false |- _ => rewrite H; clear H end;
      reflexivity.
Qed.

End Operations.

(** ** Store then Load *)

Section RoundTrip.
Context {rt : Runtime} {rm : Remote}.

(** [Store] sends the value as base64 text and succeeds on 201. *)
Lemma Store_created r ctx key value (w : World) x s resp :
  url_Parse_ok (Endpoint r +:+ "store") = true ->
  let store_request :=
    built_request r ctx "POST" "store"
      (JObj [("key", JStr key); ("value", JStr (base64.EncodeToString value))]) in
  exchange store_request (remote w) = (x, s) ->
  reply x = Ok resp ->
  StatusCode resp = 201 ->
  ctx_Err ctx (now w + Z.of_N (latency x)) = None ->
  Store r ctx key value w
  = (Ret None, after_exchange w store_request s (now w + Z.of_N (latency x))).
Proof.
  intros Hu store_request Hx Hr Hc Hctx. unfold Store, bind.
  rewrite (client_Do r ctx "POST" "store" _
             (JObj [("key", JStr key); ("value", JStr (base64.EncodeToString value))]))
    by (reflexivity || exact Hu).
  fold store_request.
  rewrite (Do_served store_request w x s Hx Hctx), Hr. cbn.
  rewrite Hc. reflexivity.
Qed.

(** [Load] decodes the text of a 200 answer. *)
Lemma Load_value r ctx key (w : World) x s text :
  url_Parse_ok (Endpoint r +:+ "load") = true ->
  let load_request := built_request r ctx "POST" "load" (JObj [("key", JStr key)]) in
  exchange load_request (remote w) = (x, s) ->
  reply x = Ok {| StatusCode := 200;
                  RespBody := BodyJSON (JObj [("value", JStr text)]) |} ->
  ctx_Err ctx (now w + Z.of_N (latency x)) = None ->
  Load r ctx key w
  = (Ret (base64.DecodeString text),
     after_exchange w load_request s (now w + Z.of_N (latency x))).
Proof.
  intros Hu load_request Hx Hr Hctx. unfold Load, bind.
  rewrite (client_Do r ctx "POST" "load" _ (JObj [("key", JStr key)]))
    by (reflexivity || exact Hu).
  fold load_request.
  rewrite (Do_served load_request w x s Hx Hctx), Hr.
  cbn - [base64.DecodeString].
  destruct (base64.DecodeString text); reflexivity.
Qed.

(** C8. [Store] sends the bytes in standard base64 and [Load] decodes the
    text it receives with the same codec: against a remote that answers the
    load of a key with the text stored under it, [Store] followed by
    [Load] returns the bytes, whatever they are. *)
Theorem Store_Load_roundtrip r ctx key (value : list byte) (w : World)
    x1 s1 x2 s2 resp1 :
  url_Parse_ok (Endpoint r +:+ "store") = true ->
  url_Parse_ok (Endpoint r +:+ "load") = true ->
  let text := base64.EncodeToString value in
  let store_request :=
    built_request r ctx "POST" "store" (JObj [("key", JStr key); ("value", JStr text)]) in
  let load_request := built_request r ctx "POST" "load" (JObj [("key", JStr key)]) in
  exchange store_request (remote w) = (x1, s1) ->
  reply x1 = Ok resp1 ->
  StatusCode resp1 = 201 ->
  exchange load_request s1 = (x2, s2) ->
  reply x2 = Ok {| StatusCode := 200;
                   RespBody := BodyJSON (JObj [("value", JStr text)]) |} ->
  ctx_Err ctx (now w + Z.of_N (latency x1) + Z.of_N (latency x2)) = None ->
  exists w1 w2,
    Store r ctx key value w = (Ret None, w1)
    /\ wire w1 = (now w, store_request) :: wire w
    /\ Load r ctx key w1 = (Ret (Ok value), w2)
    /\ wire w2 = (now w1, load_request) :: wire w1
    /\ base64.DecodeString text = Ok value.
Proof.
  intros Hus Hul text store_request load_request Hx1 Hr1 Hc1 Hx2 Hr2 Hctx.
  assert (Hctx1 : ctx_Err ctx (now w + Z.of_N (latency x1)) = None)
    by (apply (ctx_Err_earlier _ _ _ Hctx); lia).
  assert (Hcodec : base64.DecodeString text = Ok value)
    by apply base64_facts.DecodeString_EncodeToString.
  set (w1 := after_exchange w store_request s1 (now w + Z.of_N (latency x1))).
  exists w1, (after_exchange w1 load_request s2 (now w1 + Z.of_N (latency x2))).
  split; [| split; [reflexivity | split; [| split; [reflexivity | exact Hcodec]]]].
  - exact (Store_created r ctx key value w x1 s1 resp1 Hus Hx1 Hr1 Hc1 Hctx1).
  - rewrite <- Hcodec.
    exact (Load_value r ctx key w1 x2 s2 text Hul Hx2 Hr2 Hctx).
Qed.

End RoundTrip.

Lemma append_inv_head (p s1 s2 : string) : p +:+ s1 = p +:+ s2 -> s1 = s2.
Proof.
  induction p as [| a p IH]; [exact id |].
  change (String a p +:+ s1) with (String a (p +:+ s1)).
  change (String a p +:+ s2) with (String a (p +:+ s2)).
  intros [= H]. exact (IH H).
Qed.

(** The key/value remote is such a remote: for every key, value and
    content, [Store] then [Load] gives the value back. *)
Lemma kv_remote_roundtrip {rt : Runtime} r key (value : list byte)
    (w : @World (kv_remote (Endpoint r))) :
  url_Parse_ok (Endpoint r +:+ "store") = true ->
  url_Parse_ok (Endpoint r +:+ "load") = true ->
  exists w1 w2,
    @Store rt (kv_remote (Endpoint r)) r Background key value w = (Ret None, w1)
    /\ @Load rt (kv_remote (Endpoint r)) r Background key w1 = (Ret (Ok value), w2).
Proof.
  intros Hus Hul.
  assert (Hne : String.eqb (Endpoint r +:+ "load") (Endpoint r +:+ "store") = false).
  { apply String.eqb_neq. intros H. apply append_inv_head in H. discriminate H. }
  set (text := base64.EncodeToString value).
  eexists. eexists. split.
  - apply (Store_created (rm := kv_remote (Endpoint r)) r Background key value w
             (respond 201 no_content) (<[key := text]> (remote w))
             {| StatusCode := 201; RespBody := no_content |} Hus);
      try reflexivity.
    cbn. unfold kv_exchange. cbn. rewrite String.eqb_refl. reflexivity.
  - rewrite <- (base64_facts.DecodeString_EncodeToString value). fold text.
    apply (Load_value (rm := kv_remote (Endpoint r)) r Background key _
             (respond 200 (BodyJSON (JObj [("value", JStr text)])))
             (<[key := text]> (remote w)) text Hul);
      try reflexivity.
    cbn. unfold kv_exchange. cbn. rewrite Hne, String.eqb_refl.
    rewrite lookup_insert_eq. reflexivity.
Qed.

(** ** Closed instances *)

Section Instances.
Local Existing Instance sample_runtime.
Local Existing Instance scripted.

(** C4. [client] is not total: for a storage that passes [Validate] but
    whose endpoint does not parse as a URL, and for a method that is not a
    token, request construction fails, its error is dropped, and the call
    panics on the nil request instead of returning an error. *)
Theorem client_panics_on_failed_request :
  Validate unparsable_storage = None
  /\ client unparsable_storage Background "POST" "lock"
       (anyLock {| LockRequest_Key := "example.com" |})
       (scripted_world [respond 201 no_content])
     = (Panic nil_dereference, scripted_world [respond 201 no_content])
  /\ client sample_storage Background "PO ST" "lock"
       (anyLock {| LockRequest_Key := "example.com" |})
       (scripted_world [respond 201 no_content])
     = (Panic nil_dereference, scripted_world [respond 201 no_content])
  /\ Lock 1 unparsable_storage Background "example.com"
       (scripted_world [respond 201 no_content])
     = (Panic nil_dereference, scripted_world [respond 201 no_content]).
Proof. repeat split; reflexivity. Qed.

(** C10. The directive [apiKey] does not assign [ApiKey]: its case has no
    statements, like the case of [apikey]; of the three spellings only
    [ApiKey] assigns. *)
Theorem UnmarshalCaddyfile_apiKey_ignored :
  (exists d',
      UnmarshalCaddyfile {| Endpoint := ""; ApiKey := "" |} caddyfile_apiKey
      = Some ({| Endpoint := "https://myapi.com/tls"; ApiKey := "" |}, d', None))
  /\ (forall r value, assign_directive r "apiKey" value = r)
  /\ (forall r value, assign_directive r "apikey" value = r)
  /\ (forall r value,
        assign_directive r "ApiKey" value = {| Endpoint := Endpoint r; ApiKey := value |}).
Proof.
  split; [eexists; vm_compute; reflexivity |].
  repeat split; reflexivity.
Qed.

(** C6, as stated, fails for [Exists]: a 500 is outside its table, and
    [Exists] returns [false] and no error. *)
Lemma Exists_swallows_unknown_status :
  ~ unknown_status_propagates (CallExists "example.com")
  /\ ~ In 500 (expected_status (CallExists "example.com"))
  /\ fst (Exists sample_storage Background "example.com"
            (scripted_world [respond 500 no_content])) = Ret false.
Proof.
  split; [| split].
  - intros H.
    destruct (H sample_runtime scripted sample_storage Background
                (scripted_world [respond 500 no_content])
                {| StatusCode := 500; RespBody := no_content |}
                (after_exchange (scripted_world [respond 500 no_content])
                   (built_request sample_storage Background "POST" "exists"
                      (JObj [("key", JStr "example.com")])) [] 0))
      as (e & He & _).
    + reflexivity.
    + cbn. intros [H5 | []]. discriminate H5.
    + vm_compute in He. discriminate He.
  - cbn. intros [H5 | []]. discriminate H5.
  - reflexivity.
Qed.

(** *** Witnesses *)

(** Two rounds of contention, then the lock: three requests, ten
    seconds.  And a round of 423, a round of 412, then status 500: [Lock]
    returns the error that names 500, after three requests and ten
    seconds. *)
Lemma Lock_state_machine_witness :
  (exists w',
     Lock 4 sample_storage Background "example.com" (scripted_world script_423_423_201)
     = (Ret None, w')
     /\ remote w' = []
     /\ now w' = 2 * polling_interval
     /\ map snd (wire w') = replicate 3 (lock_request sample_storage Background "example.com")
     /\ length (logged w') = 2%nat)
  /\ (exists w' e,
        Lock 4 sample_storage Background "example.com"
          (scripted_world [respond 423 no_content; respond 412 no_content;
                           respond 500 no_content])
        = (Ret (Some e), w')
        /\ e = errorString "Unknown status code received: 500"
        /\ status_of_error e = Some 500
        /\ errors_Is_ErrNotExist e = false
        /\ now w' = 10000000000
        /\ map snd (wire w') = replicate 3 (lock_request sample_storage Background "example.com")).
Proof.
  split.
  - destruct (Lock_state_machine sample_storage Background "example.com"
                script_423_423_201 4 (scripted_world script_423_423_201))
      as (w' & HL & _ & Hrem & Hnow & Hwire & Hlog & _);
      [reflexivity | cbn; lia | reflexivity | reflexivity |].
    exists w'. repeat split; assumption.
  - destruct (Lock_state_machine sample_storage Background "example.com"
                [respond 423 no_content; respond 412 no_content; respond 500 no_content]
                4 (scripted_world [respond 423 no_content; respond 412 no_content;
                                   respond 500 no_content]))
      as (w' & HL & _ & _ & Hnow & Hwire & _ & _ & _ & Hunknown & _);
      [reflexivity | cbn; lia | reflexivity | reflexivity |].
    destruct (Hunknown {| StatusCode := 500; RespBody := no_content |} eq_refl)
      as (_ & _ & e & He & Hstatus & Hnot); [discriminate |].
    exists w', e. split; [exact He |].
    split; [rewrite HL in He; injection He as <-; reflexivity |].
    split; [exact Hstatus |]. split; [exact Hnot |].
    split; [exact Hnow | exact Hwire].
Defined.

(** Cancelled two seconds into the first wait: [Lock] returns the
    cancellation at five seconds, with one request written. *)
Lemma Lock_cancellation_witness :
  exists w2,
    Lock 2 sample_storage (DoneAt (2 * Second) Canceled) "example.com"
      (scripted_world [respond 423 no_content; respond 201 no_content])
    = (Ret (Some (urlError "Post" (Endpoint sample_storage +:+ "lock") Canceled)), w2)
    /\ now w2 = polling_interval
    /\ length (wire w2) = 1%nat
    /\ remote w2 = [respond 201 no_content].
Proof.
  destruct (Lock_cancellation (rt := sample_runtime) (rm := scripted) sample_storage "example.com"
              (2 * Second) Canceled 0
              (scripted_world [respond 423 no_content; respond 201 no_content]) eq_refl)
    as (Hwait & _ & _ & _).
  destruct (Hwait {| StatusCode := 423; RespBody := no_content |}
              (after_exchange (scripted_world [respond 423 no_content; respond 201 no_content])
                 (lock_request sample_storage (DoneAt (2 * Second) Canceled) "example.com")
                 [respond 201 no_content] 0))
    as (w2 & HL & Hnow & _ & Hwire & Hrem).
  - reflexivity.
  - left. reflexivity.
  - cbn. unfold polling_interval, Second. lia.
  - exists w2. split; [exact HL |]. split; [exact Hnow |].
    split; [rewrite Hwire; reflexivity | exact Hrem].
Defined.

Lemma Exists_never_errors_witness :
  exists w1,
    Exists sample_storage Background "example.com"
      (scripted_world [respond 200 (BodyJSON (JObj [("exists", JBool true)]))])
    = (Ret true, w1).
Proof.
  destruct (Exists_never_errors (rt := sample_runtime) (rm := scripted) sample_storage Background "example.com"
              (scripted_world [respond 200 (BodyJSON (JObj [("exists", JBool true)]))])
              (Ok {| StatusCode := 200;
                     RespBody := BodyJSON (JObj [("exists", JBool true)]) |})
              (after_exchange
                 (scripted_world [respond 200 (BodyJSON (JObj [("exists", JBool true)]))])
                 (built_request sample_storage Background "POST" "exists"
                    (JObj [("key", JStr "example.com")])) [] 0)
              eq_refl)
    as (b & HE & _ & _ & _ & _ & Hb).
  rewrite (Hb _ true eq_refl eq_refl eq_refl) in HE.
  eexists. exact HE.
Defined.

Lemma not_found_sentinel_witness :
  exists w1,
    Load sample_storage Background "example.com" (scripted_world [respond 404 no_content])
    = (Ret (Err ErrNotExist), w1).
Proof.
  destruct (not_found_sentinel (rt := sample_runtime) (rm := scripted) sample_storage Background
              (scripted_world [respond 404 no_content])
              {| StatusCode := 404; RespBody := no_content |}
              (after_exchange (scripted_world [respond 404 no_content])
                 (built_request sample_storage Background "POST" "load"
                    (JObj [("key", JStr "example.com")])) [] 0)
              eq_refl)
    as (HLoad & _).
  eexists. apply HLoad. reflexivity.
Defined.

Lemma unknown_status_propagation_witness :
  exists w1,
    Store sample_storage Background "example.com" ["c"; "e"; "r"; "t"]%byte
      (scripted_world [respond 500 no_content])
    = (Ret (Some (errorString "unknown status code received: 500")), w1)
    /\ length (wire w1) = 1%nat.
Proof.
  destruct (unknown_status_propagation (rt := sample_runtime) (rm := scripted)
              (CallStore "example.com" ["c"; "e"; "r"; "t"]%byte)
              sample_storage Background (scripted_world [respond 500 no_content])
              {| StatusCode := 500; RespBody := no_content |}
              (after_exchange (scripted_world [respond 500 no_content])
                 (built_request sample_storage Background "POST" "store"
                    (JObj [("key", JStr "example.com"); ("value", JStr "Y2VydA==")]))
                 [] 0))
    as (Hone & HS & _).
  - reflexivity.
  - cbn. intros [H | []]. discriminate H.
  - eexists. split; [exact HS | exact Hone].
Defined.

Lemma Stat_malformed_modified_witness :
  exists w1,
    Stat sample_storage Background "example.com"
      (scripted_world [respond 200 (stat_body "yesterday")])
    = (Ret (Err (ParseError "yesterday")), w1).
Proof.
  destruct (Stat_malformed_modified (rt := sample_runtime) (rm := scripted) sample_storage Background
              "example.com" (scripted_world [respond 200 (stat_body "yesterday")])
              {| StatusCode := 200; RespBody := stat_body "yesterday" |}
              (after_exchange (scripted_world [respond 200 (stat_body "yesterday")])
                 (built_request sample_storage Background "POST" "stat"
                    (JObj [("key", JStr "example.com")])) [] 0)
              {| StatResponse_Key := "example.com"; StatResponse_Modified := "yesterday";
                 StatResponse_Size := 1704; StatResponse_IsTerminal := true |}
              (ParseError "yesterday"))
    as (HS & _); try reflexivity.
  eexists. exact HS.
Defined.

Lemma List_verbatim_witness :
  exists w1,
    List sample_storage Background "certificates" false
      (scripted_world [respond 200 (BodyJSON (JObj [("keys", JArr [JStr "b"; JStr "a"; JStr "b"])]))])
    = (Ret (Ok ["b"; "a"; "b"]), w1).
Proof.
  eexists.
  apply (List_verbatim (rt := sample_runtime) (rm := scripted)
           sample_storage Background "certificates" false
           (scripted_world
              [respond 200 (BodyJSON (JObj [("keys", JArr [JStr "b"; JStr "a"; JStr "b"])]))])
           {| StatusCode := 200;
              RespBody := BodyJSON (JObj [("keys", JArr [JStr "b"; JStr "a"; JStr "b"])]) |}
           (after_exchange
              (scripted_world
                 [respond 200
                    (BodyJSON (JObj [("keys", JArr [JStr "b"; JStr "a"; JStr "b"])]))])
              (built_request sample_storage Background "POST" "list"
                 (JObj [("prefix", JStr "certificates"); ("recursive", JBool false)]))
              [] 0)
           ["b"; "a"; "b"]); reflexivity.
Defined.

End Instances.

Lemma Store_Load_roundtrip_witness :
  exists w1 w2,
    @Store sample_runtime (kv_remote (Endpoint sample_storage)) sample_storage
      Background "example.com" ["000"; "255"; "a"]%byte (@initial (kv_remote (Endpoint sample_storage)) ∅) = (Ret None, w1)
    /\ @Load sample_runtime (kv_remote (Endpoint sample_storage)) sample_storage
         Background "example.com" w1 = (Ret (Ok ["000"; "255"; "a"]%byte), w2).
Proof.
  destruct (@Store_Load_roundtrip sample_runtime (kv_remote (Endpoint sample_storage))
              sample_storage Background "example.com" ["000"; "255"; "a"]%byte
              (@initial (kv_remote (Endpoint sample_storage)) ∅)
              (respond 201 no_content) {["example.com" := "AP9h"]}
              (respond 200 (BodyJSON (JObj [("value", JStr "AP9h")])))
              {["example.com" := "AP9h"]}
              {| StatusCode := 201; RespBody := no_content |})
    as (w1 & w2 & HS & _ & HL & _); try reflexivity.
  exists w1, w2. split; assumption.
Defined.

(* ================================================================== *)
(** * Part III: further properties of the module *)
(* ================================================================== *)

(** ** What a call writes to the network *)

Section Wire.
Context {rt : Runtime} {rm : Remote}.

(** Whatever [client] does, it does not log, does not turn the clock back,
    and either leaves the world alone or writes the one request it has
    built. *)
Lemma client_effect r ctx method path dataStruct (w : World) out w' :
  client r ctx method path dataStruct w = (out, w') ->
  out <> Running
  /\ logged w' = logged w
  /\ now w <= now w'
  /\ (w' = w
      \/ exists body,
           json_Marshal dataStruct = Ok body
           /\ wire w' =
                (now w,
                 built_request r ctx (if String.eqb method "" then "GET" else method)
                   path body) :: wire w).
Proof.
  unfold client.
  destruct (json_Marshal dataStruct) as [body | e];
    [| intros [= <- <-]; repeat split; [discriminate | lia | auto]].
  unfold NewRequestWithContext.
  set (m := if String.eqb method "" then "GET" else method).
  destruct (negb (validMethod m));
    [intros [= <- <-]; repeat split; [discriminate | lia | auto] |].
  destruct (negb (url_Parse_ok (Endpoint r +:+ path)));
    [intros [= <- <-]; repeat split; [discriminate | lia | auto] |].
  change (Header_Add _ "x-api-key" (ApiKey r)) with (built_request r ctx m path body).
  set (req := built_request r ctx m path body).
  unfold bind, Do.
  destruct (ctx_Err (req_ctx req) (now w)) eqn:E0;
    [intros [= <- <-]; repeat split; [discriminate | lia | auto] |].
  destruct (exchange req (remote w)) as [x s].
  assert (Hlat : 0 <= Z.of_N (latency x)) by lia.
  destruct (req_ctx req) as [| t cause] eqn:Ec.
  - destruct (reply x); cbn; intros [= <- <-]; cbn;
      (repeat split; [discriminate | lia | right; exists body; auto]).
  - cbn in E0. destruct (t <=? now w) eqn:Et; [discriminate |]. Zbool.
    destruct (t <? now w + Z.of_N (latency x)) eqn:Ea;
      [| destruct (reply x)]; cbn; intros [= <- <-]; cbn;
      (repeat split; [discriminate | lia | right; exists body; auto]).
Qed.

(** X1. [client] writes at most one request per call; the request goes to
    [Endpoint ++ path] with the given method, carries the content type,
    the API key of the module and the marshalled payload, and is bound to
    the caller's context.  A payload that does not marshal is reported
    without any network activity. *)
Theorem client_one_authenticated_request r ctx method path dataStruct
    (w : World) out w' :
  method <> "" ->
  client r ctx method path dataStruct w = (out, w') ->
  (w' = w
   \/ exists body req,
        json_Marshal dataStruct = Ok body
        /\ wire w' = (now w, req) :: wire w
        /\ Method req = method
        /\ URL req = Endpoint r +:+ path
        /\ Header req = [("Content-Type", "application/json"); ("X-Api-Key", ApiKey r)]
        /\ ReqBody req = body
        /\ req_ctx req = ctx)
  /\ (forall e, json_Marshal dataStruct = Err e -> out = Ret (Err e) /\ w' = w).
Proof.
  intros Hm Hc. split.
  - destruct (client_effect _ _ _ _ _ _ _ _ Hc) as (_ & _ & _ & [-> | (body & Hb & Hw)]);
      [left; reflexivity |].
    right. exists body. eexists. split; [exact Hb |]. split; [exact Hw |].
    assert (E : String.eqb method "" = false) by (apply String.eqb_neq; exact Hm).
    rewrite E. repeat split.
  - intros e He. unfold client in Hc. rewrite He in Hc.
    injection Hc as <- <-. auto.
Qed.





(** X3. [Unlock] succeeds on 204 and on nothing else: every other status,
    404 included, gives an unknown-status error that carries the status and
    is not the not-found sentinel; a transport error is returned as it is;
    in each case without a second request. *)
Theorem Unlock_only_204 r ctx key (w : World) x w1 :
  client r ctx "POST" "unlock" (anyUnlock {| UnlockRequest_Key := key |}) w
    = (Ret x, w1) ->
  exists res,
    Unlock r ctx key w = (Ret res, w1)
    /\ (w1 = w \/ wire w1 = (now w, unlock_request r ctx key) :: wire w)
    /\ (forall e, x = Err e -> res = Some e)
    /\ (forall resp, x = Ok resp -> StatusCode resp = 204 -> res = None)
    /\ (forall resp, x = Ok resp -> StatusCode resp <> 204 ->
          res = Some (unknown_status (StatusCode resp))
          /\ status_of_error (unknown_status (StatusCode resp)) = Some (StatusCode resp)
          /\ errors_Is_ErrNotExist (unknown_status (StatusCode resp)) = false).
Proof.
  intros Hc. unfold Unlock, bind. rewrite Hc.
  assert (Hw : w1 = w \/ wire w1 = (now w, unlock_request r ctx key) :: wire w).
  { destruct (client_effect _ _ _ _ _ _ _ _ Hc) as (_ & _ & _ & [-> | (body & [= <-] & ->)]);
      [left | right]; reflexivity. }
  destruct x as [resp | e].
  - destruct (StatusCode resp =? 204) eqn:E; cbn [negb]; Zbool.
    + exists None. repeat split; try congruence; exact Hw.
    + exists (Some (unknown_status (StatusCode resp))).
      split; [reflexivity |]. split; [exact Hw |].
      split; [congruence |]. split; [congruence |].
      intros resp' [= <-] _.
      split; [reflexivity | split; [apply status_of_unknown_status | reflexivity]].
  - exists (Some e). repeat split; try congruence; exact Hw.
Qed.

End Wire.

(** ** The lock loop in front of any remote *)

Lemma spaced_snoc d stamps t0 :
  spaced d stamps -> Forall (fun t => t0 + d <= t) stamps -> spaced d (stamps ++ [t0]).
Proof.
  induction stamps as [| t1 [| t2 rest] IH]; intros Hs Hall.
  - exact I.
  - cbn. inversion Hall; subst. auto.
  - destruct Hs as [H12 Hs]. inversion Hall as [| ? ? _ Hall']; subst.
    change (spaced d (t1 :: (t2 :: rest) ++ [t0])).
    change (t2 + d <= t1 /\ spaced d ((t2 :: rest) ++ [t0])).
    split; [exact H12 | apply IH; assumption].
Qed.

Section LockLoop.
Context {rt : Runtime} {rm : Remote}.

Lemma Lock_panic fuel r ctx key (w : World) msg w1 :
  client r ctx "POST" "lock" (anyLock {| LockRequest_Key := key |}) w = (Panic msg, w1) ->
  Lock (S fuel) r ctx key w = (Panic msg, w1).
Proof. intros Hc. cbn [Lock]. unfold bind at 1. rewrite Hc. reflexivity. Qed.

Lemma client_lock_effect r ctx key (w : World) out w1 :
  client r ctx "POST" "lock" (anyLock {| LockRequest_Key := key |}) w = (out, w1) ->
  out <> Running
  /\ logged w1 = logged w
  /\ now w <= now w1
  /\ (w1 = w \/ wire w1 = (now w, lock_request r ctx key) :: wire w).
Proof.
  intros Hc.
  destruct (client_effect _ _ _ _ _ _ _ _ Hc) as (H1 & H2 & H3 & [-> | (body & [= <-] & ->)]);
    repeat split; auto.
Qed.

(** X4. Whatever the remote answers and however [Lock] ends, the requests
    it has written are all the same lock request, at most one per turn of
    the loop, and any two consecutive ones are at least the polling
    interval of five seconds apart. *)
Theorem Lock_requests_spaced fuel r ctx key : forall (w : World) out w',
  Lock fuel r ctx key w = (out, w') ->
  exists stamps,
    wire w' = map (fun t => (t, lock_request r ctx key)) stamps ++ wire w
    /\ spaced polling_interval stamps
    /\ Forall (fun t => now w <= t) stamps
    /\ (length stamps <= fuel)%nat.
Proof.
  induction fuel as [| fuel IH]; intros w out w' HL.
  - injection HL as <- <-. exists []. repeat split; [constructor | cbn; lia].
  - destruct (client r ctx "POST" "lock" (anyLock {| LockRequest_Key := key |}) w)
      as [o w1] eqn:Hc.
    destruct (client_lock_effect _ _ _ _ _ _ Hc) as (Hrun & _ & Hnow & Hwire).
    assert (Hone : exists stamps,
               wire w1 = map (fun t => (t, lock_request r ctx key)) stamps ++ wire w
               /\ spaced polling_interval stamps
               /\ Forall (fun t => now w <= t) stamps
               /\ (length stamps <= S fuel)%nat).
    { destruct Hwire as [-> | ->].
      - exists []. repeat split; [constructor | cbn; lia].
      - exists [now w]. repeat split; [repeat constructor; lia | cbn; lia]. }
    destruct o as [x | msg |]; [| | congruence].
    + rewrite (Lock_unfold fuel r ctx key w _ _ Hc) in HL.
      destruct (lock_transition x) eqn:Et;
        [| injection HL as <- <-; exact Hone | injection HL as <- <-; exact Hone].
      destruct (lock_transition_Attempting _ Et) as (resp & -> & _).
      destruct (IH _ _ _ HL) as (stamps & Hw & Hs & Hall & Hlen).
      cbn [after_wait wire now] in Hw, Hall.
      destruct Hwire as [-> | Hw1].
      * exists stamps. split; [exact Hw |]. split; [exact Hs |].
        split; [| lia].
        eapply Forall_impl; [exact Hall |]. cbn. unfold polling_interval, Second. lia.
      * exists (stamps ++ [now w]). split; [| split; [| split]].
        -- rewrite Hw, Hw1, map_app, <- app_assoc. reflexivity.
        -- apply spaced_snoc; [exact Hs |].
           eapply Forall_impl; [exact Hall |]. cbn. lia.
        -- apply Forall_app. split.
           ++ eapply Forall_impl; [exact Hall |]. cbn.
              unfold polling_interval, Second. lia.
           ++ repeat constructor. lia.
        -- rewrite length_app. cbn. lia.
    + rewrite (Lock_panic fuel r ctx key w _ _ Hc) in HL.
      injection HL as <- <-. exact Hone.
Qed.



End LockLoop.

(** ** In front of a remote that keeps the contract *)

Section Contract.
Context {rt : Runtime} (r : RestStorage).
Local Abbreviation svc := (service (Endpoint r)).

(** A call of [client] in front of the service, without cancellation. *)
Lemma service_client method path dataStruct body (w : @World svc) :
  json_Marshal dataStruct = Ok body ->
  validMethod method = true ->
  url_Parse_ok (Endpoint r +:+ path) = true ->
  @client rt svc r Background method path dataStruct w =
    let req := built_request r Background method path body in
    let xs := service_exchange (Endpoint r) req (remote w) in
    (Ret (wrap_reply (urlError (urlErrorOp method) (Endpoint r +:+ path)) (reply (fst xs))),
     @after_exchange svc w req (snd xs) (now w + Z.of_N (latency (fst xs)))).
Proof.
  intros Hm Hv Hu.
  rewrite (client_Do (rm := svc) r Background method path _ body w Hm Hv Hu).
  cbv zeta.
  destruct (service_exchange (Endpoint r) (built_request r Background method path body)
              (remote w)) as [x s] eqn:Ex.
  apply (Do_served (rm := svc) (built_request r Background method path body) w x s Ex).
  reflexivity.
Qed.

Ltac service_step :=
  unfold service_exchange; cbn [URL ReqBody built_request key_of];
  rewrite strip_prefix_app; cbn [String.eqb Ascii.eqb Bool.eqb];
  cbn [fst snd respond reply latency wrap_reply StatusCode RespBody].

(** [Lock] of a free key takes it with one request. *)
Lemma service_Lock_free fuel key (w : @World svc) :
  url_Parse_ok (Endpoint r +:+ "lock") = true ->
  key ∉ locked (remote w) ->
  exists w1,
    @Lock rt svc (S fuel) r Background key w = (Ret None, w1)
    /\ remote w1 = {| stored := stored (remote w); locked := {[key]} ∪ locked (remote w) |}
    /\ wire w1 = (now w, lock_request r Background key) :: wire w
    /\ now w1 = now w.
Proof.
  intros Hu Hfree.
  pose proof (service_client "POST" "lock" (anyLock {| LockRequest_Key := key |})
                (JObj [("key", JStr key)]) w eq_refl eq_refl Hu) as Hc.
  cbv zeta in Hc. revert Hc. service_step.
  destruct (decide (key ∈ locked (remote w))) as [Hin | _]; [contradiction |].
  intros Hc. rewrite (Lock_unfold (rm := svc) fuel r Background key w _ _ Hc).
  eexists. split; [reflexivity |]. cbn. repeat split. lia.
Qed.

(** [Lock] of a key that is held waits for as long as it is held. *)
Lemma service_Lock_held key fuel : forall w : @World svc,
  url_Parse_ok (Endpoint r +:+ "lock") = true ->
  key ∈ locked (remote w) ->
  fst (@Lock rt svc fuel r Background key w) = Running.
Proof.
  induction fuel as [| fuel IH]; intros w Hu Hheld; [reflexivity |].
  pose proof (service_client "POST" "lock" (anyLock {| LockRequest_Key := key |})
                (JObj [("key", JStr key)]) w eq_refl eq_refl Hu) as Hc.
  cbv zeta in Hc. revert Hc. service_step.
  destruct (decide (key ∈ locked (remote w))) as [_ | Hout]; [| contradiction].
  intros Hc. rewrite (Lock_unfold (rm := svc) fuel r Background key w _ _ Hc).
  cbn [lock_transition StatusCode Z.eqb Pos.eqb orb].
  apply IH; [exact Hu | exact Hheld].
Qed.

Lemma service_Unlock_held key (w : @World svc) :
  url_Parse_ok (Endpoint r +:+ "unlock") = true ->
  key ∈ locked (remote w) ->
  exists w1,
    @Unlock rt svc r Background key w = (Ret None, w1)
    /\ remote w1 = {| stored := stored (remote w); locked := locked (remote w) ∖ {[key]} |}
    /\ now w1 = now w.
Proof.
  intros Hu Hheld. unfold Unlock, bind.
  rewrite (service_client "POST" "unlock" (anyUnlock {| UnlockRequest_Key := key |})
             (JObj [("key", JStr key)]) w eq_refl eq_refl Hu).
  cbv zeta. service_step.
  destruct (decide (key ∈ locked (remote w))) as [_ | Hout]; [| contradiction].
  eexists. split; [reflexivity |]. cbn. split; [reflexivity | lia].
Qed.

Lemma service_Unlock_free key (w : @World svc) :
  url_Parse_ok (Endpoint r +:+ "unlock") = true ->
  key ∉ locked (remote w) ->
  exists w1,
    @Unlock rt svc r Background key w = (Ret (Some (unknown_status 404)), w1)
    /\ remote w1 = remote w.
Proof.
  intros Hu Hfree. unfold Unlock, bind.
  rewrite (service_client "POST" "unlock" (anyUnlock {| UnlockRequest_Key := key |})
             (JObj [("key", JStr key)]) w eq_refl eq_refl Hu).
  cbv zeta. service_step.
  destruct (decide (key ∈ locked (remote w))) as [Hin | _]; [contradiction |].
  eexists. split; reflexivity.
Qed.

(** X7. The lock is not reentrant.  Once [Lock] has taken a free key, a
    second [Lock] of the same key, by the same caller too, does not return
    for as long as nobody unlocks it, while another key can still be
    taken. *)
Theorem Lock_not_reentrant key other fuel (w : @World svc) :
  url_Parse_ok (Endpoint r +:+ "lock") = true ->
  key ∉ locked (remote w) ->
  other ∉ locked (remote w) ->
  other <> key ->
  exists w1,
    @Lock rt svc (S fuel) r Background key w = (Ret None, w1)
    /\ (forall fuel', fst (@Lock rt svc fuel' r Background key w1) = Running)
    /\ fst (@Lock rt svc (S fuel) r Background other w1) = Ret None.
Proof.
  intros Hu Hfree Hother Hne.
  destruct (service_Lock_free fuel key w Hu Hfree) as (w1 & HL & Hrem & _).
  exists w1. split; [exact HL |]. split.
  - intros fuel'. apply service_Lock_held; [exact Hu |]. rewrite Hrem. cbn.
    apply elem_of_union_l, elem_of_singleton. reflexivity.
  - destruct (service_Lock_free fuel other w1 Hu) as (w2 & HL2 & _).
    + rewrite Hrem. cbn. intros [Hin | Hin]%elem_of_union;
        [apply elem_of_singleton in Hin; contradiction | contradiction].
    + rewrite HL2. reflexivity.
Qed.

(** X8. [Unlock] releases what [Lock] has taken: after it the key can be
    locked again; unlocking a key that is not locked, in particular
    unlocking twice, is an error with status 404 and changes nothing. *)
Theorem Lock_Unlock_cycle key fuel (w : @World svc) :
  url_Parse_ok (Endpoint r +:+ "lock") = true ->
  url_Parse_ok (Endpoint r +:+ "unlock") = true ->
  key ∉ locked (remote w) ->
  exists w1 w2 w3 w4,
    @Lock rt svc (S fuel) r Background key w = (Ret None, w1)
    /\ @Unlock rt svc r Background key w1 = (Ret None, w2)
    /\ locked (remote w2) = locked (remote w)
    /\ @Lock rt svc (S fuel) r Background key w2 = (Ret None, w3)
    /\ @Unlock rt svc r Background key w2
       = (Ret (Some (errorString "unknown status code received: 404")), w4)
    /\ remote w4 = remote w2.
Proof.
  intros Hl Hu Hfree.
  destruct (service_Lock_free fuel key w Hl Hfree) as (w1 & HL & Hrem1 & _).
  destruct (service_Unlock_held key w1 Hu) as (w2 & HU & Hrem2 & _);
    [rewrite Hrem1; cbn; apply elem_of_union_l, elem_of_singleton; reflexivity |].
  assert (Hlocked : locked (remote w2) = locked (remote w)).
  { rewrite Hrem2, Hrem1. cbn. apply set_eq. intros x.
    rewrite elem_of_difference, elem_of_union, elem_of_singleton.
    split; [intros [[-> | Hx] Hne]; [contradiction | exact Hx] |].
    intros Hx. split; [right; exact Hx | intros ->; contradiction]. }
  assert (Hfree2 : key ∉ locked (remote w2)) by (rewrite Hlocked; exact Hfree).
  destruct (service_Lock_free fuel key w2 Hl Hfree2) as (w3 & HL3 & _).
  destruct (service_Unlock_free key w2 Hu Hfree2) as (w4 & HU4 & Hrem4).
  exists w1, w2, w3, w4.
  split; [exact HL |]. split; [exact HU |]. split; [exact Hlocked |].
  split; [exact HL3 |]. split; [exact HU4 | exact Hrem4].
Qed.

End Contract.

Section ContractValues.
Context {rt : Runtime} (r : RestStorage).
Local Abbreviation svc := (service (Endpoint r)).

Ltac service_call path d body w Hu :=
  rewrite (service_client r "POST" path d body w eq_refl eq_refl Hu);
  cbv zeta; unfold service_exchange; cbn [URL ReqBody built_request key_of];
  rewrite strip_prefix_app; cbn [String.eqb Ascii.eqb Bool.eqb];
  cbn [fst snd respond reply latency wrap_reply StatusCode RespBody].

Lemma service_Store key value (w : @World svc) :
  url_Parse_ok (Endpoint r +:+ "store") = true ->
  exists w1,
    @Store rt svc r Background key value w = (Ret None, w1)
    /\ remote w1 = {| stored := <[key := base64.EncodeToString value]> (stored (remote w));
                      locked := locked (remote w) |}.
Proof.
  intros Hu. unfold Store, bind.
  service_call "store"
    (anyStore {| StoreRequest_Key := key;
                 StoreRequest_Value := base64.EncodeToString value |})
    (JObj [("key", JStr key); ("value", JStr (base64.EncodeToString value))]) w Hu.
  eexists. split; reflexivity.
Qed.

Lemma service_Load key (w : @World svc) :
  url_Parse_ok (Endpoint r +:+ "load") = true ->
  exists w1,
    @Load rt svc r Background key w
    = (Ret (match stored (remote w) !! key with
            | Some text => base64.DecodeString text
            | None => Err ErrNotExist
            end), w1)
    /\ remote w1 = remote w.
Proof.
  intros Hu. unfold Load, bind.
  service_call "load" (anyLoad {| LoadRequest_Key := key |})
    (JObj [("key", JStr key)]) w Hu.
  destruct (stored (remote w) !! key) as [text |].
  - cbn - [base64.DecodeString].
    destruct (base64.DecodeString text); eexists; split; reflexivity.
  - eexists. split; reflexivity.
Qed.

Lemma service_Exists key (w : @World svc) :
  url_Parse_ok (Endpoint r +:+ "exists") = true ->
  exists w1,
    @Exists rt svc r Background key w
    = (Ret (bool_decide (is_Some (stored (remote w) !! key))), w1)
    /\ remote w1 = remote w.
Proof.
  intros Hu. unfold Exists, bind.
  service_call "exists" (anyExists {| ExistsRequest_Key := key |})
    (JObj [("key", JStr key)]) w Hu.
  eexists. split; reflexivity.
Qed.

Lemma service_Delete key (w : @World svc) :
  url_Parse_ok (Endpoint r +:+ "delete") = true ->
  exists w1,
    @Delete rt svc r Background key w
    = (Ret (match stored (remote w) !! key with
            | Some _ => None
            | None => Some ErrNotExist
            end), w1)
    /\ remote w1 = {| stored := delete key (stored (remote w));
                      locked := locked (remote w) |}.
Proof.
  intros Hu. unfold Delete, bind.
  rewrite (service_client r "DELETE" "delete" (anyDelete {| DeleteRequest_Key := key |})
             (JObj [("key", JStr key)]) w eq_refl eq_refl Hu).
  cbv zeta. unfold service_exchange. cbn [URL ReqBody built_request key_of].
  rewrite strip_prefix_app. cbn [String.eqb Ascii.eqb Bool.eqb].
  destruct (stored (remote w) !! key) as [text |] eqn:E.
  - eexists. split; reflexivity.
  - eexists. split; [reflexivity |]. cbn.
    rewrite delete_id by exact E. destruct (remote w); reflexivity.
Qed.

(** X9. A stored value is there until it is deleted.  After [Store],
    [Exists] is true and [Load] returns the bytes; [Delete] then succeeds,
    after which [Load] and a second [Delete] return the not-found sentinel
    and [Exists] is false; other keys keep their values throughout. *)
Theorem Store_Delete_lifecycle key value (w : @World svc) :
  url_Parse_ok (Endpoint r +:+ "store") = true ->
  url_Parse_ok (Endpoint r +:+ "load") = true ->
  url_Parse_ok (Endpoint r +:+ "exists") = true ->
  url_Parse_ok (Endpoint r +:+ "delete") = true ->
  exists w1 w2 w3 w4 w5 w6 w7,
    @Store rt svc r Background key value w = (Ret None, w1)
    /\ @Exists rt svc r Background key w1 = (Ret true, w2)
    /\ @Load rt svc r Background key w2 = (Ret (Ok value), w3)
    /\ @Delete rt svc r Background key w3 = (Ret None, w4)
    /\ @Load rt svc r Background key w4 = (Ret (Err ErrNotExist), w5)
    /\ @Exists rt svc r Background key w5 = (Ret false, w6)
    /\ @Delete rt svc r Background key w6 = (Ret (Some ErrNotExist), w7)
    /\ (forall other, other <> key ->
          stored (remote w7) !! other = stored (remote w) !! other).
Proof.
  intros Hs Hl He Hd.
  destruct (service_Store key value w Hs) as (w1 & H1 & R1).
  destruct (service_Exists key w1 He) as (w2 & H2 & R2).
  destruct (service_Load key w2 Hl) as (w3 & H3 & R3).
  destruct (service_Delete key w3 Hd) as (w4 & H4 & R4).
  destruct (service_Load key w4 Hl) as (w5 & H5 & R5).
  destruct (service_Exists key w5 He) as (w6 & H6 & R6).
  destruct (service_Delete key w6 Hd) as (w7 & H7 & R7).
  assert (S1 : stored (remote w1) !! key = Some (base64.EncodeToString value))
    by (rewrite R1; cbn; apply lookup_insert_eq).
  assert (S4 : stored (remote w4) !! key = None)
    by (rewrite R4; cbn; apply lookup_delete_eq).
  rewrite R2, S1, base64_facts.DecodeString_EncodeToString in H3.
  rewrite R3, R2, S1 in H4.
  rewrite S4 in H5. rewrite R5, S4 in H6. rewrite R6, R5, S4 in H7.
  rewrite S1 in H2.
  exists w1, w2, w3, w4, w5, w6, w7.
  repeat (split; [first [exact H1 | exact H2 | exact H3 | exact H4
                         | exact H5 | exact H6 | exact H7] |]).
  intros other Hne.
  rewrite R7, R6, R5. cbn. rewrite R4. cbn. rewrite R3, R2, R1. cbn.
  rewrite !lookup_delete_ne by congruence. apply lookup_insert_ne. congruence.
Qed.

End ContractValues.

(** ** Configuration *)

Lemma substring_all s : substring 0 (String.length s) s = s.
Proof. induction s as [| a s IH]; cbn; [reflexivity | rewrite IH; reflexivity]. Qed.

Lemma substring_tail s suffix :
  substring (String.length s) (String.length suffix) (s +:+ suffix) = suffix.
Proof.
  induction s as [| a s IH]; [apply substring_all | exact IH].
Qed.

Lemma length_append s t : String.length (s +:+ t) = (String.length s + String.length t)%nat.
Proof.
  induction s as [| a s IH]; [reflexivity |].
  change (String a s +:+ t) with (String a (s +:+ t)).
  cbn [String.length]. rewrite IH. reflexivity.
Qed.

Lemma HasSuffix_append s suffix : HasSuffix (s +:+ suffix) suffix = true.
Proof.
  unfold HasSuffix. rewrite length_append.
  replace (String.length s + String.length suffix - String.length suffix)%nat
    with (String.length s) by lia.
  rewrite substring_tail, String.eqb_refl, andb_true_r.
  apply Nat.leb_le. lia.
Qed.

Lemma Provision_Endpoint (ReplaceAll : string -> string -> string) r :
  Endpoint (fst (Provision ReplaceAll r))
  = (if HasSuffix (Endpoint r) "/" then Endpoint r else Endpoint r +:+ "/").
Proof. unfold Provision. destruct (HasSuffix (Endpoint r) "/"); reflexivity. Qed.

Lemma Provision_ApiKey (ReplaceAll : string -> string -> string) r :
  ApiKey (fst (Provision ReplaceAll r)) = ReplaceAll (ApiKey r) "".
Proof. unfold Provision. destruct (HasSuffix (Endpoint r) "/"); reflexivity. Qed.

Lemma Provision_HasSuffix (ReplaceAll : string -> string -> string) r :
  HasSuffix (Endpoint (fst (Provision ReplaceAll r))) "/" = true.
Proof.
  rewrite Provision_Endpoint. destruct (HasSuffix (Endpoint r) "/") eqn:E.
  - exact E.
  - apply HasSuffix_append.
Qed.

(** X10. [Provision] makes the endpoint end in a separator: it appends one
    unless the endpoint already ends in one, reports no error, replaces the
    placeholders of the key, and provisioning twice changes the endpoint no
    further. *)
Theorem Provision_normalises_endpoint (ReplaceAll : string -> string -> string) r :
  let r' := fst (Provision ReplaceAll r) in
  snd (Provision ReplaceAll r) = None
  /\ HasSuffix (Endpoint r') "/" = true
  /\ Endpoint r' = (if HasSuffix (Endpoint r) "/" then Endpoint r else Endpoint r +:+ "/")
  /\ ApiKey r' = ReplaceAll (ApiKey r) ""
  /\ Endpoint (fst (Provision ReplaceAll r')) = Endpoint r'.
Proof.
  cbv zeta. split; [reflexivity |].
  split; [apply Provision_HasSuffix |].
  split; [apply Provision_Endpoint |].
  split; [apply Provision_ApiKey |].
  rewrite (Provision_Endpoint ReplaceAll (fst (Provision ReplaceAll r))).
  rewrite Provision_HasSuffix. reflexivity.
Qed.

(** X11. After [Provision] the endpoint test of [Validate] cannot fail, an
    empty endpoint having become the separator alone: [Validate] then
    rejects exactly the modules whose key is empty after replacement,
    while without [Provision] it rejects the empty endpoint. *)
Theorem Validate_after_Provision (ReplaceAll : string -> string -> string) r :
  Validate (fst (Provision ReplaceAll r))
  = (if String.eqb (ReplaceAll (ApiKey r) "") ""
     then Some (errorString "api key must be defined") else None)
  /\ Validate {| Endpoint := ""; ApiKey := ApiKey r |}
     = Some (errorString "endpoint must be specified").
Proof.
  split; [| reflexivity].
  pose proof (Provision_HasSuffix ReplaceAll r) as Hs.
  unfold Validate. rewrite Provision_ApiKey.
  destruct (Endpoint (fst (Provision ReplaceAll r))) eqn:E; [discriminate Hs |].
  reflexivity.
Qed.

(** More fuel does not change what the loop returns. *)
Lemma UnmarshalCaddyfile_loop_more fuel : forall extra r d res,
  UnmarshalCaddyfile_loop fuel r d = Some res ->
  UnmarshalCaddyfile_loop (fuel + extra) r d = Some res.
Proof.
  induction fuel as [| fuel IH]; intros extra r d res; [discriminate |].
  cbn [UnmarshalCaddyfile_loop Nat.add].
  destruct (caddyfile.Next d) as [more d1].
  destruct (negb more); [exact id |].
  destruct (caddyfile.Args d1) as [[value |] d2]; apply IH.
Qed.

Section Directives.
Import caddyfile.

Lemma token_at_middle pre (t : Token) rest :
  token_at {| tokens := pre ++ t :: rest; cursor := 0 |} (Z.of_nat (length pre)) = Some t.
Proof.
  unfold token_at. cbn [tokens].
  destruct (Z.of_nat (length pre) <? 0) eqn:E; [Zbool; lia |].
  rewrite Nat2Z.id, lookup_app_r by lia.
  rewrite Nat.sub_diag. reflexivity.
Qed.

Lemma token_at_tokens toks c1 c2 i :
  token_at {| tokens := toks; cursor := c1 |} i
  = token_at {| tokens := toks; cursor := c2 |} i.
Proof. reflexivity. Qed.

(** One turn of the loop on a directive with its argument on the same
    line. *)
Lemma loop_directive fuel r pre k v line rest :
  v <> "{" ->
  UnmarshalCaddyfile_loop (S fuel) r
    {| tokens := pre ++ token line k :: token line v :: rest;
       cursor := Z.of_nat (length pre) - 1 |}
  = UnmarshalCaddyfile_loop fuel (assign_directive r k v)
      {| tokens := pre ++ token line k :: token line v :: rest;
         cursor := Z.of_nat (length pre) + 1 |}.
Proof.
  intros Hv. set (toks := pre ++ token line k :: token line v :: rest).
  assert (Hlen : Z.of_nat (length toks) = Z.of_nat (length pre) + 2 + Z.of_nat (length rest)).
  { subst toks. rewrite length_app. cbn [length]. lia. }
  assert (Hk : forall c, token_at {| tokens := toks; cursor := c |} (Z.of_nat (length pre))
                         = Some (token line k)).
  { intros c. apply (token_at_middle pre (token line k) (token line v :: rest)). }
  assert (Hv' : forall c, token_at {| tokens := toks; cursor := c |} (Z.of_nat (length pre) + 1)
                          = Some (token line v)).
  { intros c. subst toks.
    replace (pre ++ token line k :: token line v :: rest)
      with ((pre ++ [token line k]) ++ token line v :: rest)
      by (rewrite <- app_assoc; reflexivity).
    replace (Z.of_nat (length pre) + 1) with (Z.of_nat (length (pre ++ [token line k])))
      by (rewrite length_app; cbn; lia).
    apply token_at_middle. }
  cbn [UnmarshalCaddyfile_loop]. unfold Next, len. cbn [tokens cursor].
  destruct (Z.of_nat (length pre) - 1 <? Z.of_nat (length toks) - 1) eqn:E1; [| Zbool; lia].
  cbn [negb].
  replace (Z.of_nat (length pre) - 1 + 1) with (Z.of_nat (length pre)) by lia.
  unfold Val at 1. cbn [cursor]. rewrite Hk. cbn [Text token].
  unfold Args, NextArg, nextOnSameLine, len. cbn [tokens cursor].
  destruct (Z.of_nat (length pre) <? 0) eqn:E2; [Zbool; lia |].
  destruct (Z.of_nat (length toks) - 1 <=? Z.of_nat (length pre)) eqn:E3; [Zbool; lia |].
  rewrite Hk, Hv'.
  assert (Hsame : isNextOnNewLine (token line k) (token line v) = false).
  { unfold isNextOnNewLine, token. cbn [File Line Text].
    rewrite String.eqb_refl. cbn [negb orb].
    apply Z.ltb_ge.
    assert (Hnl : forall s, 0 <= count_newlines s).
    { clear. induction s as [| c s IH]; cbn; [lia |].
      destruct (Ascii.eqb c "010"%char); lia. }
    specialize (Hnl k). lia. }
  rewrite Hsame. cbn [negb].
  unfold Val. cbn [cursor]. rewrite Hv'. cbn [Text token].
  destruct (String.eqb_spec v "{") as [-> | _]; [contradiction |].
  cbn [cursor]. rewrite Hv'. reflexivity.
Qed.

(** The loop over a run of such directives folds the switch over them. *)
Lemma loop_directives pairs : forall fuel r pre line rest,
  Forall (fun kv => snd kv <> "{") pairs ->
  UnmarshalCaddyfile_loop (length pairs + fuel) r
    {| tokens := pre ++ directive_tokens line pairs ++ rest;
       cursor := Z.of_nat (length pre) - 1 |}
  = UnmarshalCaddyfile_loop fuel
      (fold_left (fun acc kv => assign_directive acc (fst kv) (snd kv)) pairs r)
      {| tokens := pre ++ directive_tokens line pairs ++ rest;
         cursor := Z.of_nat (length pre) + 2 * Z.of_nat (length pairs) - 1 |}.
Proof.
  induction pairs as [| [k v] pairs IH]; intros fuel r pre line rest Hall.
  - cbn. f_equal. f_equal. lia.
  - inversion Hall as [| ? ? Hv Hall']; subst. cbn in Hv.
    cbn [directive_tokens length Nat.add fold_left fst snd].
    change ((token line k :: token line v :: directive_tokens (line + 1) pairs) ++ rest)
      with (token line k :: token line v :: directive_tokens (line + 1) pairs ++ rest).
    rewrite loop_directive by exact Hv.
    replace (pre ++ token line k :: token line v :: directive_tokens (line + 1) pairs ++ rest)
      with ((pre ++ [token line k; token line v])
              ++ directive_tokens (line + 1) pairs ++ rest)
      by (rewrite <- app_assoc; reflexivity).
    replace (Z.of_nat (length pre) + 1)
      with (Z.of_nat (length (pre ++ [token line k; token line v])) - 1)
      by (rewrite length_app; cbn; lia).
    rewrite IH by exact Hall'.
    f_equal. f_equal. rewrite length_app. cbn [length]. lia.
Qed.

End Directives.

Section Block.
Import caddyfile.

Lemma length_directive_tokens line pairs :
  length (directive_tokens line pairs) = (2 * length pairs)%nat.
Proof.
  revert line. induction pairs as [| [k v] pairs IH]; intros line; cbn; [reflexivity |].
  rewrite IH. lia.
Qed.

(** A turn of the loop on a token that has no argument on its line. *)
Lemma loop_skip fuel r d d1 d2 :
  Next d = (true, d1) ->
  Args d1 = (None, d2) ->
  UnmarshalCaddyfile_loop (S fuel) r d = UnmarshalCaddyfile_loop fuel r d2.
Proof. intros HN HA. cbn [UnmarshalCaddyfile_loop]. rewrite HN. cbn [negb]. rewrite HA. reflexivity. Qed.

(** X12. For a block [name { key value ... }] with one directive per line,
    [UnmarshalCaddyfile] returns no error and the module obtained by taking
    the directives in order through the switch: a later [endpoint] or
    [ApiKey] overrides an earlier one, every other key is ignored. *)
Theorem UnmarshalCaddyfile_block r name line pairs :
  Forall (fun kv => snd kv <> "{") pairs ->
  exists d',
    UnmarshalCaddyfile r
      (NewDispenser
         (token line name :: token line "{"
          :: directive_tokens (line + 1) pairs
          ++ [token (line + 1 + Z.of_nat (length pairs)) "}"]))
    = Some (fold_left (fun acc kv => assign_directive acc (fst kv) (snd kv)) pairs r,
            d', None).
Proof.
  intros Hall.
  set (close := token (line + 1 + Z.of_nat (length pairs)) "}").
  set (body := directive_tokens (line + 1) pairs ++ [close]).
  set (toks := token line name :: token line "{" :: body).
  assert (Hbody : length body = (2 * length pairs + 1)%nat).
  { subst body. rewrite length_app, length_directive_tokens. cbn. lia. }
  assert (Hlen : Z.of_nat (length toks) = 2 * Z.of_nat (length pairs) + 3).
  { subst toks. cbn [length]. rewrite Hbody. lia. }
  assert (Hnl : forall s, 0 <= count_newlines s).
  { clear. induction s as [| c s IH]; cbn; [lia |].
    destruct (Ascii.eqb c "010"%char); lia. }
  (* enough turns: the name, the brace, the directives, the closing brace *)
  enough (Hrun : exists d',
             UnmarshalCaddyfile_loop (S (S (length pairs + 2))) r (NewDispenser toks)
             = Some (fold_left (fun acc kv => assign_directive acc (fst kv) (snd kv)) pairs r,
                     d', None)).
  { destruct Hrun as (d' & Hrun). exists d'.
    unfold UnmarshalCaddyfile, UnmarshalCaddyfile_fuel, len, NewDispenser.
    cbn [tokens cursor].
    replace (S (Z.to_nat (Z.of_nat (length toks) - -1)))
      with (S (S (length pairs + 2)) + (length pairs + 1))%nat by lia.
    apply UnmarshalCaddyfile_loop_more. exact Hrun. }
  (* the name: its argument would be the brace, which is no argument *)
  rewrite (loop_skip _ r (NewDispenser toks)
             {| tokens := toks; cursor := 0 |} {| tokens := toks; cursor := 0 |}).
  2: { unfold Next, NewDispenser, len. cbn [tokens cursor].
       destruct (-1 <? Z.of_nat (length toks) - 1) eqn:E; [reflexivity | Zbool; lia]. }
  2: { unfold Args, NextArg, nextOnSameLine, len. cbn [tokens cursor].
       destruct (Z.of_nat (length toks) - 1 <=? 0) eqn:E; [Zbool; lia |].
       cbn [Z.ltb Z.compare].
       assert (Hsame : isNextOnNewLine (token line name) (token line "{") = false).
       { unfold isNextOnNewLine, token. cbn [File Line Text].
         rewrite String.eqb_refl. cbn [negb orb]. apply Z.ltb_ge.
         specialize (Hnl name). lia. }
       change (token_at {| tokens := toks; cursor := 0 |} 0) with (Some (token line name)).
       change (token_at {| tokens := toks; cursor := 0 |} (0 + 1))
         with (Some (token line "{")).
       cbv beta iota. rewrite Hsame. reflexivity. }
  (* the brace: the next token is on a later line *)
  rewrite (loop_skip _ r {| tokens := toks; cursor := 0 |}
             {| tokens := toks; cursor := 1 |} {| tokens := toks; cursor := 1 |}).
  2: { unfold Next, len. cbn [tokens cursor].
       destruct (0 <? Z.of_nat (length toks) - 1) eqn:E; [reflexivity | Zbool; lia]. }
  2: { unfold Args, NextArg, nextOnSameLine, len. cbn [tokens cursor].
       destruct (Z.of_nat (length toks) - 1 <=? 1) eqn:E; [Zbool; lia |].
       cbn [Z.ltb Z.compare].
       change (token_at {| tokens := toks; cursor := 1 |} 1) with (Some (token line "{")).
       assert (Hnext : exists t, token_at {| tokens := toks; cursor := 1 |} (1 + 1) = Some t
                                 /\ File t = "Caddyfile" /\ line < Line t).
       { subst toks body. destruct pairs as [| [k v] pairs'].
         - exists close. subst close. repeat split. cbn. lia.
         - exists (token (line + 1) k). repeat split. cbn. lia. }
       destruct Hnext as (t & -> & Hf & Hl).
       assert (Hnew : isNextOnNewLine (token line "{") t = true).
       { unfold isNextOnNewLine, token. cbn [File Line Text]. rewrite Hf.
         cbn [String.eqb Ascii.eqb Bool.eqb negb orb count_newlines].
         apply Z.ltb_lt. cbn. lia. }
       cbv beta iota. rewrite Hnew. reflexivity. }
  (* the directives *)
  assert (Hd : {| tokens := toks; cursor := 1 |}
               = {| tokens := [token line name; token line "{"]
                              ++ directive_tokens (line + 1) pairs ++ [close];
                    cursor := Z.of_nat (length [token line name; token line "{"]) - 1 |})
    by reflexivity.
  rewrite Hd.
  rewrite (loop_directives pairs 2 r [token line name; token line "{"] (line + 1) [close])
    by exact Hall.
  (* the closing brace, and the end *)
  set (r' := fold_left _ pairs r).
  change ([token line name; token line "{"] ++ directive_tokens (line + 1) pairs ++ [close])
    with toks.
  set (c := Z.of_nat (length [token line name; token line "{"])
            + 2 * Z.of_nat (length pairs) - 1).
  assert (Hc : c = 2 * Z.of_nat (length pairs) + 1) by (subst c; cbn [length]; lia).
  clearbody c.
  rewrite (loop_skip _ r' {| tokens := toks; cursor := c |}
             {| tokens := toks; cursor := c + 1 |} {| tokens := toks; cursor := c + 1 |}).
  2: { unfold Next, len. cbn [tokens cursor].
       destruct (c <? Z.of_nat (length toks) - 1) eqn:E; [reflexivity | Zbool; lia]. }
  2: { unfold Args, NextArg, nextOnSameLine, len. cbn [tokens cursor].
       destruct (c + 1 <? 0) eqn:E0; [Zbool; lia |].
       destruct (Z.of_nat (length toks) - 1 <=? c + 1) eqn:E; [reflexivity | Zbool; lia]. }
  cbn [UnmarshalCaddyfile_loop]. unfold Next, len. cbn [tokens cursor].
  destruct (c + 1 <? Z.of_nat (length toks) - 1) eqn:E; [Zbool; lia |].
  cbn [negb]. eexists. reflexivity.
Qed.

End Block.

(** ** What a result tells about the answer *)

Lemma decode_members_none {T} names (set : nat -> json -> T -> result T) members zero :
  Forall (fun kv => json_decode.find_field names (fst kv) = None) members ->
  json_decode.decode_members names set members zero = Ok zero.
Proof.
  induction members as [| [k v] members IH]; intros Hall; [reflexivity |].
  inversion Hall as [| ? ? Hk Hall']; subst. cbn in Hk |- *.
  rewrite Hk. apply IH. exact Hall'.
Qed.

Section Results.
Context {rt : Runtime} {rm : Remote}.

Ltac open_operation :=
  unfold Store, Load, Delete, Unlock, Exists, List, Stat, bind, ret; cbv zeta;
  match goal with
  | |- context [client ?r ?ctx ?m ?p ?d ?w] =>
      destruct (client r ctx m p d w) as [[[resp | e] | msg |] w1]
  end; try discriminate.

(** X14. No operation reports success unless the remote has answered with
    the status of success: [Store] 201, [Delete] and [Unlock] 204;
    [Load], a true [Exists], [List] and [Stat] 200 with a body that
    decodes to what they return, for [Load] through base64 and for [Stat]
    through the timestamp parser. *)
Theorem success_requires_success_status r ctx (w w' : World) :
  (forall key value,
      Store r ctx key value w = (Ret None, w') ->
      exists resp,
        client r ctx "POST" "store"
          (anyStore {| StoreRequest_Key := key;
                       StoreRequest_Value := base64.EncodeToString value |}) w
        = (Ret (Ok resp), w') /\ StatusCode resp = 201)
  /\ (forall key,
      Delete r ctx key w = (Ret None, w') ->
      exists resp,
        client r ctx "DELETE" "delete" (anyDelete {| DeleteRequest_Key := key |}) w
        = (Ret (Ok resp), w') /\ StatusCode resp = 204)
  /\ (forall key,
      Unlock r ctx key w = (Ret None, w') ->
      exists resp,
        client r ctx "POST" "unlock" (anyUnlock {| UnlockRequest_Key := key |}) w
        = (Ret (Ok resp), w') /\ StatusCode resp = 204)
  /\ (forall key value,
      Load r ctx key w = (Ret (Ok value), w') ->
      exists resp text,
        client r ctx "POST" "load" (anyLoad {| LoadRequest_Key := key |}) w
        = (Ret (Ok resp), w')
        /\ StatusCode resp = 200
        /\ decode_LoadResponse (RespBody resp) = Ok {| LoadResponse_Value := text |}
        /\ base64.DecodeString text = Ok value)
  /\ (forall key,
      Exists r ctx key w = (Ret true, w') ->
      exists resp,
        client r ctx "POST" "exists" (anyExists {| ExistsRequest_Key := key |}) w
        = (Ret (Ok resp), w')
        /\ StatusCode resp = 200
        /\ decode_ExistsResponse (RespBody resp) = Ok {| ExistsResponse_Exists := true |})
  /\ (forall pre recursive keys,
      List r ctx pre recursive w = (Ret (Ok keys), w') ->
      exists resp,
        client r ctx "POST" "list"
          (anyList {| ListRequest_Prefix := pre; ListRequest_Recursive := recursive |}) w
        = (Ret (Ok resp), w')
        /\ StatusCode resp = 200
        /\ decode_ListResponse (RespBody resp) = Ok {| ListResponse_Keys := keys |})
  /\ (forall key info,
      Stat r ctx key w = (Ret (Ok info), w') ->
      exists resp statResp modified,
        client r ctx "POST" "stat" (anyStat {| StatRequest_Key := key |}) w
        = (Ret (Ok resp), w')
        /\ StatusCode resp = 200
        /\ decode_StatResponse (RespBody resp) = Ok statResp
        /\ time_Parse_RFC3339 (StatResponse_Modified statResp) = Ok modified
        /\ info = {| KeyInfo_Key := StatResponse_Key statResp;
                     KeyInfo_Modified := modified;
                     KeyInfo_Size := StatResponse_Size statResp;
                     KeyInfo_IsTerminal := StatResponse_IsTerminal statResp |}).
Proof.
  repeat split.
  - intros key value. open_operation.
    destruct (StatusCode resp =? 201) eqn:E; cbn [negb]; [| discriminate].
    intros [= <-]. exists resp. Zbool. auto 8.
  - intros key. open_operation.
    destruct (StatusCode resp =? 404); [discriminate |].
    destruct (StatusCode resp =? 204) eqn:E; cbn [negb]; [| discriminate].
    intros [= <-]. exists resp. Zbool. auto 8.
  - intros key. open_operation.
    destruct (StatusCode resp =? 204) eqn:E; cbn [negb]; [| discriminate].
    intros [= <-]. exists resp. Zbool. auto 8.
  - intros key value. open_operation.
    destruct (StatusCode resp =? 404); [discriminate |].
    destruct (StatusCode resp =? 200) eqn:E; cbn [negb]; [| discriminate].
    destruct (decode_LoadResponse (RespBody resp)) as [[text] |] eqn:Edec; [| discriminate].
    cbn [LoadResponse_Value].
    destruct (base64.DecodeString text) as [v |] eqn:Ed; [| discriminate].
    intros [= <- <-]. exists resp, text. Zbool. auto 8.
  - intros key. open_operation.
    destruct (StatusCode resp =? 200) eqn:E; cbn [negb]; [| discriminate].
    destruct (decode_ExistsResponse (RespBody resp)) as [[b] |] eqn:Edec; [| discriminate].
    cbn [ExistsResponse_Exists]. intros [= -> <-]. exists resp. Zbool. auto 8.
  - intros pre recursive keys. open_operation.
    destruct (StatusCode resp =? 404); [discriminate |].
    destruct (StatusCode resp =? 200) eqn:E; cbn [negb]; [| discriminate].
    destruct (decode_ListResponse (RespBody resp)) as [[ks] |] eqn:Edec; [| discriminate].
    cbn [ListResponse_Keys]. intros [= <- <-]. exists resp. Zbool. auto 8.
  - intros key info. open_operation.
    destruct (StatusCode resp =? 404); [discriminate |].
    destruct (StatusCode resp =? 200) eqn:E; cbn [negb]; [| discriminate].
    destruct (decode_StatResponse (RespBody resp)) as [statResp |] eqn:Edec; [| discriminate].
    destruct (time_Parse_RFC3339 (StatResponse_Modified statResp)) as [modified |] eqn:Et;
      [| discriminate].
    intros [= <- <-]. exists resp, statResp, modified. Zbool. auto 10.
Qed.

(** X15. A 200 answer that is [null], or an object without the field the
    operation reads, is not an error: [Load] returns no bytes, [List] no
    keys and [Exists] false. *)
Theorem absent_field_is_zero_value r ctx (w : World) resp w1 members :
  StatusCode resp = 200 ->
  RespBody resp = BodyJSON JNull \/ RespBody resp = BodyJSON (JObj members) ->
  (forall key,
      Forall (fun kv => json_decode.find_field ["value"] (fst kv) = None) members ->
      client r ctx "POST" "load" (anyLoad {| LoadRequest_Key := key |}) w
        = (Ret (Ok resp), w1) ->
      Load r ctx key w = (Ret (Ok []), w1))
  /\ (forall pre recursive,
      Forall (fun kv => json_decode.find_field ["keys"] (fst kv) = None) members ->
      client r ctx "POST" "list"
        (anyList {| ListRequest_Prefix := pre; ListRequest_Recursive := recursive |}) w
        = (Ret (Ok resp), w1) ->
      List r ctx pre recursive w = (Ret (Ok []), w1))
  /\ (forall key,
      Forall (fun kv => json_decode.find_field ["exists"] (fst kv) = None) members ->
      client r ctx "POST" "exists" (anyExists {| ExistsRequest_Key := key |}) w
        = (Ret (Ok resp), w1) ->
      Exists r ctx key w = (Ret false, w1)).
Proof.
  intros Hcode Hbody. repeat split.
  - intros key Hnone Hc. unfold Load, bind. rewrite Hc, Hcode.
    cbn [Z.eqb Pos.eqb negb].
    assert (Hd : decode_LoadResponse (RespBody resp) = Ok {| LoadResponse_Value := "" |}).
    { destruct Hbody as [-> | ->]; [reflexivity |].
      unfold decode_LoadResponse, json_decode.Decode. apply decode_members_none, Hnone. }
    rewrite Hd. reflexivity.
  - intros pre recursive Hnone Hc. unfold List, bind. rewrite Hc, Hcode.
    cbn [Z.eqb Pos.eqb negb].
    assert (Hd : decode_ListResponse (RespBody resp) = Ok {| ListResponse_Keys := [] |}).
    { destruct Hbody as [-> | ->]; [reflexivity |].
      unfold decode_ListResponse, json_decode.Decode. apply decode_members_none, Hnone. }
    rewrite Hd. reflexivity.
  - intros key Hnone Hc. unfold Exists, bind. rewrite Hc, Hcode.
    cbn [Z.eqb Pos.eqb negb].
    assert (Hd : decode_ExistsResponse (RespBody resp)
                 = Ok {| ExistsResponse_Exists := false |}).
    { destruct Hbody as [-> | ->]; [reflexivity |].
      unfold decode_ExistsResponse, json_decode.Decode. apply decode_members_none, Hnone. }
    rewrite Hd. reflexivity.
Qed.

(** X16. [Stat] hands on what the remote reports: the key of the answer
    (not the key asked for), the parsed timestamp, the size and the terminal
    flag; a size that does not fit 64 bits is an error although the status
    is 200. *)
Theorem Stat_reports_remote_metadata r ctx key (w : World) resp w1
    reported modified size terminal :
  client r ctx "POST" "stat" (anyStat {| StatRequest_Key := key |}) w
    = (Ret (Ok resp), w1) ->
  StatusCode resp = 200 ->
  RespBody resp = BodyJSON (JObj [("key", JStr reported); ("modified", JStr modified);
                                  ("size", JInt size); ("isTerminal", JBool terminal)]) ->
  (-9223372036854775808 <= size <= 9223372036854775807 ->
   forall t, time_Parse_RFC3339 modified = Ok t ->
     Stat r ctx key w
     = (Ret (Ok {| KeyInfo_Key := reported; KeyInfo_Modified := t;
                   KeyInfo_Size := size; KeyInfo_IsTerminal := terminal |}), w1))
  /\ (size < -9223372036854775808 \/ 9223372036854775807 < size ->
      Stat r ctx key w = (Ret (Err (json_decode.type_error "int64")), w1)).
Proof.
  intros Hc Hcode Hbody. split.
  - intros [Hlo Hhi] t Ht. unfold Stat, bind. rewrite Hc, Hcode, Hbody.
    cbn [Z.eqb Pos.eqb negb].
    assert (Hd : decode_StatResponse
                   (BodyJSON (JObj [("key", JStr reported); ("modified", JStr modified);
                                    ("size", JInt size); ("isTerminal", JBool terminal)]))
                 = Ok {| StatResponse_Key := reported; StatResponse_Modified := modified;
                         StatResponse_Size := size; StatResponse_IsTerminal := terminal |}).
    { cbn. destruct (-9223372036854775808 <=? size) eqn:E1; [| Zbool; lia].
      destruct (size <=? 9223372036854775807) eqn:E2; [| Zbool; lia]. reflexivity. }
    rewrite Hd. cbn [StatResponse_Modified]. rewrite Ht. reflexivity.
  - intros Hout. unfold Stat, bind. rewrite Hc, Hcode, Hbody.
    cbn [Z.eqb Pos.eqb negb].
    assert (Hd : decode_StatResponse
                   (BodyJSON (JObj [("key", JStr reported); ("modified", JStr modified);
                                    ("size", JInt size); ("isTerminal", JBool terminal)]))
                 = Err (json_decode.type_error "int64")).
    { cbn. destruct (-9223372036854775808 <=? size) eqn:E1;
        destruct (size <=? 9223372036854775807) eqn:E2; try reflexivity.
      Zbool. lia. }
    rewrite Hd. reflexivity.
Qed.

End Results.

Lemma UnmarshalCaddyfile_loop_keeps fuel : forall r d r' d' err,
  UnmarshalCaddyfile_loop fuel r d = Some (r', d', err) ->
  caddyfile.tokens d' = caddyfile.tokens d
  /\ caddyfile.cursor d <= caddyfile.cursor d'
  /\ err = None.
Proof.
  induction fuel as [| fuel IH]; intros r d r' d' err; [discriminate |].
  cbn [UnmarshalCaddyfile_loop].
  destruct (caddyfile.Next d) as [more d1] eqn:EN.
  destruct more; cbn [negb].
  - apply caddyfile_facts.Next_true in EN as (Ht1 & Hc1 & _).
    destruct (caddyfile.Args d1) as [v d2] eqn:EA.
    apply caddyfile_facts.Args_cursor in EA as (Ht2 & Hc2).
    intros HL.
    assert (H : caddyfile.tokens d' = caddyfile.tokens d2
                /\ caddyfile.cursor d2 <= caddyfile.cursor d' /\ err = None)
      by (destruct v; eapply IH; exact HL).
    destruct H as (H1 & H2 & H3). repeat split; [congruence | lia | exact H3].
  - unfold caddyfile.Next in EN.
    destruct (caddyfile.cursor d <? caddyfile.len d - 1); [discriminate |].
    injection EN as <-. intros [= <- <- <-]. repeat split. lia.
Qed.

(** X13. [UnmarshalCaddyfile] comes to an end on every token sequence and
    from every cursor position, never reports an error, leaves the tokens
    as they are and never moves the cursor back. *)
Theorem UnmarshalCaddyfile_never_fails r d :
  exists r' d',
    UnmarshalCaddyfile r d = Some (r', d', None)
    /\ caddyfile.tokens d' = caddyfile.tokens d
    /\ caddyfile.cursor d <= caddyfile.cursor d'.
Proof.
  destruct (UnmarshalCaddyfile_total r d) as (r' & d' & H).
  exists r', d'. split; [exact H |].
  unfold UnmarshalCaddyfile in H.
  apply UnmarshalCaddyfile_loop_keeps in H as (H1 & H2 & _). auto.
Qed.

(** ** A context that is already done *)

Section DoneContext.
Context {rt : Runtime} {rm : Remote}.

(** X17. An operation called under a context that is already done
    writes nothing, lets no time pass and returns the context's error,
    wrapped with the method and the URL of the request it did not send;
    [Exists] returns [false]. *)
Theorem done_context_writes_nothing r ctx (c : Call) (w : World) cause :
  ctx_Err ctx (now w) = Some cause ->
  url_Parse_ok (URL (call_request r ctx c)) = true ->
  call_error r ctx c w
  = (Ret (match c with
          | CallExists _ => None
          | _ => Some (urlError (urlErrorOp (Method (call_request r ctx c)))
                         (URL (call_request r ctx c)) cause)
          end), w)
  /\ (forall key, c = CallExists key -> Exists r ctx key w = (Ret false, w))
  /\ (forall key,
        url_Parse_ok (Endpoint r +:+ "unlock") = true ->
        Unlock r ctx key w
        = (Ret (Some (urlError "Post" (Endpoint r +:+ "unlock") cause)), w)).
Proof.
  intros Hctx Hu. split; [| split].
  - destruct c as [key value | key | key | key | pre recursive | key];
      cbn [call_error call_request URL Method built_request] in Hu |- *;
      unfold Store, Load, Delete, Exists, List, Stat, bind, ret;
      erewrite client_done by (try reflexivity; eassumption); reflexivity.
  - intros key ->. cbn [call_request URL built_request] in Hu.
    unfold Exists, bind.
    erewrite client_done by (try reflexivity; eassumption). reflexivity.
  - intros key Hun. unfold Unlock, bind.
    erewrite client_done by (try reflexivity; eassumption). reflexivity.
Qed.

End DoneContext.

(** ** The text of a stored value *)

Module base64_text.
Import base64 base64_facts.

Lemma encode_in_alphabet i : 0 <= i < 64 -> In (encode i) alphabet.
Proof.
  intros Hi. unfold encode. apply nth_In.
  change (length alphabet) with 64%nat. lia.
Qed.

Lemma Encode_alphabet src :
  Forall (fun c => In c alphabet \/ c = StdPadding) (Encode src).
Proof.
  assert (Henc : forall val k, 0 <= k ->
             In (encode (sextet val k)) alphabet \/ encode (sextet val k) = StdPadding).
  { intros val k Hk. left. apply encode_in_alphabet, sextet_range. exact Hk. }
  assert (Hpad : In StdPadding alphabet \/ StdPadding = StdPadding) by (right; reflexivity).
  induction src as [| b0 | b0 b1 | b0 b1 b2 rest IH] using list_ind3;
    cbn [Encode]; cbv zeta.
  - apply List.Forall_nil.
  - apply List.Forall_cons; [apply Henc; lia |]. apply List.Forall_cons; [apply Henc; lia |].
    apply List.Forall_cons; [exact Hpad |]. apply List.Forall_cons; [exact Hpad |]. apply List.Forall_nil.
  - apply List.Forall_cons; [apply Henc; lia |]. apply List.Forall_cons; [apply Henc; lia |].
    apply List.Forall_cons; [apply Henc; lia |]. apply List.Forall_cons; [exact Hpad |].
    apply List.Forall_nil.
  - set (val := Z.lor _ _). change (Z.land val 63) with (sextet val 0).
    apply List.Forall_cons; [apply Henc; lia |]. apply List.Forall_cons; [apply Henc; lia |].
    apply List.Forall_cons; [apply Henc; lia |]. apply List.Forall_cons; [apply Henc; lia |].
    exact IH.
Qed.

Lemma Encode_length src : length (Encode src) = (4 * ((length src + 2) / 3))%nat.
Proof.
  induction src as [| b0 | b0 b1 | b0 b1 b2 rest IH] using list_ind3;
    cbn [Encode]; cbv zeta; try reflexivity.
  cbn [length]. rewrite IH.
  replace (S (S (S (length rest))) + 2)%nat with (length rest + 2 + 1 * 3)%nat by lia.
  rewrite Nat.div_add by lia. lia.
Qed.

End base64_text.

(** X18. The text [Store] sends for a value consists of characters of
    the base64 alphabet and padding only, is four characters long for every
    three bytes begun, and determines the value: two calls of [Store] that
    send the same request were given the same key and the same bytes. *)
Theorem Store_text_determines_value r ctx key (value : list byte) :
  Forall (fun c => In c base64.alphabet \/ c = base64.StdPadding)
         (list_ascii_of_string (base64.EncodeToString value))
  /\ String.length (base64.EncodeToString value) = (4 * ((length value + 2) / 3))%nat
  /\ (forall key' value',
        call_request r ctx (CallStore key value) = call_request r ctx (CallStore key' value') ->
        key = key' /\ value = value').
Proof.
  split; [| split].
  - unfold base64.EncodeToString. rewrite list_ascii_of_string_of_list_ascii.
    apply base64_text.Encode_alphabet.
  - unfold base64.EncodeToString.
    rewrite <- base64_text.Encode_length.
    generalize (base64.Encode value). intros l.
    induction l as [| c l IH]; cbn; [reflexivity | rewrite IH; reflexivity].
  - intros key' value' H. cbn [call_request] in H. unfold built_request in H.
    injection H as Hk Hv. split; [exact Hk |].
    apply (f_equal base64.DecodeString) in Hv.
    rewrite !base64_facts.DecodeString_EncodeToString in Hv.
    injection Hv as Hv. exact Hv.
Qed.

(** ** Instances of the further properties *)

Section MoreInstances.
Local Existing Instance sample_runtime.
Local Existing Instance scripted.

Lemma client_one_authenticated_request_witness :
  exists req,
    wire (snd (client sample_storage Background "POST" "lock"
                 (anyLock {| LockRequest_Key := "example.com" |})
                 (scripted_world [respond 201 no_content])))
    = [(0, req)]
    /\ Header req = [("Content-Type", "application/json");
                     ("X-Api-Key", "VERY-SECURE-API-KEY")].
Proof.
  destruct (client_one_authenticated_request (rt := sample_runtime) (rm := scripted)
              sample_storage Background "POST" "lock"
              (anyLock {| LockRequest_Key := "example.com" |})
              (scripted_world [respond 201 no_content])
              (Ret (Ok {| StatusCode := 201; RespBody := no_content |}))
              (after_exchange (scripted_world [respond 201 no_content])
                 (lock_request sample_storage Background "example.com") [] 0))
    as ([Hsame | (body & req & _ & Hw & _ & _ & Hh & _)] & _).
  - discriminate.
  - reflexivity.
  - discriminate Hsame.
  - exists req. split; [exact Hw | exact Hh].
Defined.


Lemma Unlock_only_204_witness :
  exists w1,
    Unlock sample_storage Background "example.com" (scripted_world [respond 404 no_content])
    = (Ret (Some (errorString "unknown status code received: 404")), w1).
Proof.
  destruct (Unlock_only_204 (rt := sample_runtime) (rm := scripted)
              sample_storage Background "example.com"
              (scripted_world [respond 404 no_content])
              (Ok {| StatusCode := 404; RespBody := no_content |})
              (after_exchange (scripted_world [respond 404 no_content])
                 (unlock_request sample_storage Background "example.com") [] 0)
              eq_refl)
    as (res & HU & _ & _ & _ & Hother).
  destruct (Hother _ eq_refl) as (-> & _); [discriminate |].
  eexists. exact HU.
Defined.

Lemma Lock_requests_spaced_witness :
  spaced polling_interval
    (map fst (wire (snd (Lock 4 sample_storage Background "example.com"
                           (scripted_world script_423_423_201))))).
Proof.
  destruct (Lock_requests_spaced (rt := sample_runtime) (rm := scripted)
              4 sample_storage Background "example.com"
              (scripted_world script_423_423_201)
              (fst (Lock 4 sample_storage Background "example.com"
                      (scripted_world script_423_423_201)))
              (snd (Lock 4 sample_storage Background "example.com"
                      (scripted_world script_423_423_201)))
              (surjective_pairing _))
    as (stamps & Hw & Hs & _ & _).
  rewrite Hw.
  change (wire (scripted_world script_423_423_201)) with (@nil (Z * Request)).
  rewrite app_nil_r, map_map. cbn [fst]. rewrite map_id. exact Hs.
Defined.


Lemma Lock_waits_forever_witness :
  fst (@Lock sample_runtime (constant (respond 412 no_content)) 100 sample_storage
         Background "example.com"
         (@initial (constant (respond 412 no_content)) tt)) = Running.
Proof.
  apply (@Lock_waits_forever sample_runtime sample_storage "example.com"
           (respond 412 no_content) {| StatusCode := 412; RespBody := no_content |} 100);
    [reflexivity | reflexivity | right; reflexivity].
Defined.

Lemma success_requires_success_status_witness :
  exists resp,
    StatusCode resp = 201
    /\ fst (client sample_storage Background "POST" "store"
              (anyStore {| StoreRequest_Key := "example.com";
                           StoreRequest_Value := base64.EncodeToString ["c"; "e"; "r"; "t"]%byte |})
              (scripted_world [respond 201 no_content])) = Ret (Ok resp).
Proof.
  destruct (success_requires_success_status (rt := sample_runtime) (rm := scripted)
              sample_storage Background (scripted_world [respond 201 no_content])
              (after_exchange (scripted_world [respond 201 no_content])
                 (call_request sample_storage Background
                    (CallStore "example.com" ["c"; "e"; "r"; "t"]%byte)) [] 0))
    as (HStore & _).
  destruct (HStore "example.com" ["c"; "e"; "r"; "t"]%byte eq_refl) as (resp & Hc & Hcode).
  exists resp. split; [exact Hcode |]. rewrite Hc. reflexivity.
Defined.

Lemma absent_field_is_zero_value_witness :
  exists w1,
    Load sample_storage Background "example.com"
      (scripted_world [respond 200 (BodyJSON (JObj [("data", JStr "Y2VydA==")]))])
    = (Ret (Ok []), w1).
Proof.
  destruct (absent_field_is_zero_value (rt := sample_runtime) (rm := scripted)
              sample_storage Background
              (scripted_world [respond 200 (BodyJSON (JObj [("data", JStr "Y2VydA==")]))])
              {| StatusCode := 200; RespBody := BodyJSON (JObj [("data", JStr "Y2VydA==")]) |}
              (after_exchange
                 (scripted_world [respond 200 (BodyJSON (JObj [("data", JStr "Y2VydA==")]))])
                 (call_request sample_storage Background (CallLoad "example.com")) [] 0)
              [("data", JStr "Y2VydA==")] eq_refl (or_intror eq_refl))
    as (HLoad & _).
  eexists. apply HLoad; [repeat constructor | reflexivity].
Defined.

Lemma Stat_reports_remote_metadata_witness :
  exists w1 t,
    Stat sample_storage Background "asked.example.com"
      (scripted_world [respond 200 (stat_body "2024-02-29T10:00:00Z")])
    = (Ret (Ok {| KeyInfo_Key := "example.com"; KeyInfo_Modified := t;
                  KeyInfo_Size := 1704; KeyInfo_IsTerminal := true |}), w1).
Proof.
  destruct (Stat_reports_remote_metadata (rt := sample_runtime) (rm := scripted)
              sample_storage Background "asked.example.com"
              (scripted_world [respond 200 (stat_body "2024-02-29T10:00:00Z")])
              {| StatusCode := 200; RespBody := stat_body "2024-02-29T10:00:00Z" |}
              (after_exchange
                 (scripted_world [respond 200 (stat_body "2024-02-29T10:00:00Z")])
                 (call_request sample_storage Background (CallStat "asked.example.com")) [] 0)
              "example.com" "2024-02-29T10:00:00Z" 1704 true eq_refl eq_refl eq_refl)
    as (Hok & _).
  eexists. eexists. apply Hok; [lia | reflexivity].
Defined.

Lemma UnmarshalCaddyfile_block_witness :
  exists d',
    UnmarshalCaddyfile {| Endpoint := ""; ApiKey := "" |}
      (caddyfile.NewDispenser
         (token 1 "rest" :: token 1 "{"
          :: directive_tokens 2
               [("endpoint", "https://old.example.com"); ("ApiKey", "SECRET");
                ("endpoint", "https://myapi.com/tls")]
          ++ [token 5 "}"]))
    = Some ({| Endpoint := "https://myapi.com/tls"; ApiKey := "SECRET" |}, d', None).
Proof.
  apply (UnmarshalCaddyfile_block {| Endpoint := ""; ApiKey := "" |} "rest" 1
           [("endpoint", "https://old.example.com"); ("ApiKey", "SECRET");
            ("endpoint", "https://myapi.com/tls")]).
  repeat constructor; discriminate.
Defined.

Lemma done_context_writes_nothing_witness :
  call_error sample_storage (DoneAt 0 Canceled) (CallLoad "example.com")
    (scripted_world [respond 200 no_content])
  = (Ret (Some (urlError "Post" (Endpoint sample_storage +:+ "load") Canceled)),
     scripted_world [respond 200 no_content]).
Proof.
  apply (done_context_writes_nothing (rt := sample_runtime) (rm := scripted)
           sample_storage (DoneAt 0 Canceled) (CallLoad "example.com")
           (scripted_world [respond 200 no_content]) Canceled);
    reflexivity.
Defined.

End MoreInstances.

Section ServiceInstances.
Local Existing Instance sample_runtime.

Lemma Lock_not_reentrant_witness :
  exists w1,
    @Lock sample_runtime (service (Endpoint sample_storage)) 1 sample_storage
      Background "example.com"
      (@initial (service (Endpoint sample_storage)) {| stored := ∅; locked := ∅ |})
    = (Ret None, w1)
    /\ fst (@Lock sample_runtime (service (Endpoint sample_storage)) 50 sample_storage
              Background "example.com" w1) = Running.
Proof.
  destruct (@Lock_not_reentrant sample_runtime sample_storage "example.com" "other.com" 0
              (@initial (service (Endpoint sample_storage)) {| stored := ∅; locked := ∅ |}))
    as (w1 & HL & Hheld & _).
  - reflexivity.
  - apply not_elem_of_empty.
  - apply not_elem_of_empty.
  - discriminate.
  - exists w1. split; [exact HL | apply Hheld].
Defined.

Lemma Lock_Unlock_cycle_witness :
  exists w1 w2 w4,
    @Lock sample_runtime (service (Endpoint sample_storage)) 1 sample_storage
      Background "example.com"
      (@initial (service (Endpoint sample_storage)) {| stored := ∅; locked := ∅ |})
    = (Ret None, w1)
    /\ @Unlock sample_runtime (service (Endpoint sample_storage)) sample_storage
         Background "example.com" w1 = (Ret None, w2)
    /\ @Unlock sample_runtime (service (Endpoint sample_storage)) sample_storage
         Background "example.com" w2
       = (Ret (Some (errorString "unknown status code received: 404")), w4).
Proof.
  destruct (@Lock_Unlock_cycle sample_runtime sample_storage "example.com" 0
              (@initial (service (Endpoint sample_storage)) {| stored := ∅; locked := ∅ |}))
    as (w1 & w2 & w3 & w4 & HL & HU & _ & _ & HU2 & _).
  - reflexivity.
  - reflexivity.
  - apply not_elem_of_empty.
  - exists w1, w2, w4. split; [exact HL |]. split; [exact HU | exact HU2].
Defined.

Lemma Store_Delete_lifecycle_witness :
  exists w1 w2 w3 w4 w5,
    @Store sample_runtime (service (Endpoint sample_storage)) sample_storage
      Background "example.com" ["c"; "e"; "r"; "t"]%byte
      (@initial (service (Endpoint sample_storage)) {| stored := ∅; locked := ∅ |})
    = (Ret None, w1)
    /\ @Exists sample_runtime (service (Endpoint sample_storage)) sample_storage
         Background "example.com" w1 = (Ret true, w2)
    /\ @Load sample_runtime (service (Endpoint sample_storage)) sample_storage
         Background "example.com" w2 = (Ret (Ok ["c"; "e"; "r"; "t"]%byte), w3)
    /\ @Delete sample_runtime (service (Endpoint sample_storage)) sample_storage
         Background "example.com" w3 = (Ret None, w4)
    /\ @Load sample_runtime (service (Endpoint sample_storage)) sample_storage
         Background "example.com" w4 = (Ret (Err ErrNotExist), w5).
Proof.
  destruct (@Store_Delete_lifecycle sample_runtime sample_storage "example.com"
              ["c"; "e"; "r"; "t"]%byte
              (@initial (service (Endpoint sample_storage)) {| stored := ∅; locked := ∅ |}))
    as (w1 & w2 & w3 & w4 & w5 & w6 & w7 & H1 & H2 & H3 & H4 & H5 & _);
    try reflexivity.
  exists w1, w2, w3, w4, w5. auto 8.
Defined.

End ServiceInstances.
